(** * vFXT cluster orchestration: a shallow embedding of [vFXT/cluster.py]

    The development follows the source file function by function.  Remote
    calls (the XML-RPC management channel, the provisioning backend, the
    clock) are inputs of the embedded functions: a polling loop is driven by
    the list of observations its successive iterations make, a lifecycle
    operation by the outcomes of the calls it issues.  Python integers are
    [Z], [str] values are [string], dictionaries returned by the management
    channel are [gmap string string], exceptions are values of [exn]. *)

From Stdlib Require Import ZArith String Ascii List Lia DecimalString Permutation.
From stdpp Require Import base gmap strings list.
Import ListNotations.
Open Scope Z_scope.

(** ** Python prelude *)

(** [len(l)] *)
Definition len {A} (l : list A) : Z := Z.of_nat (length l).

(** [str(n)] for an integer [n] *)
Definition str (n : Z) : string := NilZero.string_of_int (Z.to_int n).

(** [sub in s] on strings *)
Fixpoint contains (sub s : string) : bool :=
  String.prefix sub s ||
  match s with
  | EmptyString => false
  | String _ rest => contains sub rest
  end.

(** The exception classes the module raises or lets through
    ([vFXT.service] declares the [vFXT*] ones).  [Fault] stands for every
    other subclass of [Exception] (an XML-RPC fault, a socket error). *)
#[warnings="-register-all"]
Inductive exn : Type :=
| vFXTConfigurationException (msg : string)
| vFXTStatusFailure (msg : string)
| vFXTConnectionFailure (msg : string)
| vFXTServiceFailure (failed : list (string * exn))
| vFXTCreateFailure (cause : exn)
| KeyboardInterrupt
| Fault (msg : string).

(** [isinstance(e, Exception)]: [KeyboardInterrupt] derives from
    [BaseException] only. *)
Definition is_Exception (e : exn) : bool :=
  match e with
  | KeyboardInterrupt => false
  | _ => true
  end.

(** A call either returns or raises. *)
Inductive result (A : Type) : Type :=
| Return (a : A)
| Raise (e : exn).
Arguments Return {A} a.
Arguments Raise {A} e.

(** [repr] of a list of plain names, as ["{}".format(names)] prints it *)
Definition repr_name (s : string) : string := "'" +:+ s +:+ "'".

Fixpoint join_with (sep : string) (l : list string) : string :=
  match l with
  | [] => ""
  | [x] => x
  | x :: rest => x +:+ sep +:+ join_with sep rest
  end.

Definition repr_names (l : list string) : string :=
  "[" +:+ join_with ", " (map repr_name l) +:+ "]".

(** ** [Cluster.valid_cluster_name] (lines 1640-1651) *)

Module Regex.

(** The part of the pattern syntax of [re] the source uses, without flags:
    [^], [$], a character set, concatenation, [(...)?] and [*]. *)
Inductive regex :=
| Bol
| Eol
| Class (set : ascii -> bool)
| Cat (a b : regex)
| Opt (a : regex)
| Star (a : regex).

Definition newline : ascii := "010"%char.

(** [r] matches the subject [s] from position [i] up to position [j].
    Without [re.MULTILINE], [^] matches at the start of the subject and
    [$] at its end and just before a newline that ends it. *)
Inductive matches (s : list ascii) : regex -> nat -> nat -> Prop :=
| m_bol : matches s Bol 0 0
| m_eol : matches s Eol (length s) (length s)
| m_eol_newline i :
    nth_error s i = Some newline -> S i = length s -> matches s Eol i i
| m_class set i c :
    nth_error s i = Some c -> set c = true -> matches s (Class set) i (S i)
| m_cat a b i k j :
    matches s a i k -> matches s b k j -> matches s (Cat a b) i j
| m_opt_some a i j : matches s a i j -> matches s (Opt a) i j
| m_opt_none a i : matches s (Opt a) i i
| m_star_nil a i : matches s (Star a) i i
| m_star_cons a i k j :
    matches s a i k -> matches s (Star a) k j -> matches s (Star a) i j.

(** [re.search(r, s)] finds a match: the pattern matches from some
    position of the subject. *)
Definition found (r : regex) (s : string) : Prop :=
  exists i j, (i <= String.length s)%nat /\ matches (list_ascii_of_string s) r i j.

(** The positions reached by repeating [f] from [i], each round moving
    forward; [fuel] bounds the number of rounds. *)
Fixpoint iterate (f : nat -> list nat) (fuel : nat) (i : nat) : list nat :=
  i :: match fuel with
       | O => []
       | S fuel => flat_map (iterate f fuel) (List.filter (fun k => (i <? k)%nat) (f i))
       end.

(** The positions at which a match of [r] that starts at [i] can end. *)
Fixpoint ends (s : list ascii) (r : regex) (i : nat) : list nat :=
  match r with
  | Bol => if (i =? 0)%nat then [i] else []
  | Eol =>
      if (i =? length s)%nat then [i]
      else match nth_error s i with
           | Some c => if Ascii.eqb c newline && (S i =? length s)%nat then [i] else []
           | None => []
           end
  | Class set =>
      match nth_error s i with
      | Some c => if set c then [S i] else []
      | None => []
      end
  | Cat a b => flat_map (ends s b) (ends s a i)
  | Opt a => ends s a i ++ [i]
  | Star a => iterate (ends s a) (length s) i
  end.

(** [bool(re.search(r, s))] *)
Definition search (r : regex) (s : string) : bool :=
  let subject := list_ascii_of_string s in
  existsb (fun i => match ends subject r i with [] => false | _ => true end)
          (seq 0 (S (length subject))).

(** A character range [lo-hi] of a set *)
Definition range (lo hi c : ascii) : bool :=
  (N_of_ascii lo <=? N_of_ascii c)%N && (N_of_ascii c <=? N_of_ascii hi)%N.

End Regex.

Module NameCheck.
Import Regex.

(** [[a-z]] *)
Definition lower (c : ascii) : bool := range "a" "z" c.

(** [[-a-z0-9]] *)
Definition hyphen_lower_digit (c : ascii) : bool :=
  Ascii.eqb c "-" || range "a" "z" c || range "0" "9" c.

(** [[a-z0-9]] *)
Definition lower_digit (c : ascii) : bool := range "a" "z" c || range "0" "9" c.

(** The pattern of line 1649, [^[a-z]([-a-z0-9]*[a-z0-9])?$] *)
Definition cluster_name_pattern : regex :=
  Cat Bol
    (Cat (Class lower)
       (Cat (Opt (Cat (Star (Class hyphen_lower_digit)) (Class lower_digit)))
            Eol)).

Definition valid_cluster_name (name : string) : bool :=
  let name_len := Z.of_nat (String.length name) in
  if (name_len <? 1) || (name_len >? 128) then false
  else if search cluster_name_pattern name then true
  else false.

End NameCheck.

(** ** The management channel *)

Module Channel.

(** An address range as the channel reports it ([name], [firstIP],
    [lastIP]); an address is the integer [Cidr.from_address] yields. *)
Record range := { name : string; firstIP : Z; lastIP : Z }.

(** What the cluster holds of interest to [add_nodes]: [clusterIPs] of
    [cluster.get()], the [clientFacingIPs] of each vserver, and the
    management address. *)
Record remote := {
  clusterIPs : list range;
  vservers : gmap string (list range);
  mgmtIP : Z
}.

(** [vserver.list()] *)
Definition vserver_list (r : remote) : list string := map fst (map_to_list (vservers r)).

(** [vserver.get(vserver)[vserver]['clientFacingIPs']] *)
Definition clientFacingIPs (r : remote) (vserver : string) : list range :=
  default [] (vservers r !! vserver).

(** Modelled from the spec: [Cidr.expand_address_range], one of the CIDR
    primitives the specification leaves to a collaborator: the addresses
    from [first] to [last]. *)
Definition expand_address_range (first last : Z) : list Z :=
  seqZ first (last - first + 1).

(** The calls of the channel that change address ranges *)
Inductive operation :=
| addClusterIPs (first last : Z) (netmask : string)
| addClientIPs (vserver : string) (first last : Z) (netmask : string)
| removeClusterIPs (range_name : string)
| removeClientIPs (vserver : string) (range_name : string).

(** Modelled from the spec: the effect of such a call once its activity
    has succeeded (the cluster side is not part of the repository).  An
    addition appends a range, to which the cluster gives the name
    [new_name]; a removal drops the ranges of that name. *)
Definition apply (new_name : string) (op : operation) (r : remote) : remote :=
  let other (n : string) (x : range) := negb (String.eqb (name x) n) in
  match op with
  | addClusterIPs first last _ =>
      {| clusterIPs := clusterIPs r ++ [ {| name := new_name; firstIP := first; lastIP := last |} ];
         vservers := vservers r; mgmtIP := mgmtIP r |}
  | addClientIPs v first last _ =>
      {| clusterIPs := clusterIPs r;
         vservers := <[ v := clientFacingIPs r v
                              ++ [ {| name := new_name; firstIP := first; lastIP := last |} ] ]>
                       (vservers r);
         mgmtIP := mgmtIP r |}
  | removeClusterIPs n =>
      {| clusterIPs := List.filter (other n) (clusterIPs r);
         vservers := vservers r; mgmtIP := mgmtIP r |}
  | removeClientIPs v n =>
      {| clusterIPs := clusterIPs r;
         vservers := <[ v := List.filter (other n) (clientFacingIPs r v) ]> (vservers r);
         mgmtIP := mgmtIP r |}
  end.

(** [Cluster.in_use_addresses(category)] (lines 1653-1681), as the set it
    builds *)
Definition in_use_addresses (r : remote) (category : string) : gset Z :=
  let update (addresses : gset Z) (x : range) : gset Z :=
    let range_addrs := expand_address_range (firstIP x) (lastIP x) in
    addresses ∪ list_to_set range_addrs in
  let addresses : gset Z := ∅ in
  let addresses :=
    if bool_decide (category ∈ ["all"; "mgmt"]) then addresses ∪ {[ mgmtIP r ]}
    else addresses in
  let addresses :=
    if bool_decide (category ∈ ["all"; "vserver"]) then
      fold_left (fun addresses vs => fold_left update (clientFacingIPs r vs) addresses)
                (vserver_list r) addresses
    else addresses in
  let addresses :=
    if bool_decide (category ∈ ["all"; "cluster"]) then
      fold_left update (clusterIPs r) addresses
    else addresses in
  addresses.

End Channel.

(** ** Address math of [Cluster.add_nodes] (lines 669-682, 717-723) *)

Module AddressMath.
Import Channel.

(** [xrange(a, b)] *)
Definition xrange (a b : Z) : list Z := seqZ a (b - a).

Record needs := {
  need_vserver : Z;
  need_cluster : Z;
  need_private : Z;
  ip_count : Z
}.

(** Lines 669-682.  [vservers] is [xmlrpc.vserver.list()],
    [existing_vserver] and [existing_cluster] are
    [in_use_addresses('vserver')] and [in_use_addresses('cluster')],
    [ALLOCATE_PRIVATE_ADDRESSES] is the backend's class attribute. *)
Definition address_needs (node_count count cluster_ips_per_node : Z)
    (vservers : list string) (existing_vserver existing_cluster : list Z)
    (ALLOCATE_PRIVATE_ADDRESSES : bool) : needs :=
  let vserver_count := len vservers in
  let need_vserver := ((node_count + count) * vserver_count) - len existing_vserver in
  let need_cluster := ((node_count + count) * cluster_ips_per_node) - len existing_cluster in
  let need_cluster := if need_cluster >? 0 then need_cluster else 0 in
  let need_vserver := if need_vserver >? 0 then need_vserver else 0 in
  let need_private := if ALLOCATE_PRIVATE_ADDRESSES then count else 0 in
  {| need_vserver := need_vserver;
     need_cluster := need_cluster;
     need_private := need_private;
     ip_count := need_vserver + need_cluster + need_private |}.

(** Lines 719-723: the share of one vserver; [None] is the [continue]. *)
Definition vserver_to_add (node_count count : Z) (clientFacingIPs : list range)
    : option Z :=
  let v_len := len (flat_map (fun r => xrange (firstIP r) (lastIP r + 1)) clientFacingIPs) in
  let to_add := (node_count + count) - v_len in
  if to_add <? 1 then None else Some to_add.

End AddressMath.

(** ** [Cluster.wait_for_healthcheck] (lines 288-340) *)

Module Health.

(** What one iteration of the loop sees: the dictionary
    [cluster.maxActiveAlertSeverity()] returned (the empty dictionary when
    the call raised, line 314), and the reading [int(time.time())] the
    iteration takes on line 321 or on line 327. *)
Record poll := { alertstats : gmap string string; now : Z }.

(** An entry of [alert.conditions()] *)
Record condition := { name : string; severity : string }.

(** Lines 310-312 *)
Definition acceptable_states (state : string) : list string :=
  let acceptable_states := [state; "green"] in
  if String.eqb state "red" then acceptable_states ++ ["yellow"] else acceptable_states.

(** The test of line 320 *)
Definition holds (state : string) (stats : gmap string string) : bool :=
  match stats !! "maxCondition" with
  | Some c => existsb (String.eqb c) (acceptable_states state)
  | None => false
  end.

(** The severity scale of the data model, worst first. *)
Definition quality (c : string) : option nat :=
  if String.eqb c "red" then Some 0%nat
  else if String.eqb c "yellow" then Some 1%nat
  else if String.eqb c "green" then Some 2%nat
  else None.

(** [c] is the severity [state] or a better one. *)
Definition at_least (state c : string) : Prop :=
  exists qs qc, quality state = Some qs /\ quality c = Some qc /\ (qs <= qc)%nat.

(** [c] is strictly better than [state]. *)
Definition better (state c : string) : Prop :=
  exists qs qc, quality state = Some qs /\ quality c = Some qc /\ (qs < qc)%nat.

(** The loop variables *)
Record vars := { start_time : Z; observed : Z; retries : Z }.

Inductive step :=
| Break (observed : Z)
| Failed (e : exn)
| Next (v : vars).

(** Lines 334-339.  [conditions] is the outcome of the diagnostic query
    [alert.conditions()]. *)
Definition healthcheck_failure (state : string) (conditions : result (list condition))
    : exn :=
  match conditions with
  | Raise e => e
  | Return conditions =>
      let alert_codes :=
        map name (List.filter (fun c => negb (String.eqb (severity c) state)) conditions) in
      match alert_codes with
      | [] => vFXTStatusFailure ("Healthcheck for state " +:+ state +:+ " failed")
      | _ => vFXTStatusFailure
               ("Healthcheck for state " +:+ state +:+ " failed: " +:+ repr_names alert_codes)
      end
  end.

(** One pass through the body of [while True] (lines 314-340); the log
    lines are left out. *)
Definition iteration (state : string) (duration : Z)
    (conditions : result (list condition)) (v : vars) (p : poll) : step :=
  let after (start_time observed : Z) :=
    let retries := retries v - 1 in
    if retries =? 0 then Failed (healthcheck_failure state conditions)
    else Next {| start_time := start_time; observed := observed; retries := retries |} in
  if holds state (alertstats p) then
    let observed := now p - start_time v in
    if observed >=? duration then Break observed
    else after (start_time v) observed
  else
    let observed := 0 in
    let start_time := now p in
    after start_time observed.

Inductive outcome :=
| Healthy (polls_made : nat) (observed : Z)
| Raised (polls_made : nat) (e : exn)
| Polling (v : vars).

(** The loop, run over the observations of its successive iterations;
    [Polling] when all of [polls] are consumed and the loop goes on. *)
Fixpoint loop (state : string) (duration : Z) (conditions : result (list condition))
    (made : nat) (v : vars) (polls : list poll) : outcome :=
  match polls with
  | [] => Polling v
  | p :: rest =>
      match iteration state duration conditions v p with
      | Break observed => Healthy (S made) observed
      | Failed e => Raised (S made) e
      | Next v' => loop state duration conditions (S made) v' rest
      end
  end.

(** [wait_for_healthcheck(state, retries, duration, conn_retries)].
    [connect] is the outcome of [self.xmlrpc(conn_retries)] on line 304,
    [t0] the reading of line 306. *)
Definition wait_for_healthcheck (state : string) (retries duration : Z)
    (connect : result unit) (t0 : Z) (polls : list poll)
    (conditions : result (list condition)) : outcome :=
  match connect with
  | Raise e => Raised 0 e
  | Return _ =>
      loop state duration conditions 0
        {| start_time := t0; observed := 0; retries := retries |} polls
  end.


(** Input of the examples: a poll at time [t] that reports severity [c]. *)
Definition reports (c : string) (t : Z) : poll :=
  {| alertstats := {[ "maxCondition" := c ]}; now := t |}.

End Health.

(** ** [Cluster.wait_for_nodes_to_join] (lines 1368-1422) *)

Module JoinWait.

(** An entry of [node.listUnconfiguredNodes()] *)
Record unconfigured := { address : string; status : string }.

(** What one iteration of the loop sees: the outcome of [node.list()]
    (line 1385), of [node.listUnconfiguredNodes()] (line 1400), the reading
    [int(time.time())] it takes on line 1403 or on line 1411, and the
    outcome of [self.xmlrpc()] on line 1420. *)
Record poll := {
  node_list : result (list string);
  unconfigured_nodes : result (list unconfigured);
  now : Z;
  log_connection : result unit
}.

(** The loop variables *)
Record vars := { start_time : Z; retries : Z }.

Inductive step :=
| Break
| Failed (e : exn)
| Next (v : vars).

(** The double nearest to the integer [n], a tie going to the even
    significand; an integer below 2^53 in magnitude is a double.  The
    result is 2^1024 in magnitude or more when the nearest double is an
    infinity. *)
Definition nearest_double (n : Z) : Z :=
  let a := Z.abs n in
  let e := Z.log2 a - 52 in
  if e <=? 0 then n
  else
    let q := Z.shiftr a e in
    let r := Z.land a (Z.ones e) in
    let half := Z.shiftl 1 (e - 1) in
    let q := if (r >? half) || ((r =? half) && Z.odd q) then q + 1 else q in
    Z.sgn n * Z.shiftl q e.

(** [int(retries * 1.5)] (line 1412) in double precision: [retries] is
    converted to the nearest double [x], the product is the double nearest
    to [1.5 * x], half of the double nearest to [3 * x], and [int]
    truncates it toward zero.  The conversion of an integer beyond the
    doubles and [int] of an infinite product raise [OverflowError]. *)
Definition int_times_1_5 (retries : Z) : result Z :=
  let x := nearest_double retries in
  if Z.abs x >=? 2 ^ 1024 then
    Raise (Fault "OverflowError: long int too large to convert to float")
  else
    let twice := nearest_double (3 * x) in
    if Z.abs twice >=? 2 ^ 1025 then
      Raise (Fault "OverflowError: cannot convert float infinity to integer")
    else Return (Z.quot twice 2).

(** Lines 1400-1401: some joining node of the cluster reports an image
    upgrade. *)
Definition image_upgrade (node_addresses : list string) (us : list unconfigured) : bool :=
  let unjoined_status :=
    map status (List.filter (fun u => bool_decide (address u ∈ node_addresses)) us) in
  existsb (contains "image") unjoined_status.

Definition timed_out (expected found : Z) : exn :=
  vFXTConfigurationException
    ("Timed out waiting for " +:+ str (expected - found) +:+ " node(s) to join.").

(** Lines 1411-1421 *)
Definition check (expected found : Z) (v : vars) (p : poll) : step :=
  let duration := now p - start_time v in
  match int_times_1_5 (retries v) with
  | Raise e => Failed e
  | Return limit =>
      let taking_too_long := duration >? limit in
      if (retries v =? 0) || taking_too_long then Failed (timed_out expected found)
      else
        let retries := retries v - 1 in
        let v' := {| start_time := start_time v; retries := retries |} in
        if retries mod 10 =? 0 then
          match log_connection p with
          | Raise e => Failed e
          | Return _ => Next v'
          end
        else Next v'
  end.

(** Lines 1394-1406 followed by the check; an exception that is no
    [Exception] passes through the [try]. *)
Definition after_count (expected found : Z) (node_addresses : list string)
    (v : vars) (p : poll) : step :=
  if expected =? found then Break
  else
    match unconfigured_nodes p with
    | Return us =>
        if image_upgrade node_addresses us
        then Next {| start_time := now p; retries := retries v |}
        else check expected found v p
    | Raise e => if is_Exception e then check expected found v p else Failed e
    end.

(** One pass through the body of [while True] (lines 1384-1421) *)
Definition iteration (expected : Z) (node_addresses : list string)
    (v : vars) (p : poll) : step :=
  match node_list p with
  | Return l => after_count expected (len l) node_addresses v p
  | Raise e =>
      if is_Exception e then after_count expected 1 node_addresses v p else Failed e
  end.

Inductive outcome :=
| Joined (polls_made : nat)
| Raised (polls_made : nat) (e : exn)
| Waiting (v : vars).

Fixpoint loop (expected : Z) (node_addresses : list string)
    (made : nat) (v : vars) (polls : list poll) : outcome :=
  match polls with
  | [] => Waiting v
  | p :: rest =>
      match iteration expected node_addresses v p with
      | Break => Joined (S made)
      | Failed e => Raised (S made) e
      | Next v' => loop expected node_addresses (S made) v' rest
      end
  end.

(** [wait_for_nodes_to_join(retries)] on a cluster whose nodes have the
    addresses [nodes]; [first_list] is the outcome of [node.list()] on line
    1378, [t0] the reading of line 1381. *)
Definition wait_for_nodes_to_join (nodes : list string) (retries : Z)
    (first_list : result (list string)) (t0 : Z) (polls : list poll) : outcome :=
  let expected := len nodes in
  match first_list with
  | Raise e => Raised 0 e
  | Return l =>
      if expected >? len l then
        let start_time := t0 in
        let node_addresses := nodes in
        loop expected node_addresses 0 {| start_time := start_time; retries := retries |} polls
      else Joined 0
  end.

(** The count of a poll, as line 1385-1388 computes it *)
Definition found (p : poll) : Z :=
  match node_list p with
  | Return l => len l
  | Raise _ => 1
  end.

(** The poll passes the [try] of lines 1394-1406 without restarting the
    timer: the status query failed, or no joining node of the cluster
    reports an image upgrade. *)
Definition no_upgrade (nodes : list string) (p : poll) : Prop :=
  match unconfigured_nodes p with
  | Return us => image_upgrade nodes us = false
  | Raise e => is_Exception e = true
  end.

(** The poll restarts the timer (lines 1401-1404). *)
Definition upgrading (nodes : list string) (p : poll) : bool :=
  match unconfigured_nodes p with
  | Return us => image_upgrade nodes us
  | Raise _ => false
  end.

(** The poll finds the node count short of [expected]. *)
Definition short (expected : Z) (p : poll) : Prop :=
  match node_list p with
  | Return l => len l <> expected
  | Raise e => is_Exception e = true /\ 1 <> expected
  end.

(** The time the elapsed time is measured from after the polls [polls]:
    the start of the wait, or the last poll that saw an image upgrade. *)
Definition timer_start (nodes : list string) (t0 : Z) (polls : list poll) : Z :=
  fold_left (fun since p => if upgrading nodes p then now p else since) polls t0.

(** Inputs of the examples: a two-node cluster of which one node has
    joined; a poll during which the other node upgrades its image, a poll
    that finds both nodes, a poll that still finds one node. *)
Definition two_nodes : list string := ["10.0.0.1"; "10.0.0.2"].

Definition upgrade_poll (t : Z) : poll :=
  {| node_list := Return ["node1"];
     unconfigured_nodes :=
       Return [ {| address := "10.0.0.2"; status := "joining: upgrade the image" |} ];
     now := t;
     log_connection := Return tt |}.

Definition joined_poll (t : Z) : poll :=
  {| node_list := Return ["node1"; "node2"];
     unconfigured_nodes := Return [];
     now := t;
     log_connection := Return tt |}.

Definition short_poll (t : Z) : poll :=
  {| node_list := Return ["node1"];
     unconfigured_nodes := Return [ {| address := "10.0.0.2"; status := "joining: started" |} ];
     now := t;
     log_connection := Return tt |}.

End JoinWait.

(** ** Activity polling (lines 706-715 and the loops of the same shape;
    lines 1116-1136 for [attach_bucket]) *)

Module Activity.

(** How a polling loop over [cluster.getActivity(activity)] ends, given the
    replies its successive iterations receive: the state is [success]
    (the [break]), the failure test fires, the call raises, or the replies
    are used up and the loop is still polling. *)
Inductive polled :=
| Done (polls_made : nat)
| Failure (polls_made : nat)
| Error (polls_made : nat) (e : exn)
| Pending (polls_made : nat).

(** The loop of lines 708-714, which lines 732-738, 791-798, 806-813,
    1221-1227 and 1275-1281 repeat: [Failure] is the point where the copies
    differ (they raise, or log and [break]). *)
Fixpoint poll (made : nat) (replies : list (result (gmap string string))) : polled :=
  match replies with
  | [] => Pending made
  | Raise e :: _ => Error (S made) e
  | Return response :: rest =>
      if bool_decide (response !! "state" = Some "success") then Done (S made)
      else if bool_decide (response !! "status" = Some "failure") then Failure (S made)
      else poll (S made) rest
  end.

Inductive outcome :=
| Completed (polls_made : nat)
| Raised (polls_made : nat) (e : exn)
| Polling (polls_made : nat).

(** Lines 706-715 of [add_nodes]: [activity] is what
    [cluster.addClusterIPs(body)] returned. *)
Definition extend_cluster_activity (activity : string)
    (replies : list (result (gmap string string))) : outcome :=
  if negb (String.eqb activity "success") then
    match poll 0 replies with
    | Done n => Completed n
    | Failure n => Raised n (vFXTConfigurationException "Failed to extend cluster addresses")
    | Error n e => Raised n e
    | Pending n => Polling n
    end
  else Completed 0.

(** What one iteration of the loop of [attach_bucket] sees: the outcome of
    [getActivity] and of [self.xmlrpc()] on line 1135. *)
Record bucket_poll := {
  reply : result (gmap string string);
  log_connection : result unit
}.

(** Lines 1118-1136 *)
Fixpoint attach_bucket_loop (corefiler : string) (retries : Z) (made : nat)
    (polls : list bucket_poll) : outcome :=
  match polls with
  | [] => Polling made
  | p :: rest =>
      match (match reply p with
             | Return r => Return r
             | Raise e => if is_Exception e then Return ∅ else Raise e
             end) with
      | Raise e => Raised (S made) e
      | Return response =>
          let go_on :=
            if retries =? 0 then
              match response !! "status" with
              | Some status => Raised (S made) (vFXTConfigurationException ("Giving up: " +:+ status))
              | None => Raised (S made) (Fault "KeyError: 'status'")
              end
            else
              let retries := retries - 1 in
              if (retries mod 10 =? 0) && bool_decide (is_Some (response !! "status")) then
                match log_connection p with
                | Raise e => Raised (S made) e
                | Return _ => attach_bucket_loop corefiler retries (S made) rest
                end
              else attach_bucket_loop corefiler retries (S made) rest in
          match response !! "state" with
          | Some state =>
              if String.eqb state "success" then Completed (S made)
              else if String.eqb state "failure" then
                Raised (S made)
                  (vFXTConfigurationException
                     ("Failed to create corefiler " +:+ corefiler +:+ ": "
                      +:+ default "Unknown" (response !! "status")))
              else go_on
          | None => go_on
          end
      end
  end.

(** Lines 1116-1136: [activity] is what [corefiler.createCloudFiler]
    returned, [WAIT_FOR_SUCCESS] the backend's constant. *)
Definition attach_bucket_activity (corefiler activity : string) (WAIT_FOR_SUCCESS : Z)
    (polls : list bucket_poll) : outcome :=
  let retries := WAIT_FOR_SUCCESS in
  if negb (String.eqb activity "success") then attach_bucket_loop corefiler retries 0 polls
  else Completed 0.

(** Input of the examples: the reply for an activity that has failed, with
    the failure text in [status]. *)
Definition failed_reply (status : string) : gmap string string :=
  {[ "state" := "failure"; "status" := status ]}.

End Activity.

(** ** [Cluster.cluster_config] (lines 378-435) *)

Module Config.

Definition CONFIGURATION_EXPIRATION : Z := 7200.

(** The line feed of the string literals *)
Definition LF : string := String "010"%char EmptyString.

(** ['{}'.format(x)] for an attribute that holds a string or [None] *)
Definition fmt (x : option string) : string := default "None" x.

(** Truth value of such an attribute *)
Definition truthy (x : option string) : bool :=
  match x with
  | Some v => negb (String.eqb v "")
  | None => false
  end.

(** The attributes of the cluster object the function reads; [nodes] holds
    the address [n.ip()] of each node. *)
Record cluster := {
  name : option string;
  admin_password : option string;
  mgmt_ip : option string;
  mgmt_netmask : option string;
  cluster_ip_start : option string;
  cluster_ip_end : option string;
  nodes : list string;
  join_mgmt : bool
}.

(** What the backend answers: [get_dns_servers()], [get_ntp_servers()],
    [get_default_router()]. *)
Record backend := {
  dns_servers : list string;
  ntp_servers : list string;
  default_router : string
}.

(** Lines 424-426 and 431-433: the three [server] lines a loop over
    [range(3)] appends. *)
Definition server_lines (servs : list string) (config : string) : string :=
  let count := len servs in
  fold_left
    (fun config idx =>
       let v := if idx <? count then nth (Z.to_nat idx) servs "" else "" in
       config +:+ ("server" +:+ str (idx + 1) +:+ "=" +:+ v +:+ LF))
    (seqZ 0 3) config.

(** [cluster_config(joining, expiration)].  [time] is the integer part of
    [time.time()]: the expiration added before [int] is an integer. *)
Definition cluster_config (self : cluster) (service : backend) (time : Z)
    (joining : bool) (expiration : Z) : result string :=
  let expiry := str (time + (if expiration =? 0 then CONFIGURATION_EXPIRATION else expiration)) in
  if joining then
    let mgmt_ip :=
      match nodes self with
      | first :: _ => if negb (join_mgmt self) then Some first else mgmt_ip self
      | [] => mgmt_ip self
      end in
    Return ("# cluster.cfg" +:+ LF +:+ "[basic]" +:+ LF +:+
            "join cluster=" +:+ fmt mgmt_ip +:+ LF +:+
            "expiration=" +:+ expiry +:+ LF)
  else
    let dns_servs := dns_servers service in
    let ntp_servs := ntp_servers service in
    let router := default_router service in
    if negb (forallb truthy [mgmt_ip self; mgmt_netmask self;
                             cluster_ip_start self; cluster_ip_end self])
    then Raise (vFXTConfigurationException
                  "Management IP/Mask and the cluster IP range is required")
    else
      let config :=
        "# cluster.cfg" +:+
        LF +:+ "[basic]" +:+
        LF +:+ "cluster name=" +:+ fmt (name self) +:+
        LF +:+ "password=" +:+ fmt (admin_password self) +:+
        LF +:+ "expiration=" +:+ expiry +:+
        LF +:+ "[management network]" +:+
        LF +:+ "address=" +:+ fmt (mgmt_ip self) +:+
        LF +:+ "netmask=" +:+ fmt (mgmt_netmask self) +:+
        LF +:+ "default router=" +:+ router +:+
        LF +:+ "[cluster network]" +:+
        LF +:+ "first address=" +:+ fmt (cluster_ip_start self) +:+
        LF +:+ "last address=" +:+ fmt (cluster_ip_end self) in
      let config := config +:+ (LF +:+ "[dns]" +:+ LF) in
      let config := server_lines dns_servs config in
      let config := config +:+ ("domain=" +:+ LF) in
      let config := config +:+ (LF +:+ "[ntp]" +:+ LF) in
      let config := server_lines ntp_servs config in
      Return config.

(** A text as the list of its lines, each ended by a line feed *)
Fixpoint text (lines : list string) : string :=
  match lines with
  | [] => ""
  | l :: rest => l +:+ LF +:+ text rest
  end.

(** The bootstrap configuration text as the interface description lays it
    out, line by line, with the values in place of the placeholders. *)
Definition bootstrap_template (name password expiry mgmt netmask router first last
    dns1 dns2 dns3 ntp1 ntp2 ntp3 : string) : string :=
  text [ "# cluster.cfg";
         "[basic]";
         "cluster name=" +:+ name;
         "password=" +:+ password;
         "expiration=" +:+ expiry;
         "[management network]";
         "address=" +:+ mgmt;
         "netmask=" +:+ netmask;
         "default router=" +:+ router;
         "[cluster network]";
         "first address=" +:+ first;
         "last address=" +:+ last;
         "[dns]";
         "server1=" +:+ dns1;
         "server2=" +:+ dns2;
         "server3=" +:+ dns3;
         "domain=";
         "[ntp]";
         "server1=" +:+ ntp1;
         "server2=" +:+ ntp2;
         "server3=" +:+ ntp3 ].

(** The text the function builds: the same lines, with an empty line
    before [[ntp]]. *)
Definition bootstrap_text (name password expiry mgmt netmask router first last
    dns1 dns2 dns3 ntp1 ntp2 ntp3 : string) : string :=
  text [ "# cluster.cfg";
         "[basic]";
         "cluster name=" +:+ name;
         "password=" +:+ password;
         "expiration=" +:+ expiry;
         "[management network]";
         "address=" +:+ mgmt;
         "netmask=" +:+ netmask;
         "default router=" +:+ router;
         "[cluster network]";
         "first address=" +:+ first;
         "last address=" +:+ last;
         "[dns]";
         "server1=" +:+ dns1;
         "server2=" +:+ dns2;
         "server3=" +:+ dns3;
         "domain=";
         "";
         "[ntp]";
         "server1=" +:+ ntp1;
         "server2=" +:+ ntp2;
         "server3=" +:+ ntp3 ].

(** The join-only variant *)
Definition join_text (address expiry : string) : string :=
  text [ "# cluster.cfg";
         "[basic]";
         "join cluster=" +:+ address;
         "expiration=" +:+ expiry ].

(** Inputs of the examples *)
Definition example_cluster : cluster :=
  {| name := Some "vfxt"; admin_password := Some "secret";
     mgmt_ip := Some "10.0.0.10"; mgmt_netmask := Some "255.255.255.0";
     cluster_ip_start := Some "10.0.0.11"; cluster_ip_end := Some "10.0.0.20";
     nodes := ["10.0.0.5"]; join_mgmt := true |}.

Definition example_backend : backend :=
  {| dns_servers := ["10.0.0.2"]; ntp_servers := ["10.0.0.3"; "10.0.0.4"];
     default_router := "10.0.0.1" |}.

End Config.

(** ** [Cluster.parallel_call] (lines 818-857) *)

Module Fanout.

(** The executor between the first [t.start()] and the last [t.join()]:
    the instances the first loop has not reached, the threads started and
    not yet finished, the instances whose call has run to its end (in that
    order), and the queue [failq]. *)
Record state := {
  unstarted : list string;
  running : list string;
  invoked : list string;
  failq : list (string * exn)
}.

(** [thread_cb] (lines 832-840).  [run instance_id] is how building the
    [ServiceInstance] and calling [method] on it ends in the worker: [None]
    when it returns, [Some e] when it raises [e]; an [e] that is no
    [Exception] ends the thread without a queue entry. *)
Definition thread_cb (method : string) (run : string -> option exn)
    (instance_id : string) (q : list (string * exn)) : list (string * exn) :=
  match run instance_id with
  | Some e =>
      if is_Exception e
      then q ++ [("Failed to " +:+ method +:+ " instance " +:+ instance_id, e)]
      else q
  | None => q
  end.

(** What the scheduler does next: the main thread starts the next worker,
    or the [i]-th running worker runs to its end. *)
Inductive choice :=
| StartNext
| Finish (i : nat).

Definition advance (method : string) (run : string -> option exn)
    (st : state) (c : choice) : state :=
  match c with
  | StartNext =>
      match unstarted st with
      | si :: rest =>
          {| unstarted := rest; running := running st ++ [si];
             invoked := invoked st; failq := failq st |}
      | [] => st
      end
  | Finish i =>
      match running st !! i with
      | Some si =>
          {| unstarted := unstarted st; running := delete i (running st);
             invoked := invoked st ++ [si];
             failq := thread_cb method run si (failq st) |}
      | None => st
      end
  end.

Definition execute (method : string) (run : string -> option exn)
    (schedule : list choice) (st : state) : state :=
  fold_left (advance method run) schedule st.

Definition initial (serviceinstances : list string) : state :=
  {| unstarted := serviceinstances; running := []; invoked := []; failq := [] |}.

(** Every thread is started and joined. *)
Definition joined (st : state) : bool :=
  match unstarted st, running st with
  | [], [] => true
  | _, _ => false
  end.

(** [parallel_call(serviceinstances, method)] under a schedule: [None]
    while the second loop still waits in [t.join()]; otherwise the queue is
    drained into [failed] (lines 849-857). *)
Definition parallel_call (serviceinstances : list string) (method : string)
    (run : string -> option exn) (schedule : list choice) : option (result unit) :=
  let final := execute method run schedule (initial serviceinstances) in
  if joined final then
    let failed := failq final in
    match failed with
    | [] => Some (Return tt)
    | _ => Some (Raise (vFXTServiceFailure failed))
    end
  else None.

(** The entries the failing nodes of [serviceinstances] leave in the
    queue, in the order of the list. *)
Definition failures (method : string) (run : string -> option exn)
    (serviceinstances : list string) : list (string * exn) :=
  flat_map (fun instance_id => thread_cb method run instance_id []) serviceinstances.

(** Every instance is in exactly one of the three lists, and the queue
    holds the entries of the calls that have ended. *)
Definition accounted (method : string) (run : string -> option exn)
    (nodes : list string) (st : state) : Prop :=
  unstarted st ++ running st ++ invoked st ≡ₚ nodes /\
  failq st = failures method run (invoked st).




End Fanout.

(** ** [Cluster.create] (lines 187-286) and [Cluster.add_nodes]
    (lines 633-816) *)

Module Lifecycle.
Import Channel.

(** The calls on the backend, on the node handles and on the cluster
    object itself whose course the two functions do not see, and the
    queries of the cluster made while [add_nodes] rolls back: each either
    returns or raises. *)
Inductive call_site :=
| validate_proxy
| create_cluster
| wait_for_service_checks
| wait_for_nodes_to_join
| wait_for_healthcheck
| allow_join               (* [allow_node_join()] *)
| disallow_join            (* [allow_node_join(False)] inside the [try] *)
| disallow_join_after_undo (* [allow_node_join(False)] on line 815 *)
| set_node_naming_policy
| enable_ha
| destroy
| telemetry
| reload
| add_cluster_nodes_setup
| add_cluster_nodes
| refresh
| load_cluster_information
| list_unconfigured_nodes        (* [node.listUnconfiguredNodes()] on line 771 *)
| list_vservers                  (* [vserver.list()] on line 785 *)
| get_vserver (vserver : string) (* [vserver.get(vserver)] on line 786 *)
| get_cluster                    (* [cluster.get()] on line 801 *)
| destroy_unjoined (instances : list string). (* [parallel_call(unjoined_nodes, 'destroy')] *)

(** How a call that changes address ranges goes: what the call returns (an
    activity token, or ['success']), the replies of the [getActivity] polls
    that follow, and the name the cluster gives a range the call adds. *)
Record fate := {
  token : result string;
  replies : list (result (gmap string string));
  new_name : string
}.

(** What is observable of a run *)
Inductive event :=
| Called (c : call_site)
| Issued (op : operation) (polls : nat)
| Logged (message : string).

Record world := { channel : remote; trace : list event }.

(** A run returns, raises, or is still polling an activity when the
    replies supplied are used up. *)
Inductive outcome (A : Type) :=
| Ok (a : A) (w : world)
| Err (e : exn) (w : world)
| Blocked (w : world).
Arguments Ok {A} a w.
Arguments Err {A} e w.
Arguments Blocked {A} w.

Definition M (A : Type) : Type := world -> outcome A.

Definition ret {A} (a : A) : M A := fun w => Ok a w.

Definition bind {A B} (m : M A) (k : A -> M B) : M B :=
  fun w =>
    match m w with
    | Ok a w' => k a w'
    | Err e w' => Err e w'
    | Blocked w' => Blocked w'
    end.

Notation "'let*' x ':=' m 'in' k" := (bind m (fun x => k))
  (at level 10, x name, m at level 100, k at level 200, only parsing).
Notation "m '>>' k" := (bind m (fun _ => k))
  (at level 100, k at level 200, right associativity, only parsing).

Definition raise {A} (e : exn) : M A := fun w => Err e w.

Definition emit (ev : event) : M unit :=
  fun w => Ok tt {| channel := channel w; trace := trace w ++ [ev] |}.

(** A query of the channel *)
Definition query {A} (f : remote -> A) : M A := fun w => Ok (f (channel w)) w.

(** [try: body except <classes> as e: handler] *)
Definition try_except {A} (body : M A) (catches : exn -> bool) (handler : exn -> M A) : M A :=
  fun w =>
    match body w with
    | Err e w' => if catches e then handler e w' else Err e w'
    | o => o
    end.

Definition any_exception (e : exn) : bool := true.

Definition only_KeyboardInterrupt (e : exn) : bool := negb (is_Exception e).

Fixpoint for_each {A} (l : list A) (body : A -> M unit) : M unit :=
  match l with
  | [] => ret tt
  | x :: rest => body x >> for_each rest body
  end.

(** The environment of a run *)
Record env := {
  calls : call_site -> option exn;
  fates : operation -> fate;
  ALLOCATE_PRIVATE_ADDRESSES : bool;
  maxNodes : Z;                       (* [listLicenses()['maxNodes']] *)
  clusterIPNumPerNode : Z;            (* [cluster.get()['clusterIPNumPerNode']] *)
  get_available_addresses : result (list Z * string);
  nodes_loaded : list string;         (* ids of [self.nodes] after [reload()] *)
  nodes_expected : list string;       (* ids of [self.nodes] on line 763 *)
  nodes_joined : list string;         (* ids of [self.nodes] on line 766 *)
  ip : string -> string;              (* [ServiceInstance(service, i).ip()] *)
  unconfigured : list JoinWait.unconfigured;  (* [node.listUnconfiguredNodes()] *)
  nodes_created : Z                   (* [len(c.nodes)] after [create_cluster] *)
}.

Definition call (E : env) (c : call_site) : M unit :=
  emit (Called c) >>
  match calls E c with
  | Some e => raise e
  | None => ret tt
  end.

(** A query of the cluster made in the [except] clause of [add_nodes]: the
    call raises, or answers with what the channel holds. *)
Definition ask {A} (E : env) (c : call_site) (f : remote -> A) : M A :=
  match calls E c with
  | Some e => raise e
  | None => query f
  end.

Definition math_domain_error : exn := Fault "ValueError: math domain error".

(** [math.log(x)] for an integer [x], as far as the two functions depend
    on it: a [ValueError] unless [x] is positive.  Lines 256 and 748
    evaluate it as the default of [options.get('join_wait', ...)], whether
    or not the option is given; [join_wait] is an integer when it is
    given, as the docstring has it, so that [int] of either value
    returns. *)
Definition math_log (x : Z) : M unit :=
  if x <=? 0 then raise math_domain_error else ret tt.

Inductive activity_end :=
| Succeeded
| ReportedFailure.

(** A call that changes address ranges, followed by the polling loop of
    its activity (the shape of lines 706-714). *)
Definition perform (E : env) (op : operation) : M activity_end :=
  fun w =>
    let f := fates E op in
    let after (polls : nat) (r : remote) :=
      {| channel := r; trace := trace w ++ [Issued op polls] |} in
    match token f with
    | Raise e => Err e w
    | Return activity =>
        if negb (String.eqb activity "success") then
          match Activity.poll 0 (replies f) with
          | Activity.Done n => Ok Succeeded (after n (apply (new_name f) op (channel w)))
          | Activity.Failure n => Ok ReportedFailure (after n (channel w))
          | Activity.Error n e => Err e (after n (channel w))
          | Activity.Pending n => Blocked (after n (channel w))
          end
        else Ok Succeeded (after 0%nat (apply (new_name f) op (channel w)))
    end.

(** *** [create] *)

Record create_options := {
  proxy_uri : bool;                   (* a proxy is given *)
  management_address : option string;
  management_address_in_use : bool;   (* [service.in_use_addresses(...)] is not empty *)
  skip_configuration : bool;
  create_skip_cleanup : bool
}.

Inductive created :=
| ClusterObject
| NoneReturned.

Definition create (E : env) (name : string) (options : create_options) : M created :=
  let cleanup : M unit :=
    if negb (create_skip_cleanup options) then call E destroy else call E telemetry in
  (if proxy_uri options then call E validate_proxy else ret tt) >>
  if String.eqb name "" then
    raise (vFXTConfigurationException "A cluster name is required")
  else if negb (NameCheck.valid_cluster_name name) then
    raise (vFXTConfigurationException (name +:+ " is not a valid cluster name"))
  else
    (match management_address options with
     | Some requested_mgmt_ip =>
         if management_address_in_use options then
           raise (vFXTConfigurationException
                    ("The requested management address " +:+ requested_mgmt_ip
                     +:+ " is already in use"))
         else ret tt
     | None => ret tt
     end) >>
    let* returned :=
      try_except
        (call E create_cluster >> ret (skip_configuration options))
        only_KeyboardInterrupt
        (fun e =>
           (if negb (create_skip_cleanup options) then call E destroy else ret tt) >>
           raise e) in
    if returned then ret NoneReturned
    else
      try_except (call E wait_for_service_checks) any_exception
        (fun e => emit (Logged "Failed to wait for service checks") >> cleanup >> raise e) >>
      try_except (math_log (nodes_created E) >> call E wait_for_nodes_to_join) any_exception
        (fun e => emit (Logged "Failed to wait for nodes to join") >> cleanup >> raise e) >>
      try_except
        (call E wait_for_healthcheck >>
         call E disallow_join >>
         call E set_node_naming_policy >>
         if nodes_created E >? 1 then call E enable_ha else ret tt)
        any_exception
        (fun e => emit (Logged "Cluster failed") >> cleanup >> raise (vFXTCreateFailure e)) >>
      ret ClusterObject.

(** *** [add_nodes] *)

Record add_options := {
  skip_cleanup : bool;
  (** the three [address_range_*] options, when all are given: the
      expansion of the range and the netmask *)
  address_range : option (list Z * string)
}.

(** An entry of [added]: [{'cluster': body}] or [{'vserver': body}] *)
Inductive extension :=
| cluster_extension (first last : Z) (netmask : string)
| vserver_extension (first last : Z) (netmask : string).

(** [l[0:stop]] and [del l[0:stop]] *)
Definition slice_stop {A} (l : list A) (stop : Z) : nat :=
  Z.to_nat (if stop <? 0 then Z.max 0 (len l + stop) else stop).

Definition slice_to {A} (l : list A) (stop : Z) : list A := take (slice_stop l stop) l.

Definition del_to {A} (l : list A) (stop : Z) : list A := drop (slice_stop l stop) l.

(** The use of a local variable that may not have been assigned *)
Definition bound {A} (variable : string) (v : option A) : M A :=
  match v with
  | Some a => ret a
  | None =>
      raise (Fault ("UnboundLocalError: local variable '" +:+ variable
                    +:+ "' referenced before assignment"))
  end.

(** [addresses[0]] and [addresses[-1]] *)
Definition ends_of (addresses : list Z) : M (Z * Z) :=
  match addresses with
  | [] => raise (Fault "IndexError: list index out of range")
  | first :: _ => ret (first, List.last addresses first)
  end.

(** Lines 700-715 and 725-739: take [count] addresses off [avail_ips],
    apply them with [op] and wait for the activity. *)
Definition extend (E : env) (avail_ips : option (list Z)) (count : Z)
    (op : Z -> Z -> operation) (failure : string) : M (option (list Z) * (Z * Z)) :=
  let* l := bound "avail_ips" avail_ips in
  let addresses := slice_to l count in
  let l := del_to l count in
  let* body := ends_of addresses in
  let* done := perform E (op (fst body) (snd body)) in
  match done with
  | Succeeded => ret (Some l, body)
  | ReportedFailure => raise (vFXTConfigurationException failure)
  end.

(** Lines 717-739: the loop over the vservers, on the variables
    [avail_ips] and [added]. *)
Fixpoint extend_vservers (E : env) (node_count count : Z) (mask : string)
    (vservers : list string) (avail_ips : option (list Z)) (added : list extension)
    : M (list extension) :=
  match vservers with
  | [] => ret added
  | vserver :: rest =>
      let* ranges := query (fun r => clientFacingIPs r vserver) in
      match AddressMath.vserver_to_add node_count count ranges with
      | None => extend_vservers E node_count count mask rest avail_ips added
      | Some to_add =>
          let* r := extend E avail_ips to_add
                      (fun first last => addClientIPs vserver first last mask)
                      ("Failed to extend vserver " +:+ vserver +:+ " addresses") in
          extend_vservers E node_count count mask rest (fst r)
            (added ++ [vserver_extension (fst (snd r)) (snd (snd r)) mask])
      end
  end.

(** Lines 680-739: the extensions; the result is [added]. *)
Definition extend_ranges (E : env) (options : add_options) (node_count count : Z)
    (needs : AddressMath.needs) : M (list extension) :=
  let added := [] in
  if AddressMath.ip_count needs >? 0 then
    let* avail :=
      match address_range options with
      | Some (avail_ip, mask) =>
          if len avail_ip <? AddressMath.ip_count needs then
            raise (vFXTConfigurationException
                     ("Not enough addresses provided, require "
                      +:+ str (AddressMath.ip_count needs)))
          else ret (None, mask)
      | None =>
          match get_available_addresses E with
          | Return (avail_ips, mask) => ret (Some avail_ips, mask)
          | Raise e => raise e
          end
      end in
    let mask := snd avail in
    let* avail_ips :=
      if negb (AddressMath.need_private needs =? 0) then
        let* l := bound "avail_ips" (fst avail) in
        ret (Some (del_to l (AddressMath.need_private needs)))
      else ret (fst avail) in
    let* after_cluster :=
      if AddressMath.need_cluster needs >? 0 then
        let* r := extend E avail_ips (AddressMath.need_cluster needs)
                    (fun first last => addClusterIPs first last mask)
                    "Failed to extend cluster addresses" in
        ret (fst r, added ++ [cluster_extension (fst (snd r)) (snd (snd r)) mask])
      else ret (avail_ips, added) in
    if AddressMath.need_vserver needs >? 0 then
      let* vservers := query vserver_list in
      extend_vservers E node_count count mask vservers (fst after_cluster) (snd after_cluster)
    else ret (snd after_cluster)
  else ret added.

(** Lines 786-798 for one vserver, and lines 801-813: remove the ranges
    the channel reports with the bounds of [a]. *)
Definition undo_ranges (E : env) (first last : Z) (ranges : list range)
    (remove : string -> operation) (failure : string) : M unit :=
  for_each ranges (fun r =>
    if (firstIP r =? first) && (lastIP r =? last) then
      let* done := perform E (remove (name r)) in
      match done with
      | Succeeded => ret tt
      | ReportedFailure => emit (Logged failure)
      end
    else ret tt).

(** Lines 783-813: one round of the loop over [added] *)
Definition undo_one (E : env) (a : extension) : M unit :=
  match a with
  | vserver_extension first last _ =>
      let* vservers := ask E list_vservers vserver_list in
      for_each vservers (fun vserver =>
        let* ranges := ask E (get_vserver vserver) (fun r => clientFacingIPs r vserver) in
        undo_ranges E first last ranges (removeClientIPs vserver)
          "Failed to undo vserver extension")
  | cluster_extension first last _ =>
      let* ranges := ask E get_cluster clusterIPs in
      undo_ranges E first last ranges removeClusterIPs "Failed to undo cluster extension"
  end.

(** Lines 782-813 *)
Definition undo_extensions (E : env) (added : list extension) : M unit :=
  for_each added (undo_one E).

(** Lines 762-768: the nodes in one of the two lists only *)
Definition unjoined (E : env) : list string :=
  let expected_nodes : gset string := list_to_set (nodes_expected E) in
  let joined_nodes : gset string := list_to_set (nodes_joined E) in
  elements ((expected_nodes ∖ joined_nodes) ∪ (joined_nodes ∖ expected_nodes)).

(** Lines 771-772: the never-joined nodes that are not in the middle of
    joining *)
Definition unjoined_nodes (E : env) : list string :=
  let joining_node_addresses :=
    map JoinWait.address
      (List.filter (fun u => contains "joining" (JoinWait.status u)) (unconfigured E)) in
  List.filter (fun i => negb (bool_decide (ip E i ∈ joining_node_addresses))) (unjoined E).

(** Lines 754-816: the [except] clause *)
Definition undo (E : env) (options : add_options) (count : Z) (added : list extension)
    (e : exn) : M unit :=
  emit (Logged "add_nodes failed") >>
  if skip_cleanup options then
    call E telemetry >> raise (vFXTCreateFailure e)
  else
    emit (Logged "Undoing configuration changes for node addition") >>
    call E load_cluster_information >>
    let unjoined := unjoined E in
    ask E list_unconfigured_nodes (fun _ => tt) >>
    let unjoined_nodes := unjoined_nodes E in
    (match unjoined_nodes with
     | [] => ret tt
     | _ =>
         try_except (call E (destroy_unjoined unjoined_nodes)) is_Exception
           (fun destroy_e => emit (Logged "Failed to undo configuration"))
     end) >>
    (if len unjoined =? count then undo_extensions E added else ret tt) >>
    call E disallow_join_after_undo >>
    raise (vFXTCreateFailure e).

(** Lines 743-753: the body of the [try] *)
Definition join_nodes (E : env) (count : Z) : M unit :=
  call E allow_join >>
  call E add_cluster_nodes >>
  call E wait_for_service_checks >>
  math_log count >>
  call E wait_for_nodes_to_join >>
  call E refresh >>
  call E enable_ha >>
  call E disallow_join >>
  call E set_node_naming_policy.

Definition add_nodes (E : env) (count : Z) (options : add_options) : M unit :=
  call E reload >>
  let node_count := len (nodes_loaded E) in
  if node_count =? 0 then
    raise (vFXTConfigurationException "Cannot add a node to an empty cluster")
  else
    call E add_cluster_nodes_setup >>
    let licensed_count := maxNodes E in
    if node_count + count >? licensed_count then
      raise (vFXTConfigurationException
               ("Cannot expand cluster to " +:+ str (node_count + count)
                +:+ " nodes as the current licensed maximum is " +:+ str licensed_count))
    else
      let* vservers := query vserver_list in
      let* existing_vserver := query (fun r => elements (in_use_addresses r "vserver")) in
      let* existing_cluster := query (fun r => elements (in_use_addresses r "cluster")) in
      let needs :=
        AddressMath.address_needs node_count count (clusterIPNumPerNode E) vservers
          existing_vserver existing_cluster (ALLOCATE_PRIVATE_ADDRESSES E) in
      let* added := extend_ranges E options node_count count needs in
      try_except (join_nodes E count) any_exception (undo E options count added).

(** *** Vocabulary of the properties *)

(** The first of the calls [sites], made in turn, that raises *)
Fixpoint first_failure (E : env) (sites : list call_site) : option exn :=
  match sites with
  | [] => None
  | c :: rest =>
      match calls E c with
      | Some e => Some e
      | None => first_failure E rest
      end
  end.

(** The calls [sites] made in turn *)
Fixpoint sequence (E : env) (sites : list call_site) : M unit :=
  match sites with
  | [] => ret tt
  | c :: rest => call E c >> sequence E rest
  end.

(** The world after the events [t] *)
Definition later (w : world) (t : list event) : world :=
  {| channel := channel w; trace := trace w ++ t |}.

(** [add_nodes] gets as far as its [try] (line 742), with the extensions
    [added] applied and the world [w1]. *)
Definition prepared (E : env) (count : Z) (options : add_options) (w : world)
    (added : list extension) (w1 : world) : Prop :=
  let node_count := len (nodes_loaded E) in
  calls E reload = None /\ node_count <> 0 /\
  calls E add_cluster_nodes_setup = None /\
  node_count + count <= maxNodes E /\
  extend_ranges E options node_count count
    (AddressMath.address_needs node_count count (clusterIPNumPerNode E)
       (vserver_list (channel w))
       (elements (in_use_addresses (channel w) "vserver"))
       (elements (in_use_addresses (channel w) "cluster"))
       (ALLOCATE_PRIVATE_ADDRESSES E))
    (later w [Called reload; Called add_cluster_nodes_setup]) = Ok added w1.

(** The calls of the last [try] of [create] (lines 266-277) *)
Definition final_phase (E : env) : list call_site :=
  [wait_for_healthcheck; disallow_join; set_node_naming_policy]
  ++ (if nodes_created E >? 1 then [enable_ha] else []).

(** The calls of the [try] of [add_nodes] (lines 743-753) *)
Definition join_phase : list call_site :=
  [allow_join; add_cluster_nodes; wait_for_service_checks; wait_for_nodes_to_join;
   refresh; enable_ha; disallow_join; set_node_naming_policy].

(** Those that come before line 748 *)
Definition registration_phase : list call_site :=
  [allow_join; add_cluster_nodes; wait_for_service_checks].

(** The queries of lines 785, 786 and 801 are answered. *)
Definition ranges_answered (E : env) : Prop :=
  calls E list_vservers = None /\ (forall v, calls E (get_vserver v) = None) /\
  calls E get_cluster = None.

(** What [create] does on a failure: teardown, or the telemetry report when
    cleanup is suppressed *)
Definition cleanup_site (options : create_options) : call_site :=
  if create_skip_cleanup options then telemetry else destroy.

(** The run [m] returns, whatever the world, and only adds to the trace. *)
Definition appends {A} (m : M A) : Prop :=
  forall w, exists a w' t, m w = Ok a w' /\ trace w' = trace w ++ t.

(** [create] from its second [try] on (lines 244-286) *)
Definition create_checks (E : env) (options : create_options) : M created :=
  try_except (call E wait_for_service_checks) any_exception
    (fun e => emit (Logged "Failed to wait for service checks") >>
              call E (cleanup_site options) >> raise e) >>
  try_except (math_log (nodes_created E) >> call E wait_for_nodes_to_join) any_exception
    (fun e => emit (Logged "Failed to wait for nodes to join") >>
              call E (cleanup_site options) >> raise e) >>
  try_except (sequence E (final_phase E)) any_exception
    (fun e => emit (Logged "Cluster failed") >>
              call E (cleanup_site options) >> raise (vFXTCreateFailure e)) >>
  ret ClusterObject.

(** [create] gets as far as [service.create_cluster] and that call
    returns, with a configuration to follow. *)
Definition provisioned (E : env) (name : string) (options : create_options) : Prop :=
  (proxy_uri options = true -> calls E validate_proxy = None) /\
  name <> "" /\ NameCheck.valid_cluster_name name = true /\
  (is_Some (management_address options) -> management_address_in_use options = false) /\
  calls E create_cluster = None /\ skip_configuration options = false.

(** The activity of a call ends: the call returns ['success'], or its
    polling loop reaches a reply that ends it; [Some n] when it succeeds
    after [n] polls, [None] when it reports a failure. *)
Definition settles (f : fate) (how : option nat) : Prop :=
  exists activity, token f = Return activity /\
    if String.eqb activity "success" then how = Some 0%nat
    else match how with
         | Some n => Activity.poll 0 (replies f) = Activity.Done n
         | None => exists n, Activity.poll 0 (replies f) = Activity.Failure n
         end.

(** The calls that change address ranges, in the order a run issued them *)
Definition issued (t : list event) : list operation :=
  flat_map (fun ev => match ev with Issued op _ => [op] | _ => [] end) t.

(** The error messages a run logged *)
Definition logged (t : list event) : list string :=
  flat_map (fun ev => match ev with Logged m => [m] | _ => [] end) t.

(** An extension of [added] together with what the channel made of it:
    the vserver it went to ([None] for the cluster range) and the name the
    new range received. *)
Record applied := {
  target : option string;
  given_name : string;
  first_address : Z;
  last_address : Z;
  netmask : string
}.

(** The entry of [added] *)
Definition entry (x : applied) : extension :=
  match target x with
  | None => cluster_extension (first_address x) (last_address x) (netmask x)
  | Some _ => vserver_extension (first_address x) (last_address x) (netmask x)
  end.

(** The call that applied it, and the call that reverses it *)
Definition addition (x : applied) : operation :=
  match target x with
  | None => addClusterIPs (first_address x) (last_address x) (netmask x)
  | Some v => addClientIPs v (first_address x) (last_address x) (netmask x)
  end.

Definition removal (x : applied) : operation :=
  match target x with
  | None => removeClusterIPs (given_name x)
  | Some v => removeClientIPs v (given_name x)
  end.

Definition range_of (x : applied) : range :=
  {| name := given_name x; firstIP := first_address x; lastIP := last_address x |}.

(** The channel after the extensions [exts], applied in turn *)
Definition with_extensions (r : remote) (exts : list applied) : remote :=
  fold_left (fun r x => apply (given_name x) (addition x) r) exts r.

(** A range the channel reports, for the cluster or for some vserver *)
Definition known (r : remote) (y : range) : Prop :=
  In y (clusterIPs r) \/ exists v, In y (clientFacingIPs r v).

(** The extension is new to the channel: no range has its name or its
    bounds, and its vserver exists. *)
Definition fresh_for (r : remote) (x : applied) : Prop :=
  (forall y, known r y ->
     name y <> given_name x /\
     (firstIP y <> first_address x \/ lastIP y <> last_address x)) /\
  (forall v, target x = Some v -> is_Some (vservers r !! v)).

Definition distinct (x y : applied) : Prop :=
  given_name x <> given_name y /\
  (first_address x <> first_address y \/ last_address x <> last_address y).

(** The extensions are new to the channel and differ from one another in
    name and bounds. *)
Definition well_applied (r : remote) (exts : list applied) : Prop :=
  Forall (fresh_for r) exts /\ ForallOrdPairs distinct exts.

(** The ranges of [exts] that went to the cluster, or to the vserver [v] *)
Definition cluster_part (exts : list applied) : list range :=
  map range_of (List.filter (fun x => bool_decide (target x = None)) exts).

Definition vserver_part (v : string) (exts : list applied) : list range :=
  map range_of (List.filter (fun x => bool_decide (target x = Some v)) exts).

(** The test of lines 787 and 802 *)
Definition same_bounds (first last : Z) (r : range) : bool :=
  (firstIP r =? first) && (lastIP r =? last).

(** Inputs of the examples.  A cluster of three nodes with six cluster
    addresses and one vserver of three addresses is asked for three more
    nodes; the backend offers the free block 30..38; the nodes are created
    and none joins. *)
Definition example_remote : remote :=
  {| clusterIPs := [ {| name := "cluster"; firstIP := 10; lastIP := 15 |} ];
     vservers := {[ "vserver" := [ {| name := "client"; firstIP := 20; lastIP := 22 |} ] ]};
     mgmtIP := 5 |}.

Definition in_progress : gmap string string :=
  {[ "state" := "running"; "status" := "in progress" ]}.

Definition success : gmap string string := {[ "state" := "success" ]}.

Definition example_fates (op : operation) : fate :=
  match op with
  | addClusterIPs _ _ _ =>
      {| token := Return "activity-1"; replies := [Return in_progress; Return success];
         new_name := "cluster-2" |}
  | addClientIPs _ _ _ _ =>
      {| token := Return "success"; replies := []; new_name := "client-2" |}
  | removeClusterIPs _ =>
      {| token := Return "activity-2"; replies := [Return success]; new_name := "" |}
  | removeClientIPs _ _ =>
      {| token := Return "success"; replies := []; new_name := "" |}
  end.

Definition join_timeout : exn :=
  vFXTConfigurationException "Timed out waiting for 3 node(s) to join.".

(** What the channel made of the two extensions of the example *)
Definition example_extensions : list applied :=
  [ {| target := None; given_name := "cluster-2";
       first_address := 30; last_address := 35; netmask := "255.255.255.0" |};
    {| target := Some "vserver"; given_name := "client-2";
       first_address := 36; last_address := 38; netmask := "255.255.255.0" |} ].

Definition example_env (calls : call_site -> option exn) : env :=
  {| calls := calls;
     fates := example_fates;
     ALLOCATE_PRIVATE_ADDRESSES := false;
     maxNodes := 12;
     clusterIPNumPerNode := 2;
     get_available_addresses := Return (seqZ 30 9, "255.255.255.0");
     nodes_loaded := ["i-1"; "i-2"; "i-3"];
     nodes_expected := ["i-1"; "i-2"; "i-3"; "i-4"; "i-5"; "i-6"];
     nodes_joined := ["i-1"; "i-2"; "i-3"];
     ip := fun i => i;
     unconfigured := [];
     nodes_created := 3 |}.

(** The wait for the joins times out. *)
Definition join_fails (c : call_site) : option exn :=
  match c with
  | wait_for_nodes_to_join => Some join_timeout
  | _ => None
  end.

Definition checks_failure : exn :=
  vFXTServiceFailure
    [("Failed to wait_for_service_checks instance i-2", Fault "instance is not running")].

Definition destroy_failure : exn :=
  vFXTServiceFailure [("Failed to destroy instance i-1", Fault "request limit exceeded")].

(** The service checks fail. *)
Definition service_checks_fail (c : call_site) : option exn :=
  match c with
  | wait_for_service_checks => Some checks_failure
  | _ => None
  end.

(** The wait for the joins times out and the teardown fails as well. *)
Definition join_and_destroy_fail (c : call_site) : option exn :=
  match c with
  | wait_for_nodes_to_join => Some join_timeout
  | destroy => Some destroy_failure
  | _ => None
  end.

(** The health check fails. *)
Definition healthcheck_fails (c : call_site) : option exn :=
  match c with
  | wait_for_healthcheck => Some (vFXTStatusFailure "Healthcheck for state yellow failed")
  | _ => None
  end.

Definition start : world := {| channel := example_remote; trace := [] |}.

Definition plain_create : create_options :=
  {| proxy_uri := false; management_address := None; management_address_in_use := false;
     skip_configuration := false; create_skip_cleanup := false |}.

Definition plain_add : add_options := {| skip_cleanup := false; address_range := None |}.

(** The cluster does not open for joins: [allow_node_join()] gives up. *)
Definition join_refused : exn :=
  vFXTConfigurationException "Failed to update allow node join configuration: failed".

Definition allow_join_fails (c : call_site) : option exn :=
  match c with
  | allow_join => Some join_refused
  | _ => None
  end.

(** The environment of the examples when the call fails before a node is
    created: the cluster object holds the three old nodes before and after
    the cluster information is loaded again. *)
Definition none_created (calls : call_site -> option exn) : env :=
  {| calls := calls;
     fates := example_fates;
     ALLOCATE_PRIVATE_ADDRESSES := false;
     maxNodes := 12;
     clusterIPNumPerNode := 2;
     get_available_addresses := Return (seqZ 30 9, "255.255.255.0");
     nodes_loaded := ["i-1"; "i-2"; "i-3"];
     nodes_expected := ["i-1"; "i-2"; "i-3"];
     nodes_joined := ["i-1"; "i-2"; "i-3"];
     ip := fun i => i;
     unconfigured := [];
     nodes_created := 3 |}.

(** The removal of the cluster range fails: every one of the [n] replies
    about its activity has state [failure]. *)
Definition removal_fails (n : nat) (op : operation) : fate :=
  match op with
  | removeClusterIPs _ =>
      {| token := Return "activity-2";
         replies := replicate n (Return (Activity.failed_reply "address range in use"));
         new_name := "" |}
  | _ => example_fates op
  end.

(** The environment of the examples with that removal, when the wait for
    the joins times out. *)
Definition failing_removal (n : nat) : env :=
  {| calls := join_fails;
     fates := removal_fails n;
     ALLOCATE_PRIVATE_ADDRESSES := false;
     maxNodes := 12;
     clusterIPNumPerNode := 2;
     get_available_addresses := Return (seqZ 30 9, "255.255.255.0");
     nodes_loaded := ["i-1"; "i-2"; "i-3"];
     nodes_expected := ["i-1"; "i-2"; "i-3"; "i-4"; "i-5"; "i-6"];
     nodes_joined := ["i-1"; "i-2"; "i-3"];
     ip := fun i => i;
     unconfigured := [];
     nodes_created := 3 |}.

(** The world of the example when [add_nodes] enters its [try] *)
Definition extended : world :=
  {| channel := with_extensions example_remote example_extensions;
     trace := [Called reload; Called add_cluster_nodes_setup;
               Issued (addClusterIPs 30 35 "255.255.255.0") 2;
               Issued (addClientIPs "vserver" 36 38 "255.255.255.0") 0] |}.

End Lifecycle.

(** ** Terms for further properties of [create] and [add_nodes] *)

Module LifecycleTerms.
Import Channel Lifecycle.

(** Lines 669-682 on the channel of [w] *)
Definition needs_at (E : env) (count : Z) (w : world) : AddressMath.needs :=
  AddressMath.address_needs (len (nodes_loaded E)) count (clusterIPNumPerNode E)
    (vserver_list (channel w))
    (elements (in_use_addresses (channel w) "vserver"))
    (elements (in_use_addresses (channel w) "cluster"))
    (ALLOCATE_PRIVATE_ADDRESSES E).

(** What [create] does before [service.create_cluster] *)
Definition before_create (options : create_options) : list event :=
  if proxy_uri options then [Called validate_proxy] else [].

(** The checks of lines 207-219 pass. *)
Definition accepted (E : env) (name : string) (options : create_options) : Prop :=
  (proxy_uri options = true -> calls E validate_proxy = None) /\
  name <> "" /\ NameCheck.valid_cluster_name name = true /\
  (is_Some (management_address options) -> management_address_in_use options = false).

(** The calls of [create] after [service.create_cluster] *)
Definition configuration (E : env) : list call_site :=
  [wait_for_service_checks; wait_for_nodes_to_join] ++ final_phase E.

(** Inputs of the examples: a custom address range for [add_nodes], an
    interrupted [create_cluster], and the environment of the examples with
    two of the three new nodes joined. *)
Definition custom_range : add_options :=
  {| skip_cleanup := false; address_range := Some (seqZ 30 9, "255.255.255.0") |}.

Definition interrupted (c : call_site) : option exn :=
  match c with
  | create_cluster => Some KeyboardInterrupt
  | _ => None
  end.

Definition two_joined (calls : call_site -> option exn) : env :=
  {| calls := calls;
     fates := example_fates;
     ALLOCATE_PRIVATE_ADDRESSES := false;
     maxNodes := 12;
     clusterIPNumPerNode := 2;
     get_available_addresses := Return (seqZ 30 9, "255.255.255.0");
     nodes_loaded := ["i-1"; "i-2"; "i-3"];
     nodes_expected := ["i-1"; "i-2"; "i-3"; "i-4"; "i-5"; "i-6"];
     nodes_joined := ["i-1"; "i-2"; "i-3"; "i-4"; "i-5"];
     ip := fun i => i;
     unconfigured := [];
     nodes_created := 3 |}.

End LifecycleTerms.

(** ** [Cluster.xmlrpc] (lines 461-495) *)

Module Connection.
Import Config.

(** What one pass through the body of [while True] (lines 482-495) meets
    at an address: how [getXmlrpcClient] ends (line 484), how
    [system.login] ends with the password sent (line 485), and how
    [alert.conditions()] ends inside [_log_conditions] (line 505). *)
Record round := {
  getXmlrpcClient : string -> result unit;
  login : string -> string -> result unit;
  conditions : string -> result unit
}.

(** [_log_conditions] (lines 498-511): an [Exception] is logged and
    dropped. *)
Definition _log_conditions (conditions : result unit) : result unit :=
  match conditions with
  | Return _ => Return tt
  | Raise e => if is_Exception e then Return tt else Raise e
  end.

(** The body of the [try] (lines 484-489) at [addr].  The password sent is
    the attribute [admin_password]; [None] has no [encode]. *)
Definition attempt (self : cluster) (mgmt_ip : string) (r : round) (addr : string)
    : result unit :=
  match getXmlrpcClient r addr with
  | Raise e => Raise e
  | Return _ =>
      match
        match admin_password self with
        | Some admin_password => login r addr admin_password
        | None => Raise (Fault "AttributeError: 'NoneType' object has no attribute 'encode'")
        end
      with
      | Raise e => Raise e
      | Return _ =>
          if negb (String.eqb addr mgmt_ip) then _log_conditions (conditions r addr)
          else Return tt
      end
  end.

(** The [for] loop of lines 482-493: [Some] when it leaves the function,
    [None] when it runs to its end.  [format e] is the text
    ['{}'.format(e)]. *)
Fixpoint try_addresses (format : exn -> string) (self : cluster) (mgmt_ip : string)
    (r : round) (retries : Z) (addrs : list string) : option (result string) :=
  match addrs with
  | [] => None
  | addr :: rest =>
      match attempt self mgmt_ip r addr with
      | Return _ => Some (Return addr)
      | Raise e =>
          if is_Exception e then
            if retries =? 0 then
              Some (Raise (vFXTConnectionFailure
                             ("Failed to make remote API connection: " +:+ format e)))
            else try_addresses format self mgmt_ip r retries rest
          else Some (Raise e)
      end
  end.

(** The connection is made to [addr], the call raises, or the rounds
    supplied are used up. *)
Inductive outcome :=
| Connected (rounds_made : nat) (addr : string)
| Raised (rounds_made : nat) (e : exn)
| Connecting (retries : Z).

(** Lines 480-495 *)
Fixpoint connect (format : exn -> string) (self : cluster) (mgmt_ip : string)
    (addrs : list string) (retries : Z) (made : nat) (rounds : list round) : outcome :=
  match rounds with
  | [] => Connecting retries
  | r :: rest =>
      match try_addresses format self mgmt_ip r retries addrs with
      | Some (Return addr) => Connected (S made) addr
      | Some (Raise e) => Raised (S made) e
      | None => connect format self mgmt_ip addrs (retries - 1) (S made) rest
      end
  end.

(** [xmlrpc(retries, password)] *)
Definition xmlrpc (format : exn -> string) (self : cluster) (retries : Z)
    (password : option string) (rounds : list round) : outcome :=
  match mgmt_ip self with
  | Some mgmt_ip =>
      if negb (truthy (Some mgmt_ip)) then
        Raised 0 (vFXTConnectionFailure
                    "Unable to make remote API connection without a management address")
      else
        let addrs := [mgmt_ip] in
        let addrs :=
          match nodes self with
          | first :: _ => addrs ++ [first]
          | [] => addrs
          end in
        let password := if truthy password then password else admin_password self in
        if negb (truthy password) then
          Raised 0 (vFXTConnectionFailure
                      "Unable to make remote API connection without a password")
        else connect format self mgmt_ip addrs retries 0 rounds
  | None =>
      Raised 0 (vFXTConnectionFailure
                  "Unable to make remote API connection without a management address")
  end.

(** The round fails at every address with an [Exception]. *)
Definition unreachable (self : cluster) (mgmt_ip : string) (r : round) : Prop :=
  forall addr, exists e, attempt self mgmt_ip r addr = Raise e /\ is_Exception e = true.

(** Inputs of the examples: the management address is down and the first
    node answers; a cluster object with and without the administrator's
    password. *)
Definition node_answers : round :=
  {| getXmlrpcClient := fun addr =>
       if String.eqb addr "10.0.0.10" then Raise (Fault "timed out") else Return tt;
     login := fun _ _ => Return tt;
     conditions := fun _ => Return tt |}.

Definition down : round :=
  {| getXmlrpcClient := fun _ => Raise (Fault "timed out");
     login := fun _ _ => Return tt;
     conditions := fun _ => Return tt |}.

Definition all_answer : round :=
  {| getXmlrpcClient := fun _ => Return tt;
     login := fun _ _ => Return tt;
     conditions := fun _ => Return tt |}.

Definition no_password : cluster :=
  {| name := Some "vfxt"; admin_password := None;
     mgmt_ip := Some "10.0.0.10"; mgmt_netmask := Some "255.255.255.0";
     cluster_ip_start := Some "10.0.0.11"; cluster_ip_end := Some "10.0.0.20";
     nodes := ["10.0.0.5"]; join_mgmt := true |}.

End Connection.

(** ** [Cluster.verify_license] (lines 437-459) *)

Module License.

Inductive outcome :=
| Verified (polls_made : nat)
| Raised (polls_made : nat) (e : exn)
| Polling (wait : Z).

(** [verify_license(wait)], run over what its successive iterations get
    for [self.xmlrpc().cluster.listLicenses()['features']]. *)
Fixpoint verify_license (wait : Z) (made : nat) (polls : list (result (list string)))
    : outcome :=
  if wait >? 0 then
    match polls with
    | [] => Polling wait
    | p :: rest =>
        match p with
        | Return features =>
            if bool_decide ("FlashCloud" ∈ features) then Verified (S made)
            else verify_license (wait - 1) (S made) rest
        | Raise e =>
            if is_Exception e then verify_license (wait - 1) (S made) rest
            else Raised (S made) e
        end
    end
  else Raised made (vFXTConfigurationException "Unable to verify cluster licensing").

(** The poll does not end the wait: the feature is missing, or the query
    failed. *)
Definition unlicensed (p : result (list string)) : Prop :=
  match p with
  | Return features => "FlashCloud" ∉ features
  | Raise e => is_Exception e = true
  end.

End License.

(** ** Calls repeated until they succeed: [Cluster.allow_node_join] (lines
    1593-1613), [Cluster.enable_ha] (lines 1424-1453),
    [Cluster.add_vserver_junction] (lines 1330-1366) *)

Module Retry.

Inductive outcome :=
| Done (attempts_made : nat)
| Raised (attempts_made : nat) (e : exn)
| Trying (retries : Z).

(** The loop of lines 1602-1613, which lines 1354-1364 and 1439-1450
    repeat: the call is made until it answers ['success'].  An answer that
    is not ['success'] raises [refused response] inside the [try]; an
    [Exception] caught when [retries] is zero leaves the function as
    [giving_up e]. *)
Fixpoint until_success (refused : string -> exn) (giving_up : exn -> exn)
    (retries : Z) (made : nat) (attempts : list (result string)) : outcome :=
  match attempts with
  | [] => Trying retries
  | a :: rest =>
      let caught (e : exn) :=
        if retries =? 0 then Raised (S made) (giving_up e)
        else until_success refused giving_up (retries - 1) (S made) rest in
      match a with
      | Return response =>
          if negb (String.eqb response "success") then caught (refused response)
          else Done (S made)
      | Raise e => if is_Exception e then caught e else Raised (S made) e
      end
  end.

(** [allow_node_join(enable)]: [attempts] is how the successive calls
    [cluster.modify({'allowAllNodesToJoin': setting})] end; the bare
    [raise] of line 1611 passes the exception on as it is. *)
Definition allow_node_join (XMLRPC_RETRIES : Z) (attempts : list (result string))
    : outcome :=
  let retries := XMLRPC_RETRIES in
  until_success
    (fun response =>
       vFXTConfigurationException
         ("Failed to update allow node join configuration: " +:+ response))
    (fun e => e) retries 0 attempts.

(** [enable_ha(retries)]: [ha] is [self.xmlrpc().cluster.get()['ha']],
    [attempts] how the successive calls [cluster.enableHA()] end. *)
Definition enable_ha (format : exn -> string) (retries : Z) (ha : result string)
    (attempts : list (result string)) : outcome :=
  let enable :=
    until_success vFXTConfigurationException
      (fun ha_e => vFXTConfigurationException ("Failed to enable HA: " +:+ format ha_e))
      retries 0 attempts in
  match ha with
  | Return ha => if String.eqb ha "enabled" then Done 0 else enable
  | Raise e => if is_Exception e then enable else Raised 0 e
  end.

(** Lines 1343-1347: the path of the junction *)
Definition junction_path (corefiler : string) (path : option string) : string :=
  let path :=
    match path with
    | Some p => if negb (String.eqb p "") then p else "/" +:+ corefiler
    | None => "/" +:+ corefiler
    end in
  if negb (String.prefix "/" path) then "/" +:+ path else path.

(** [add_vserver_junction(vserver, corefiler, path, ...)]: the path sent
    with every call of [vserver.addJunction], and how the calls end. *)
Definition add_vserver_junction (format : exn -> string) (vserver corefiler : string)
    (path : option string) (retries : Z) (attempts : list (result string))
    : string * outcome :=
  (junction_path corefiler path,
   until_success vFXTConfigurationException
     (fun e => vFXTConfigurationException
                 ("Failed to add junction to " +:+ vserver +:+ ": " +:+ format e))
     retries 0 attempts).

(** The attempt fails in a way the loop retries. *)
Definition retried (a : result string) : Prop :=
  match a with
  | Return response => response <> "success"
  | Raise e => is_Exception e = true
  end.

(** What the loop catches at the attempt [a] *)
Definition caught_at (refused : string -> exn) (a : result string) : exn :=
  match a with
  | Return response => refused response
  | Raise e => e
  end.

End Retry.

(** ** [Cluster.rebalance_directory_managers] (lines 1455-1489) *)

Module Rebalance.

(** How a call of [maint.rebalanceDirManagers()] ends: with a status, with
    an XML-RPC fault (the exceptions that have [faultCode] and
    [faultString]), or with another exception. *)
Inductive reply :=
| Status (status : string)
| XmlrpcFault (faultCode : Z) (faultString : string)
| Failed (e : exn).

Inductive outcome :=
| Done (attempts_made : nat)
| Raised (attempts_made : nat) (e : exn)
| Trying (retries : Z).

Definition already_scheduled : string :=
  "A directory manager rebalance operation is already scheduled".

(** Lines 1471-1489.  The [vFXTConfigurationException] of line 1476 has no
    [faultCode]: the inner [try] drops the [AttributeError] and the loop
    goes on. *)
Fixpoint rebalance (retries : Z) (made : nat) (attempts : list reply) : outcome :=
  if retries >? 0 then
    match attempts with
    | [] => Trying retries
    | a :: rest =>
        match a with
        | Status status =>
            if negb (String.eqb status "success") then rebalance (retries - 1) (S made) rest
            else Done (S made)
        | XmlrpcFault faultCode faultString =>
            if faultCode =? 103 then Done (S made)
            else if contains already_scheduled faultString then Done (S made)
            else rebalance (retries - 1) (S made) rest
        | Failed e =>
            if is_Exception e then rebalance (retries - 1) (S made) rest
            else Raised (S made) e
        end
    end
  else Raised made (vFXTStatusFailure "Waiting for cluster rebalance failed").

(** [rebalance_directory_managers(retries)]: [connect] is how
    [self.xmlrpc()] ends, [enableAPI] how
    [system.enableAPI('maintenance')] ends. *)
Definition rebalance_directory_managers (retries : Z) (connect : result unit)
    (enableAPI : result string) (attempts : list reply) : outcome :=
  match connect with
  | Raise e => Raised 0 e
  | Return _ =>
      match enableAPI with
      | Raise e => Raised 0 e
      | Return response =>
          if negb (String.eqb response "success") then
            Raised 0 (vFXTConfigurationException "Failed to enable maintenance API")
          else rebalance retries 0 attempts
      end
  end.

(** The attempt counts as done: the call answers ['success'], or raises
    the fault 103, or a fault that says a rebalance is already scheduled. *)
Definition settled (a : reply) : bool :=
  match a with
  | Status status => String.eqb status "success"
  | XmlrpcFault faultCode faultString =>
      (faultCode =? 103) || contains already_scheduled faultString
  | Failed _ => false
  end.

(** The attempt is retried. *)
Definition retried (a : reply) : Prop :=
  match a with
  | Status status => status <> "success"
  | XmlrpcFault faultCode faultString =>
      faultCode <> 103 /\ contains already_scheduled faultString = false
  | Failed e => is_Exception e = true
  end.

End Rebalance.

(** ** [Cluster.make_test_bucket] (lines 1022-1041): the names *)

Module Bucket.
Import Config.

(** [str.lower] on one character *)
Definition lower_char (c : ascii) : ascii :=
  if Regex.range "A" "Z" c then ascii_of_N (N_of_ascii c + 32) else c.

(** [s.lower()] *)
Fixpoint lower (s : string) : string :=
  match s with
  | EmptyString => EmptyString
  | String c rest => String (lower_char c) (lower rest)
  end.

(** [s.replace('-', '')] *)
Fixpoint without_hyphens (s : string) : string :=
  match s with
  | EmptyString => EmptyString
  | String c rest =>
      if Ascii.eqb c "-" then without_hyphens rest else String c (without_hyphens rest)
  end.

(** Line 1037.  [uuid4] is [str(uuid.uuid4())]; the slice binds tighter
    than [or]. *)
Definition bucketname (self : cluster) (uuid4 : string) (bucketname : option string)
    : string :=
  if truthy bucketname then fmt bucketname
  else substring 0 63 (fmt (name self) +:+ "-" +:+ without_hyphens (lower uuid4)).

(** Line 1038 *)
Definition corefiler (corefiler : option string) (bucketname : string) : string :=
  if truthy corefiler then fmt corefiler else bucketname.

(** Input of the examples: a cluster with a name of 70 characters *)
Definition long_named : cluster :=
  {| name := Some "render-farm-cache-cluster-of-the-engineering-department-building-seven";
     admin_password := Some "secret";
     mgmt_ip := Some "10.0.0.10"; mgmt_netmask := Some "255.255.255.0";
     cluster_ip_start := Some "10.0.0.11"; cluster_ip_end := Some "10.0.0.20";
     nodes := ["10.0.0.5"]; join_mgmt := true |}.

End Bucket.

(** ** [Cluster.destroy] (lines 917-945) *)

Module Teardown.

(** What is observable of a run *)
Inductive event :=
| DestroyNodes                          (* [parallel_call(self.nodes, 'destroy')] *)
| DeleteBucket (bucket_name : string)   (* [service.delete_bucket(bucket_name)] *)
| PostDestroy.                          (* [service.post_destroy_cluster(self)] *)

(** The list [[self.xmlrpc().corefiler.get(cf) for cf in ...list()]] of
    lines 928-929, each entry as its [values()] *)
Fixpoint gathered {A} (calls : list (result A)) : result (list A) :=
  match calls with
  | [] => Return []
  | Raise e :: _ => Raise e
  | Return a :: rest =>
      match gathered rest with
      | Return l => Return (a :: l)
      | Raise e => Raise e
      end
  end.

(** The filter of lines 930-931 over the dictionaries [d] *)
Fixpoint bucket_names (S3TYPE_NAME : string) (ds : list (gmap string string))
    : result (list string) :=
  match ds with
  | [] => Return []
  | d :: rest =>
      let more (found : list string) :=
        match bucket_names S3TYPE_NAME rest with
        | Return l => Return (found ++ l)
        | Raise e => Raise e
        end in
      match d !! "bucket" with
      | Some bucket =>
          match d !! "s3Type" with
          | Some s3Type => if String.eqb s3Type S3TYPE_NAME then more [bucket] else more []
          | None => Raise (Fault "KeyError: 's3Type'")
          end
      | None => more []
      end
  end.

(** Lines 928-931.  [corefilers] is how [corefiler.list()] ends and, for
    each name it lists, how [corefiler.get] ends. *)
Definition lookup (S3TYPE_NAME : string)
    (corefilers : result (list (result (list (gmap string string)))))
    : result (list string) :=
  match corefilers with
  | Raise e => Raise e
  | Return calls =>
      match gathered calls with
      | Raise e => Raise e
      | Return cs => bucket_names S3TYPE_NAME (concat cs)
      end
  end.

(** Lines 937-943 *)
Fixpoint delete_buckets (delete_bucket : string -> option exn) (buckets : list string)
    : list event * option exn :=
  match buckets with
  | [] => ([], None)
  | bucket_name :: rest =>
      match delete_bucket bucket_name with
      | Some e =>
          if is_Exception e then
            let (t, r) := delete_buckets delete_bucket rest in (DeleteBucket bucket_name :: t, r)
          else ([DeleteBucket bucket_name], Some e)
      | None =>
          let (t, r) := delete_buckets delete_bucket rest in (DeleteBucket bucket_name :: t, r)
      end
  end.

(** [destroy(remove_buckets)].  [destroyed] is how
    [parallel_call(self.nodes, 'destroy')] ends, [delete_bucket] and
    [post_destroy_cluster] how the calls on the backend end. *)
Definition destroy (remove_buckets : bool) (S3TYPE_NAME : string)
    (corefilers : result (list (result (list (gmap string string)))))
    (destroyed : result unit) (delete_bucket : string -> option exn)
    (post_destroy_cluster : result unit) : list event * result unit :=
  let buckets := [] in
  let looked_up :=
    if remove_buckets then
      match lookup S3TYPE_NAME corefilers with
      | Return found => Return found
      | Raise e => if is_Exception e then Return buckets else Raise e
      end
    else Return buckets in
  match looked_up with
  | Raise e => ([], Raise e)
  | Return buckets =>
      match destroyed with
      | Raise e => ([DestroyNodes], Raise e)
      | Return _ =>
          let (deleted, interrupted) :=
            if remove_buckets && negb (bool_decide (buckets = [])) then
              delete_buckets delete_bucket buckets
            else ([], None) in
          match interrupted with
          | Some e => (DestroyNodes :: deleted, Raise e)
          | None => (DestroyNodes :: deleted ++ [PostDestroy], post_destroy_cluster)
          end
      end
  end.

(** The buckets [destroy] sets out to delete *)
Definition to_delete (remove_buckets : bool) (S3TYPE_NAME : string)
    (corefilers : result (list (result (list (gmap string string))))) : list string :=
  if remove_buckets then
    match lookup S3TYPE_NAME corefilers with
    | Return found => found
    | Raise _ => []
    end
  else [].

(** No call of the bucket lookup ends in something that is no
    [Exception]. *)
Definition lookup_settles (remove_buckets : bool) (S3TYPE_NAME : string)
    (corefilers : result (list (result (list (gmap string string))))) : Prop :=
  remove_buckets = true ->
  forall e, lookup S3TYPE_NAME corefilers = Raise e -> is_Exception e = true.

(** Input of the examples: two corefilers, of which the first is a bucket
    of the service. *)
Definition example_corefilers : result (list (result (list (gmap string string)))) :=
  Return [ Return [ {[ "bucket" := "vfxt-data"; "s3Type" := "amazon" ]} ];
           Return [ {[ "networkName" := "filer.example.com" ]} ] ].

End Teardown.

(** ** [Cluster.add_vserver] (lines 1288-1328) *)

Module Vserver.
Import Config.

(** Lines 1305-1314: the range of the new vserver, as [(firstIP, lastIP,
    netmask)].  [available] is how [service.get_available_addresses]
    ends for the count asked, [expand_address_range] how
    [Cidr.expand_address_range] ends. *)
Definition vserver_range (size : Z) (netmask start_address end_address : option string)
    (node_count : Z) (available : Z -> result (list string * string))
    (expand_address_range : string -> string -> result (list string))
    : result (string * string * string) :=
  if negb (forallb truthy [netmask; start_address; end_address]) then
    match available (if negb (size =? 0) then size else node_count) with
    | Raise e => Raise e
    | Return (vserver_ips, netmask) =>
        match vserver_ips with
        | [] => Raise (Fault "IndexError: list index out of range")
        | first :: _ => Return (first, List.last vserver_ips first, netmask)
        end
    end
  else
    match expand_address_range (fmt start_address) (fmt end_address) with
    | Raise e => Raise e
    | Return vserver_ips => Return (fmt start_address, fmt end_address, fmt netmask)
    end.

(** Lines 1319-1328 *)
Fixpoint wait_for_activity (name : string) (retries : Z) (made : nat)
    (replies : list (result (gmap string string))) : Activity.outcome :=
  match replies with
  | [] => Activity.Polling made
  | Raise e :: _ => Activity.Raised (S made) e
  | Return r :: rest =>
      if bool_decide (r !! "state" = Some "success") then Activity.Completed (S made)
      else if bool_decide (r !! "status" = Some "failure") then
        Activity.Raised (S made)
          (vFXTConfigurationException ("Failed to create vserver " +:+ name))
      else if retries =? 0 then
        Activity.Raised (S made)
          (vFXTConfigurationException ("Timed out waiting for vserver " +:+ name))
      else wait_for_activity name (retries - 1) (S made) rest
  end.

(** Lines 1316-1328: [activity] is how [vserver.create] ends. *)
Definition create (name : string) (retries : Z) (activity : result string)
    (replies : list (result (gmap string string))) : Activity.outcome :=
  match activity with
  | Raise e => Activity.Raised 0 e
  | Return activity =>
      if negb (String.eqb activity "success") then wait_for_activity name retries 0 replies
      else Activity.Completed 0
  end.

(** [add_vserver(name, size, netmask, start_address, end_address,
    retries)]: the range sent with [vserver.create], when the call gets
    that far, and how the call ends. *)
Definition add_vserver (name : string) (size : Z)
    (netmask start_address end_address : option string) (retries : Z)
    (node_count : Z) (available : Z -> result (list string * string))
    (expand_address_range : string -> string -> result (list string))
    (activity : result string) (replies : list (result (gmap string string)))
    : option (string * string * string) * Activity.outcome :=
  match vserver_range size netmask start_address end_address node_count available
          expand_address_range with
  | Raise e => (None, Activity.Raised 0 e)
  | Return body => (Some body, create name retries activity replies)
  end.

(** The reply neither ends the loop nor makes it raise. *)
Definition undecided (reply : result (gmap string string)) : Prop :=
  exists r, reply = Return r /\ r !! "state" <> Some "success" /\
            r !! "status" <> Some "failure".

End Vserver.

(** ** [Cluster.stop] (lines 869-910), with [Cluster.is_on] (lines
    992-996) *)

Module Power.
Import Config.

(** What a node handle answers: [is_on()] and [can_stop()] *)
Record node := { on : bool; can_stop : bool }.

Definition is_on (nodes : list node) : bool :=
  match nodes with
  | [] => false
  | _ => forallb on nodes
  end.

Inductive event :=
| Powerdown      (* [self.xmlrpc().cluster.powerdown()] *)
| Refresh        (* [self.refresh()] *)
| StopNodes.     (* [parallel_call(self.nodes, 'stop')] *)

(** A run returns or raises, or is still in one of its loops when the
    observations supplied are used up. *)
Inductive outcome :=
| Finished (r : result unit)
| Pending.

(** Lines 891-898: [calls] is how the successive calls of
    [cluster.powerdown()] end. *)
Fixpoint powerdown (rpc_retries : Z) (calls : list (result string)) : list event * outcome :=
  match calls with
  | [] => ([], Pending)
  | Raise e :: _ => ([Powerdown], Finished (Raise e))
  | Return response :: rest =>
      if String.eqb response "success" then ([Powerdown], Finished (Return tt))
      else
        let rpc_retries := rpc_retries - 1 in
        if rpc_retries =? 0 then
          ([Powerdown], Finished (Raise (vFXTStatusFailure "Failed to power down the cluster")))
        else
          let (t, o) := powerdown rpc_retries rest in (Powerdown :: t, o)
  end.

(** What a pass through the body of the loop of lines 901-906 meets: how
    [self.refresh()] ends, and what the nodes answer at the next test. *)
Record poll := { refreshed : result unit; nodes_then : list node }.

(** Lines 901-906, entered with the nodes on *)
Fixpoint go_offline (retries : Z) (polls : list poll) : list event * outcome :=
  match polls with
  | [] => ([], Pending)
  | p :: rest =>
      match refreshed p with
      | Raise e => ([Refresh], Finished (Raise e))
      | Return _ =>
          let retries := retries - 1 in
          if retries =? 0 then
            ([Refresh],
             Finished (Raise (vFXTStatusFailure
                                "Timed out waiting for the cluster to go offline")))
          else if is_on (nodes_then p) then
            let (t, o) := go_offline retries rest in (Refresh :: t, o)
          else ([Refresh], Finished (Return tt))
      end
  end.

(** [stop(clean_stop, retries)].  [nodes] is what the handles of
    [self.nodes] answer when the call starts and until the first refresh,
    [stopped] how [parallel_call(self.nodes, 'stop')] ends,
    [refreshed_last] how the closing [self.refresh()] ends. *)
Definition stop (admin_password : option string) (nodes : list node) (clean_stop : bool)
    (retries : Z)
    (XMLRPC_RETRIES : Z) (calls : list (result string)) (polls : list poll)
    (stopped refreshed_last : result unit) : list event * outcome :=
  let stop_nodes (t : list event) :=
    match stopped with
    | Raise e => (t ++ [StopNodes], Finished (Raise e))
    | Return _ => (t ++ [StopNodes; Refresh], Finished refreshed_last)
    end in
  if clean_stop && (truthy admin_password && is_on nodes) then
    if negb (forallb can_stop nodes) then
      ([], Finished (Raise (vFXTConfigurationException
                              "Node configuration prevents them from being stopped")))
    else
      let rpc_retries := XMLRPC_RETRIES in
      match powerdown rpc_retries calls with
      | (t, Finished (Return _)) =>
          match (if is_on nodes then go_offline retries polls
                 else ([], Finished (Return tt))) with
          | (t', Finished (Return _)) => stop_nodes (t ++ t')
          | (t', o) => (t ++ t', o)
          end
      | (t, o) => (t, o)
      end
  else stop_nodes [].

(** The nodes are stopped in this run. *)
Definition stops_nodes (run : list event * outcome) : Prop := In StopNodes (fst run).

End Power.

(** * Properties *)


(** ** Strings *)

Lemma append_nil (b : string) : "" +:+ b = b.
Proof. reflexivity. Qed.

Lemma append_cons (x : ascii) (a b : string) : String x a +:+ b = String x (a +:+ b).
Proof. reflexivity. Qed.

Lemma append_assoc (a b c : string) : (a +:+ b) +:+ c = a +:+ (b +:+ c).
Proof.
  induction a as [|x a IH]; [reflexivity|].
  rewrite !append_cons. f_equal. exact IH.
Qed.

Lemma append_nil_r (a : string) : a +:+ "" = a.
Proof. induction a as [|x a IH]; [reflexivity|]. rewrite append_cons. now f_equal. Qed.

Lemma prefix_append (a b : string) : String.prefix a (a +:+ b) = true.
Proof.
  induction a as [|x a IH]; [now destruct b|].
  rewrite append_cons. cbn [String.prefix].
  destruct (ascii_dec x x); [exact IH | contradiction].
Qed.




(** ** Pattern matching and cluster names *)

Section RegexFacts.
Import Regex.

Variable s : list ascii.

Lemma matches_bounds r i j :
  matches s r i j -> (i <= j)%nat /\ (i < j -> j <= length s)%nat.
Proof.
  induction 1; try lia.
  match goal with
  | H : nth_error s ?i = Some _ |- _ =>
      assert (i < length s)%nat by (apply nth_error_Some; congruence)
  end. lia.
Qed.

Lemma iterate_here f fuel i : In i (iterate f fuel i).
Proof. destruct fuel; now left. Qed.

Lemma iterate_sound a f :
  (forall i k, In k (f i) -> matches s a i k) ->
  forall fuel i j, In j (iterate f fuel i) -> matches s (Star a) i j.
Proof.
  intros Hf. induction fuel as [|fuel IH]; intros i j [<- | Hin]; try apply m_star_nil.
  - destruct Hin.
  - apply in_flat_map in Hin as (k & Hk & Hj). apply filter_In in Hk as [Hk _].
    eapply m_star_cons; [apply Hf, Hk | apply IH, Hj].
Qed.

Lemma ends_sound r : forall i j, In j (ends s r i) -> matches s r i j.
Proof.
  induction r as [| |set|a IHa b IHb|a IHa|a IHa]; intros i j Hin; cbn [ends] in Hin.
  - destruct (Nat.eqb_spec i 0) as [->|]; [|destruct Hin].
    destruct Hin as [<- | []]. constructor.
  - destruct (Nat.eqb_spec i (length s)) as [->|Hne].
    + destruct Hin as [<- | []]. constructor.
    + destruct (nth_error s i) as [c|] eqn:Hc; [|destruct Hin].
      destruct (Ascii.eqb_spec c newline) as [->|]; [|destruct Hin].
      destruct (Nat.eqb_spec (S i) (length s)); [|destruct Hin].
      destruct Hin as [<- | []]. now apply m_eol_newline.
  - destruct (nth_error s i) as [c|] eqn:Hc; [|destruct Hin].
    destruct (set c) eqn:Hset; [|destruct Hin].
    destruct Hin as [<- | []]. now apply m_class with c.
  - apply in_flat_map in Hin as (k & Hk & Hj).
    eapply m_cat; [apply IHa, Hk | apply IHb, Hj].
  - apply in_app_or in Hin as [Hin | [<- | []]].
    + apply m_opt_some, IHa, Hin.
    + apply m_opt_none.
  - eapply iterate_sound; [exact IHa | exact Hin].
Qed.

Lemma ends_complete_star r i j :
  matches s r i j ->
  In j (ends s r i) /\
  (forall a fuel, r = Star a -> (length s - i <= fuel)%nat ->
                  In j (iterate (ends s a) fuel i)).
Proof.
  induction 1 as [| |i Hc Hi|set i c Hc Hset|a b i k j Ha [IHa _] Hb [IHb _]
                 |a i j Ha [IHa _]|a i|a i|a i k j Ha [IHa _] Hb [IHb IHs]];
    (split; [|try discriminate]); cbn [ends].
  - now left.
  - rewrite Nat.eqb_refl. now left.
  - destruct (Nat.eqb_spec i (length s)); [now left|].
    rewrite Hc. destruct (Ascii.eqb_spec newline newline); [|contradiction].
    rewrite Hi, Nat.eqb_refl. now left.
  - rewrite Hc, Hset. now left.
  - apply in_flat_map. now exists k.
  - apply in_or_app. now left.
  - apply in_or_app. right. now left.
  - apply iterate_here.
  - intros a' fuel [= <-] _. apply iterate_here.
  - apply matches_bounds in Ha as Hik.
    destruct (Nat.eq_dec k i) as [->|Hne]; [exact IHb|].
    destruct (length s) as [|n] eqn:Hn; [lia|]. cbn [iterate]. right.
    apply in_flat_map. exists k. split.
    + apply filter_In. split; [exact IHa|]. apply Nat.ltb_lt. lia.
    + apply (IHs a n eq_refl). lia.
  - intros a' fuel [= <-] Hfuel.
    apply matches_bounds in Ha as Hik.
    destruct (Nat.eq_dec k i) as [->|Hne]; [now apply IHs|].
    destruct fuel as [|fuel]; [lia|]. cbn [iterate]. right.
    apply in_flat_map. exists k. split.
    + apply filter_In. split; [exact IHa|]. apply Nat.ltb_lt. lia.
    + apply (IHs a fuel eq_refl). lia.
Qed.

Lemma ends_spec r i j : In j (ends s r i) <-> matches s r i j.
Proof. split; [apply ends_sound | intros H; now apply ends_complete_star]. Qed.

End RegexFacts.

Lemma length_list_ascii_of_string (s : string) :
  length (list_ascii_of_string s) = String.length s.
Proof. induction s as [|c s IH]; cbn; [reflexivity | now rewrite IH]. Qed.

Lemma search_found r s : Regex.search r s = true <-> Regex.found r s.
Proof.
  unfold Regex.search, Regex.found. rewrite existsb_exists. split.
  - intros (i & Hi & Hm). destruct (Regex.ends _ r i) as [|j l] eqn:E; [discriminate|].
    exists i, j. split.
    + apply in_seq in Hi. rewrite length_list_ascii_of_string in Hi. lia.
    + apply ends_spec. rewrite E. now left.
  - intros (i & j & Hi & H). exists i. split.
    + apply in_seq. rewrite length_list_ascii_of_string. lia.
    + apply ends_spec in H. now destruct (Regex.ends _ r i).
Qed.

Section NameCheckClaims.
Import Regex NameCheck.

(** C9.  [valid_cluster_name(s)] is true exactly when [1 <= len(s) <= 128]
    and [re.search] finds the pattern [^[a-z]([-a-z0-9]*[a-z0-9])?$] in
    [s]; ["a"] and ["a-1"] are valid, ["A"] and [""] are not. *)
Theorem valid_cluster_name_spec :
  (forall s,
     valid_cluster_name s = true <->
     (1 <= String.length s <= 128)%nat /\ found cluster_name_pattern s) /\
  valid_cluster_name "a" = true /\
  valid_cluster_name "A" = false /\
  valid_cluster_name "a-1" = true /\
  valid_cluster_name "" = false.
Proof.
  split; [|now vm_compute].
  intros s. unfold valid_cluster_name. rewrite <- search_found.
  destruct (Z.ltb_spec (Z.of_nat (String.length s)) 1);
    destruct (Z.gtb_spec (Z.of_nat (String.length s)) 128); cbn [orb];
    try (split; [discriminate | lia]).
  destruct (search cluster_name_pattern s); split;
    first [ discriminate | intros [_ ?]; discriminate | reflexivity
          | intros _; split; [lia | reflexivity] ].
Qed.

Lemma valid_cluster_name_spec_witness :
  ((1 <= String.length "a-1" <= 128)%nat /\ found cluster_name_pattern "a-1") /\
  valid_cluster_name "a-1" = true.
Proof.
  assert (H : (1 <= String.length "a-1" <= 128)%nat /\ found cluster_name_pattern "a-1").
  { split; [cbn; lia | apply search_found; reflexivity]. }
  split; [exact H | exact (proj2 (proj1 valid_cluster_name_spec "a-1") H)].
Defined.

(** [$] matches before a newline that ends the subject: a name followed by
    one line feed passes the check like the name itself, two line feeds do
    not. *)
Lemma final_newline_accepted :
  valid_cluster_name (String "a" (String newline EmptyString)) = true /\
  valid_cluster_name (String "a" (String newline (String newline EmptyString))) = false.
Proof. split; reflexivity. Qed.

End NameCheckClaims.

(** ** Address math *)

Section AddressMathFacts.
Import Channel AddressMath.

Lemma clamp_max (x : Z) : (if x >? 0 then x else 0) = Z.max 0 x.
Proof. destruct (Z.gtb_spec x 0); lia. Qed.

(** C8.  The number of additional cluster addresses is
    [max(0, (n+k)*c - u)], the vserver need is the same expression over the
    vserver count and the vserver addresses in use, one vserver receives
    [(n+k)] minus its current addresses unless that is below one, the
    private need is [k] exactly when the backend allocates private
    addresses, and [n=3, k=2, c=2, u=4] gives [6]. *)
Theorem add_nodes_address_needs :
  (forall n k c vservers existing_vserver existing_cluster private,
     let r := address_needs n k c vservers existing_vserver existing_cluster private in
     need_cluster r = Z.max 0 ((n + k) * c - len existing_cluster) /\
     need_vserver r = Z.max 0 ((n + k) * len vservers - len existing_vserver) /\
     need_private r = (if private then k else 0) /\
     ip_count r = need_vserver r + need_cluster r + need_private r) /\
  (forall n k ranges,
     let v_len := len (flat_map (fun r => xrange (firstIP r) (lastIP r + 1)) ranges) in
     vserver_to_add n k ranges =
       if decide (1 <= (n + k) - v_len) then Some ((n + k) - v_len) else None) /\
  (forall vservers existing_vserver a1 a2 a3 a4 private,
     need_cluster (address_needs 3 2 2 vservers existing_vserver [a1; a2; a3; a4] private)
       = 6).
Proof.
  split; [|split].
  - intros n k c vs ev ec priv r. subst r. unfold address_needs. cbn [need_cluster need_vserver need_private ip_count].
    rewrite !clamp_max. split_and!; reflexivity.
  - intros n k ranges v_len. unfold vserver_to_add. fold v_len.
    destruct (Z.ltb_spec (n + k - v_len) 1); case_decide; try lia.
    all: reflexivity.
  - intros. reflexivity.
Qed.

End AddressMathFacts.

(** ** Health check *)

Section HealthFacts.
Import Health.

Variables (state : string) (duration : Z) (conditions : result (list condition)).

Lemma holds_lookup stats c :
  stats !! "maxCondition" = Some c ->
  holds state stats = existsb (String.eqb c) (acceptable_states state).
Proof. intros H. unfold holds. now rewrite H. Qed.


(** A poll that holds measures the time since the count started. *)
Lemma iteration_hold v p :
  holds state (alertstats p) = true ->
  iteration state duration conditions v p =
    if now p - start_time v >=? duration then Break (now p - start_time v)
    else if retries v - 1 =? 0 then Failed (healthcheck_failure state conditions)
    else Next {| start_time := start_time v; observed := now p - start_time v;
                 retries := retries v - 1 |}.
Proof. intros H. unfold iteration. now rewrite H. Qed.



(** While every poll holds and the time since the start stays below the
    duration, the loop goes on, provided the retry budget lasts. *)
Lemma loop_holding polls : forall made v n p,
  polls !! n = Some p ->
  (forall m q, (m <= n)%nat -> polls !! m = Some q -> holds state (alertstats q) = true) ->
  (forall m q, (m < n)%nat -> polls !! m = Some q -> now q - start_time v < duration) ->
  duration <= now p - start_time v ->
  retries v <= 0 \/ Z.of_nat n < retries v ->
  loop state duration conditions made v polls
    = Healthy (made + S n) (now p - start_time v).
Proof.
  induction polls as [|p0 rest IH]; intros made v n p Hp Hall Hlow Hd Hr; [discriminate|].
  cbn [loop]. rewrite (iteration_hold v p0) by (apply (Hall 0%nat); [lia | reflexivity]).
  destruct n as [|n].
  - inversion Hp; subst.
    destruct (Z.geb_spec (now p - start_time v) duration); [|lia].
    f_equal. lia.
  - cbn in Hp.
    destruct (Z.geb_spec (now p0 - start_time v) duration) as [Hge|_].
    { specialize (Hlow 0%nat p0 ltac:(lia) eq_refl). lia. }
    destruct (Z.eqb_spec (retries v - 1) 0) as [Hz|_]; [lia|].
    rewrite (IH (S made) _ n p Hp); cbn [start_time retries].
    + f_equal. lia.
    + intros m q Hm Hq. apply (Hall (S m)); [lia | exact Hq].
    + intros m q Hm Hq. apply (Hlow (S m)); [lia | exact Hq].
    + exact Hd.
    + lia.
Qed.


End HealthFacts.

Section HealthClaims.
Import Health.






Lemma quality_cases s q :
  quality s = Some q ->
  (s = "red" /\ q = 0%nat) \/ (s = "yellow" /\ q = 1%nat) \/ (s = "green" /\ q = 2%nat).
Proof.
  unfold quality.
  destruct (String.eqb_spec s "red"); [intros [= <-]; now left|].
  destruct (String.eqb_spec s "yellow"); [intros [= <-]; right; now left|].
  destruct (String.eqb_spec s "green"); [intros [= <-]; right; now right|].
  discriminate.
Qed.

Lemma holds_at_least state stats c :
  stats !! "maxCondition" = Some c -> at_least state c -> holds state stats = true.
Proof.
  intros Hc (qs & qc & Hs & Hq & Hle). rewrite (holds_lookup _ _ _ Hc).
  destruct (quality_cases _ _ Hs) as [[-> ->] | [[-> ->] | [-> ->]]];
    destruct (quality_cases _ _ Hq) as [[-> ->] | [[-> ->] | [-> ->]]];
    first [ reflexivity | lia ].
Qed.

Lemma better_at_least state c : better state c -> at_least state c.
Proof. intros (qs & qc & Hs & Hq & Hlt). exists qs, qc. split_and!; [done | done | lia]. Qed.

(** C10.  A poll holds whenever the reported [maxCondition] is the
    requested severity or a better one: green for every requested state,
    yellow as well when red is requested; and a wait for red or yellow on
    a cluster whose every poll reports a strictly better severity succeeds
    at the first poll at which the duration has elapsed, the retry budget
    permitting. *)
Theorem healthcheck_accepts_requested_or_better :
  (forall state stats,
     stats !! "maxCondition" = Some "green" -> holds state stats = true) /\
  (forall stats,
     stats !! "maxCondition" = Some "yellow" -> holds "red" stats = true) /\
  (forall state stats c,
     stats !! "maxCondition" = Some c -> at_least state c -> holds state stats = true) /\
  (forall state retries duration t0 polls conditions n p,
     state = "red" \/ state = "yellow" ->
     (forall q, In q polls ->
        exists c, alertstats q !! "maxCondition" = Some c /\ better state c) ->
     polls !! n = Some p ->
     duration <= now p - t0 ->
     (forall m q, (m < n)%nat -> polls !! m = Some q -> now q - t0 < duration) ->
     retries <= 0 \/ Z.of_nat n < retries ->
     wait_for_healthcheck state retries duration (Return tt) t0 polls conditions
       = Healthy (S n) (now p - t0)).
Proof.
  split_and!.
  - intros state stats H. rewrite (holds_lookup _ _ _ H). unfold acceptable_states.
    destruct (String.eqb state "red"); cbn; now rewrite orb_true_r.
  - intros stats H. now rewrite (holds_lookup _ _ _ H).
  - exact holds_at_least.
  - intros state retries duration t0 polls conditions n p _ Hall Hp Hd Hlow Hr.
    unfold wait_for_healthcheck.
    rewrite (loop_holding state duration conditions polls 0 _ n p Hp); cbn [start_time Health.retries].
    + reflexivity.
    + intros m q _ Hq. destruct (Hall q) as (c & Hc & Hb).
      * apply list_elem_of_In, list_elem_of_lookup. now exists m.
      * eapply holds_at_least; [exact Hc | now apply better_at_least].
    + exact Hlow.
    + exact Hd.
    + exact Hr.
Qed.

(** Red requested, a cluster that reports green throughout. *)
Lemma healthcheck_accepts_requested_or_better_witness :
  wait_for_healthcheck "red" 600 1 (Return tt) 10
    [reports "green" 10; reports "green" 11] (Return []) = Healthy 2 1.
Proof.
  refine (proj2 (proj2 (proj2 healthcheck_accepts_requested_or_better))
    "red" 600 1 10 [reports "green" 10; reports "green" 11] (Return []) 1%nat
    (reports "green" 11) _ _ _ _ _ _).
  - now left.
  - intros q [<- | [<- | []]]; exists "green"; (split; [reflexivity|]);
      exists 0%nat, 2%nat; split_and!; first [reflexivity | lia].
  - reflexivity.
  - cbn. lia.
  - intros [|[|m]] q Hm Hq; [|lia|lia]. injection Hq as <-. cbn. lia.
  - right. lia.
Defined.

End HealthClaims.

(** ** Waiting for nodes to join *)

Section JoinWaitFacts.
Import JoinWait.

Variables (expected : Z) (nodes : list string).

Lemma nearest_double_exact (n : Z) : Z.abs n < 2 ^ 53 -> nearest_double n = n.
Proof.
  intros H. unfold nearest_double.
  assert (Hl : Z.log2 (Z.abs n) <= 52).
  { destruct (Z.eq_dec (Z.abs n) 0) as [->|Hn]; [cbn; lia|].
    apply Z.lt_succ_r, Z.log2_lt_pow2; [lia | exact H]. }
  destruct (Z.leb_spec (Z.log2 (Z.abs n) - 52) 0); [reflexivity | lia].
Qed.

(** Up to 2^51 in magnitude the product is exact. *)
Lemma int_times_1_5_exact (r : Z) :
  Z.abs r <= 2 ^ 51 -> int_times_1_5 r = Return (Z.quot (3 * r) 2).
Proof.
  intros H. unfold int_times_1_5.
  assert (H53 : 2 ^ 53 = 4 * 2 ^ 51) by reflexivity.
  assert (Hbig : 2 ^ 53 < 2 ^ 1024) by (apply Z.pow_lt_mono_r; lia).
  assert (Hbig' : 2 ^ 1024 < 2 ^ 1025) by (apply Z.pow_lt_mono_r; lia).
  set (small := 2 ^ 51) in *. set (mid := 2 ^ 53) in *.
  set (big := 2 ^ 1024) in *. set (big' := 2 ^ 1025) in *.
  rewrite (nearest_double_exact r) by (fold mid; lia).
  destruct (Z.geb_spec (Z.abs r) big); [lia|].
  rewrite (nearest_double_exact (3 * r)) by (fold mid; lia).
  destruct (Z.geb_spec (Z.abs (3 * r)) big'); [lia | reflexivity].
Qed.

Lemma int_times_1_5_le (r rem limit : Z) :
  0 <= rem <= r -> r <= 2 ^ 51 ->
  int_times_1_5 rem = Return limit -> 2 * limit <= 3 * r.
Proof.
  intros H Hr. rewrite int_times_1_5_exact by lia. intros [= <-].
  rewrite Z.quot_div_nonneg by lia.
  pose proof (Z.mul_div_le (3 * rem) 2 ltac:(lia)). lia.
Qed.

Lemma iteration_short v p :
  short expected p -> no_upgrade nodes p ->
  iteration expected nodes v p = check expected (found p) v p.
Proof.
  unfold short, no_upgrade, iteration, after_count, found.
  destruct (node_list p) as [l|e]; intros Hs Hu.
  - destruct (Z.eqb_spec expected (len l)) as [E|_]; [congruence|].
    destruct (unconfigured_nodes p) as [us|e']; now rewrite Hu.
  - destruct Hs as [-> Hs].
    destruct (Z.eqb_spec expected 1) as [E|_]; [congruence|].
    destruct (unconfigured_nodes p) as [us|e']; now rewrite Hu.
Qed.

Lemma check_times_out v p found limit :
  int_times_1_5 (retries v) = Return limit ->
  retries v = 0 \/ now p - start_time v > limit ->
  check expected found v p = Failed (timed_out expected found).
Proof.
  intros Hl H. unfold check. rewrite Hl.
  destruct (Z.eqb_spec (retries v) 0) as [_|Hr]; [reflexivity|].
  destruct (Z.gtb_spec (now p - start_time v) limit); [reflexivity|].
  lia.
Qed.

(** One more pass leaves the counter within its bounds and the timer at
    the last restart. *)
Lemma iteration_next v p v' :
  iteration expected nodes v p = Next v' ->
  retries v' <= retries v /\ (0 <= retries v -> 0 <= retries v') /\
  start_time v' = (if upgrading nodes p then now p else start_time v).
Proof.
  assert (Hc : forall f, check expected f v p = Next v' ->
            retries v' <= retries v /\ (0 <= retries v -> 0 <= retries v') /\
            start_time v' = start_time v).
  { intros f. unfold check.
    destruct (int_times_1_5 (retries v)) as [limit|e]; [|discriminate].
    destruct (Z.eqb_spec (retries v) 0); [discriminate|].
    destruct (_ >? _); [discriminate|]. cbn [orb].
    destruct (_ =? 0); [destruct (log_connection p); [|discriminate]|];
      intros [= <-]; cbn; lia. }
  assert (Ha : forall f, after_count expected f nodes v p = Next v' ->
            retries v' <= retries v /\ (0 <= retries v -> 0 <= retries v') /\
            start_time v' = (if upgrading nodes p then now p else start_time v)).
  { intros f. unfold after_count, upgrading.
    destruct (expected =? f); [discriminate|].
    destruct (unconfigured_nodes p) as [us|e].
    - destruct (image_upgrade nodes us); [intros [= <-]; cbn; lia | apply Hc].
    - destruct (is_Exception e); [apply Hc | discriminate]. }
  unfold iteration. destruct (node_list p) as [l|e]; [apply Ha|].
  destruct (is_Exception e); [apply Ha | discriminate].
Qed.

Lemma loop_waiting polls : forall made v v',
  loop expected nodes made v polls = Waiting v' ->
  retries v' <= retries v /\ (0 <= retries v -> 0 <= retries v') /\
  start_time v' = timer_start nodes (start_time v) polls.
Proof.
  induction polls as [|p rest IH]; intros made v v' H; cbn [loop] in H.
  - injection H as <-. cbn. lia.
  - destruct (iteration expected nodes v p) as [| |v1] eqn:E; try discriminate.
    apply iteration_next in E as (E1 & E2 & E3).
    apply IH in H as (H1 & H2 & H3).
    split_and!; [lia | lia |]. rewrite H3, E3. reflexivity.
Qed.

Lemma loop_snoc polls : forall made v v' p,
  loop expected nodes made v polls = Waiting v' ->
  loop expected nodes made v (polls ++ [p]) =
    match iteration expected nodes v' p with
    | Break => Joined (S (made + length polls))
    | Failed e => Raised (S (made + length polls)) e
    | Next v'' => Waiting v''
    end.
Proof.
  induction polls as [|p0 rest IH]; intros made v v' p H; cbn [loop app] in *.
  - injection H as <-. rewrite Nat.add_0_r. now destruct (iteration expected nodes v p).
  - destruct (iteration expected nodes v p0) as [| |v1]; try discriminate.
    rewrite (IH _ _ _ p H). cbn [length].
    replace (S made + length rest)%nat with (made + S (length rest))%nat by lia.
    reflexivity.
Qed.

End JoinWaitFacts.

Section JoinWaitClaims.
Import JoinWait.

(** C3, as the code has it.  A poll that finds the node count short and
    sees no joining node upgrading its image aborts with the timeout
    exception when the retry counter is zero or the elapsed time exceeds
    the limit [int(counter * 1.5)] that line 1412 computes in double
    precision; up to 2^51 the product is exact and that limit is the
    counter times 1.5, truncated.  Hence, for a budget [0 <= r <= 2^51],
    the wait aborts as soon as the time elapsed since it started, or since
    the last poll that saw an image upgrade, exceeds [r * 1.5] seconds,
    whatever is left of the counter; with [r = 600] that is 900 seconds.
    Beyond 2^53 the rounded product can exceed [r * 1.5]: for
    [r = 2^53 + 3] the limit is 13510798882111494, two more than [r * 1.5]
    truncated. *)
Theorem wait_for_nodes_to_join_escape_hatch :
  (forall nodes v p limit,
     short (len nodes) p -> no_upgrade nodes p ->
     int_times_1_5 (retries v) = Return limit ->
     retries v = 0 \/ now p - start_time v > limit ->
     iteration (len nodes) nodes v p = Failed (timed_out (len nodes) (found p))) /\
  (forall r, Z.abs r <= 2 ^ 51 -> int_times_1_5 r = Return (Z.quot (3 * r) 2)) /\
  (forall nodes r first_list t0 polls p v,
     0 <= r <= 2 ^ 51 ->
     wait_for_nodes_to_join nodes r first_list t0 polls = Waiting v ->
     short (len nodes) p -> no_upgrade nodes p ->
     2 * (now p - timer_start nodes t0 polls) > 3 * r ->
     wait_for_nodes_to_join nodes r first_list t0 (polls ++ [p])
       = Raised (S (length polls)) (timed_out (len nodes) (found p))) /\
  (forall nodes first_list t0 polls p v,
     wait_for_nodes_to_join nodes 600 first_list t0 polls = Waiting v ->
     short (len nodes) p -> no_upgrade nodes p ->
     now p - timer_start nodes t0 polls > 900 ->
     wait_for_nodes_to_join nodes 600 first_list t0 (polls ++ [p])
       = Raised (S (length polls)) (timed_out (len nodes) (found p))) /\
  int_times_1_5 (2 ^ 53 + 3) = Return 13510798882111494 /\
  Z.quot (3 * (2 ^ 53 + 3)) 2 = 13510798882111492.
Proof.
  assert (Hrun : forall nodes r first_list t0 polls p v,
     0 <= r <= 2 ^ 51 ->
     wait_for_nodes_to_join nodes r first_list t0 polls = Waiting v ->
     short (len nodes) p -> no_upgrade nodes p ->
     2 * (now p - timer_start nodes t0 polls) > 3 * r ->
     wait_for_nodes_to_join nodes r first_list t0 (polls ++ [p])
       = Raised (S (length polls)) (timed_out (len nodes) (found p))).
  { intros nodes r first_list t0 polls p v Hr H Hs Hu Ht.
    unfold wait_for_nodes_to_join in *. destruct first_list as [l|e]; [|discriminate].
    destruct (len nodes >? len l); [|discriminate].
    rewrite (loop_snoc _ _ _ _ _ _ p H).
    apply loop_waiting in H as (H1 & H2 & H3). cbn [retries start_time] in *.
    assert (Hv : 0 <= retries v <= r) by lia.
    rewrite (iteration_short _ _ _ _ Hs Hu).
    rewrite (check_times_out _ _ _ _ (Z.quot (3 * retries v) 2));
      [reflexivity | apply int_times_1_5_exact; lia |].
    right. rewrite H3.
    pose proof (int_times_1_5_le r (retries v) _ Hv (proj2 Hr)
                  (int_times_1_5_exact (retries v) ltac:(lia))).
    lia. }
  split_and!.
  - intros nodes v p limit Hs Hu Hl Ht.
    rewrite (iteration_short _ _ _ _ Hs Hu). now apply (check_times_out _ _ _ _ limit).
  - exact int_times_1_5_exact.
  - exact Hrun.
  - intros nodes first_list t0 polls p v H Hs Hu Ht.
    apply (Hrun nodes 600 first_list t0 polls p v);
      [split; [lia | now vm_compute] | exact H | exact Hs | exact Hu | lia].
  - vm_compute. reflexivity.
  - vm_compute. reflexivity.
Qed.

(** Budget 600, one node of two joined, 901 seconds into the wait. *)
Lemma wait_for_nodes_to_join_escape_hatch_witness :
  wait_for_nodes_to_join two_nodes 600 (Return ["node1"]) 0 ([] ++ [short_poll 901])
    = Raised 1 (timed_out 2 1).
Proof.
  refine (proj1 (proj2 (proj2 (proj2 wait_for_nodes_to_join_escape_hatch)))
    two_nodes (Return ["node1"]) 0 [] (short_poll 901)
    {| start_time := 0; retries := 600 |} _ _ _ _).
  - reflexivity.
  - vm_compute. congruence.
  - reflexivity.
  - vm_compute. reflexivity.
Defined.

(** C3 as stated fails: with budget 2, the first poll comes 100 seconds
    into the wait, more than [2 * 1.5]; a node is upgrading its image, so
    the wait goes on with its timer restarted and its counter untouched,
    and returns normally at the next poll. *)
Lemma wait_for_nodes_to_join_escape_hatch_counterexample :
  2 * (now (upgrade_poll 100) - 0) > 3 * 2 /\
  wait_for_nodes_to_join two_nodes 2 (Return ["node1"]) 0 [upgrade_poll 100]
    = Waiting {| start_time := 100; retries := 2 |} /\
  wait_for_nodes_to_join two_nodes 2 (Return ["node1"]) 0
    [upgrade_poll 100; joined_poll 101] = Joined 2.
Proof. split_and!; [cbn; lia | reflexivity | reflexivity]. Qed.

End JoinWaitClaims.

(** ** Activity polling *)

Section ActivityFacts.
Import Activity.

Lemma poll_in_progress reply n : forall made,
  reply !! "state" <> Some "success" -> reply !! "status" <> Some "failure" ->
  poll made (replicate n (Return reply)) = Pending (made + n).
Proof.
  intros made Hs Hf. revert made.
  induction n as [|n IH]; intros made; cbn [replicate poll].
  - f_equal. lia.
  - rewrite !bool_decide_eq_false_2 by assumption. rewrite IH. f_equal. lia.
Qed.

(** C5 at its failing input.  The activity started by
    [cluster.addClusterIPs] has failed: every [getActivity] reply has state
    [failure] and the failure text in [status].  The loop of [add_nodes]
    neither returns nor raises, however many replies it reads; the loop of
    [attach_bucket] raises at the first reply, with the status text.  The
    token [success], and a reply whose state is [success], end the loop of
    [add_nodes] normally. *)
Theorem add_nodes_activity_failure_missed :
  (forall n,
     extend_cluster_activity "activity-7"
       (replicate n (Return (failed_reply "address range in use"))) = Polling n) /\
  (forall rest WAIT_FOR_SUCCESS,
     attach_bucket_activity "cloudfiler" "activity-7" WAIT_FOR_SUCCESS
       ({| reply := Return (failed_reply "address range in use");
           log_connection := Return tt |} :: rest)
     = Raised 1 (vFXTConfigurationException
                   "Failed to create corefiler cloudfiler: address range in use")) /\
  (forall replies, extend_cluster_activity "success" replies = Completed 0) /\
  (forall rest, extend_cluster_activity "activity-7"
                  (Return {[ "state" := "success" ]} :: rest) = Completed 1).
Proof.
  split_and!.
  - intros n. unfold extend_cluster_activity. cbn [String.eqb negb].
    change (negb ("activity-7" =? "success")%string) with true. cbv iota.
    rewrite (poll_in_progress (failed_reply "address range in use") n 0);
      [reflexivity | vm_compute; congruence | vm_compute; congruence].
  - intros rest W. reflexivity.
  - intros replies. reflexivity.
  - intros rest. reflexivity.
Qed.

End ActivityFacts.

(** ** Bootstrap configuration text *)

Section ConfigFacts.
Import Config.

Ltac normalize_append :=
  repeat first [ rewrite append_assoc | rewrite append_nil | rewrite append_nil_r ].

Lemma server_value (servs : list string) (idx : Z) :
  0 <= idx ->
  (if idx <? len servs then nth (Z.to_nat idx) servs "" else "")
    = nth (Z.to_nat idx) servs "".
Proof.
  intros H. unfold len. destruct (Z.ltb_spec idx (Z.of_nat (length servs))); [reflexivity|].
  symmetry. apply nth_overflow. lia.
Qed.

Lemma server_lines_text (servs : list string) (config : string) :
  server_lines servs config =
    config +:+ text [ "server1=" +:+ nth 0 servs ""; "server2=" +:+ nth 1 servs "";
                      "server3=" +:+ nth 2 servs "" ].
Proof.
  unfold server_lines.
  change (seqZ 0 3) with [0; 1; 2]. cbn [fold_left].
  rewrite !server_value by lia.
  change (str (0 + 1)) with "1". change (str (1 + 1)) with "2".
  change (str (2 + 1)) with "3".
  change (Z.to_nat 0) with 0%nat. change (Z.to_nat 1) with 1%nat.
  change (Z.to_nat 2) with 2%nat.
  cbn [text]. normalize_append. reflexivity.
Qed.

(** C7, as the code has it.  With the management address, its netmask and
    the cluster range set, [cluster_config(joining=False)] is the text of
    the template with an empty line between [domain=] and [[ntp]]: the
    sections in order, [server1] to [server3] holding the configured
    servers and empty values beyond them; [cluster_config(joining=True)] is
    the [[basic]] section alone, with [join cluster=] the management
    address, or the first node's address when the cluster joins by
    instance address, and [expiration=]. *)
Theorem cluster_config_text :
  (forall self service time expiration,
     truthy (mgmt_ip self) = true -> truthy (mgmt_netmask self) = true ->
     truthy (cluster_ip_start self) = true -> truthy (cluster_ip_end self) = true ->
     cluster_config self service time false expiration =
       Return (bootstrap_text
                 (fmt (name self)) (fmt (admin_password self))
                 (str (time + (if expiration =? 0 then 7200 else expiration)))
                 (fmt (mgmt_ip self)) (fmt (mgmt_netmask self)) (default_router service)
                 (fmt (cluster_ip_start self)) (fmt (cluster_ip_end self))
                 (nth 0 (dns_servers service) "") (nth 1 (dns_servers service) "")
                 (nth 2 (dns_servers service) "")
                 (nth 0 (ntp_servers service) "") (nth 1 (ntp_servers service) "")
                 (nth 2 (ntp_servers service) ""))) /\
  (forall self service time expiration,
     cluster_config self service time true expiration =
       Return (join_text
                 (match nodes self with
                  | first :: _ => if join_mgmt self then fmt (mgmt_ip self) else first
                  | [] => fmt (mgmt_ip self)
                  end)
                 (str (time + (if expiration =? 0 then 7200 else expiration))))).
Proof.
  split.
  - intros self service time expiration H1 H2 H3 H4.
    unfold cluster_config. cbn [forallb]. rewrite H1, H2, H3, H4. cbn [andb negb].
    rewrite !server_lines_text. unfold bootstrap_text. cbn [text].
    normalize_append. reflexivity.
  - intros self service time expiration. unfold cluster_config, join_text. cbn [text].
    f_equal. destruct (nodes self) as [|first rest]; [|destruct (join_mgmt self)];
      cbn [negb]; normalize_append; reflexivity.
Qed.

Lemma cluster_config_text_witness :
  cluster_config example_cluster example_backend 1500000000 false 7200 =
    Return (bootstrap_text "vfxt" "secret" "1500007200" "10.0.0.10" "255.255.255.0"
              "10.0.0.1" "10.0.0.11" "10.0.0.20" "10.0.0.2" "" "" "10.0.0.3" "10.0.0.4" "").
Proof.
  exact (proj1 cluster_config_text example_cluster example_backend 1500000000 7200
           eq_refl eq_refl eq_refl eq_refl).
Defined.

(** C7 as stated fails: the text differs from the template, which has no
    empty line before [[ntp]]. *)
Lemma cluster_config_text_counterexample :
  cluster_config example_cluster example_backend 1500000000 false 7200 <>
    Return (bootstrap_template "vfxt" "secret" "1500007200" "10.0.0.10" "255.255.255.0"
              "10.0.0.1" "10.0.0.11" "10.0.0.20" "10.0.0.2" "" "" "10.0.0.3" "10.0.0.4" "").
Proof.
  intros H.
  apply (f_equal (fun r => match r with
                           | Return t => String.length t
                           | Raise _ => 0%nat
                           end)) in H.
  vm_compute in H. discriminate H.
Qed.

End ConfigFacts.

(** ** Fan-out *)

Section FanoutFacts.
Import Fanout.

Variables (method : string) (run : string -> option exn).

Lemma thread_cb_app si q :
  thread_cb method run si q = q ++ thread_cb method run si [].
Proof.
  unfold thread_cb. destruct (run si) as [e|]; [destruct (is_Exception e)|];
    now rewrite ?app_nil_r.
Qed.

Lemma failures_app l1 l2 :
  failures method run (l1 ++ l2) = failures method run l1 ++ failures method run l2.
Proof. unfold failures. apply flat_map_app. Qed.

Lemma accounted_initial nodes : accounted method run nodes (initial nodes).
Proof. split; cbn; [rewrite app_nil_r; reflexivity | reflexivity]. Qed.

Lemma accounted_advance nodes st c :
  accounted method run nodes st -> accounted method run nodes (advance method run st c).
Proof.
  intros [Hp Hq]. destruct c as [|i]; cbn [advance].
  - destruct (unstarted st) as [|si rest] eqn:E.
    { split; [rewrite E; exact Hp | exact Hq]. }
    split; cbn [unstarted running invoked failq]; [|exact Hq].
    rewrite <- Hp. cbn. rewrite <- !app_assoc. cbn.
    rewrite (app_assoc rest (running st) (si :: invoked st)),
            (app_assoc rest (running st) (invoked st)).
    symmetry. apply Permutation_middle.
  - destruct (running st !! i) as [si|] eqn:E; [|now split].
    split; cbn [unstarted running invoked failq].
    + rewrite <- Hp. apply Permutation_app_head.
      etransitivity;
        [| apply Permutation_app_tail; symmetry; apply (delete_Permutation _ _ _ E)].
      cbn. rewrite app_assoc. rewrite <- Permutation_cons_append. reflexivity.
    + rewrite thread_cb_app, Hq, failures_app. cbn. now rewrite app_nil_r.
Qed.

Lemma accounted_execute nodes schedule : forall st,
  accounted method run nodes st -> accounted method run nodes (execute method run schedule st).
Proof.
  induction schedule as [|c rest IH]; intros st H; [exact H|].
  apply IH, accounted_advance, H.
Qed.

Lemma joined_lists st : joined st = true -> unstarted st = [] /\ running st = [].
Proof.
  unfold joined. destruct (unstarted st); [|discriminate].
  destruct (running st); [now split | discriminate].
Qed.


Lemma failures_In nodes d e :
  In (d, e) (failures method run nodes) <->
  exists si, In si nodes /\ run si = Some e /\ is_Exception e = true /\
             d = "Failed to " +:+ method +:+ " instance " +:+ si.
Proof.
  unfold failures. rewrite in_flat_map. split.
  - intros (si & Hsi & Hin). exists si. unfold thread_cb in Hin.
    destruct (run si) as [e'|]; [|destruct Hin].
    destruct (is_Exception e') eqn:He; [|destruct Hin].
    destruct Hin as [[= <- <-] | []]. now split_and!.
  - intros (si & Hsi & Hr & He & ->). exists si. split; [exact Hsi|].
    unfold thread_cb. rewrite Hr, He. now left.
Qed.

End FanoutFacts.

Section FanoutClaims.
Import Fanout.



End FanoutClaims.

(** ** Failures of [create] and [add_nodes] *)

Section LifecycleFacts.
Import Channel Lifecycle.

Variable E : env.

Lemma bind_ok {A B} (m : M A) (k : A -> M B) w a w' :
  m w = Ok a w' -> bind m k w = k a w'.
Proof. intros H. unfold bind. now rewrite H. Qed.

Lemma bind_err {A B} (m : M A) (k : A -> M B) w e w' :
  m w = Err e w' -> bind m k w = Err e w'.
Proof. intros H. unfold bind. now rewrite H. Qed.

Lemma bind_blocked {A B} (m : M A) (k : A -> M B) w w' :
  m w = Blocked w' -> bind m k w = Blocked w'.
Proof. intros H. unfold bind. now rewrite H. Qed.

Lemma call_returns c w :
  calls E c = None ->
  call E c w = Ok tt {| channel := channel w; trace := trace w ++ [Called c] |}.
Proof. intros H. unfold call, bind, emit. now rewrite H. Qed.

Lemma call_raises c e w :
  calls E c = Some e ->
  call E c w = Err e {| channel := channel w; trace := trace w ++ [Called c] |}.
Proof. intros H. unfold call, bind, emit. now rewrite H. Qed.

Lemma sequence_fails sites : forall e w,
  first_failure E sites = Some e ->
  exists t, sequence E sites w = Err e (later w t).
Proof.
  induction sites as [|c rest IH]; intros e w H; [discriminate|].
  cbn [first_failure sequence] in *.
  destruct (calls E c) as [e'|] eqn:Hc.
  - injection H as ->. exists [Called c]. rewrite (bind_err _ _ _ _ _ (call_raises _ _ _ Hc)).
    reflexivity.
  - rewrite (bind_ok _ _ _ _ _ (call_returns _ _ Hc)).
    destruct (IH e {| channel := channel w; trace := trace w ++ [Called c] |} H) as (t & Ht).
    exists (Called c :: t). rewrite Ht. unfold later. cbn. now rewrite <- app_assoc.
Qed.

Lemma bind_ret_tt (m : M unit) w : bind m (fun _ => ret tt) w = m w.
Proof. unfold bind, ret. destruct (m w) as [[] w'|e w'|w']; reflexivity. Qed.

Lemma later_later w t1 t2 : later (later w t1) t2 = later w (t1 ++ t2).
Proof. unfold later. cbn. now rewrite <- app_assoc. Qed.

Lemma later_nil w : later w [] = w.
Proof. unfold later. rewrite app_nil_r. now destruct w. Qed.

Lemma bind_congr {A B} (m : M A) (k1 k2 : A -> M B) w :
  (forall a w', k1 a w' = k2 a w') -> bind m k1 w = bind m k2 w.
Proof. intros H. unfold bind. destruct (m w); [apply H | reflexivity | reflexivity]. Qed.

Lemma final_phase_sequence w :
  (call E wait_for_healthcheck >>
   call E disallow_join >>
   call E set_node_naming_policy >>
   if nodes_created E >? 1 then call E enable_ha else ret tt) w
  = sequence E (final_phase E) w.
Proof.
  unfold final_phase. destruct (nodes_created E >? 1); cbn [app sequence]; [|reflexivity].
  do 3 (apply bind_congr; intros [] ?). symmetry. apply bind_ret_tt.
Qed.

Lemma math_log_returns x w : 1 <= x -> math_log x w = Ok tt w.
Proof. intros H. unfold math_log. destruct (Z.leb_spec x 0); [lia | reflexivity]. Qed.

Lemma math_log_raises x w : x <= 0 -> math_log x w = Err math_domain_error w.
Proof. intros H. unfold math_log. destruct (Z.leb_spec x 0); [reflexivity | lia]. Qed.

Lemma ask_query {A} c (f : remote -> A) : calls E c = None -> ask E c f = query f.
Proof. intros H. unfold ask. now rewrite H. Qed.

Lemma ask_raises {A} c (f : remote -> A) e w : calls E c = Some e -> ask E c f w = Err e w.
Proof. intros H. unfold ask. now rewrite H. Qed.

Lemma join_nodes_sequence count w :
  1 <= count -> join_nodes E count w = sequence E join_phase w.
Proof.
  intros H. unfold join_nodes, join_phase. cbn [sequence].
  do 3 (apply bind_congr; intros [] ?).
  rewrite (bind_ok _ _ _ _ _ (math_log_returns _ _ H)).
  do 4 (apply bind_congr; intros [] ?). symmetry. apply bind_ret_tt.
Qed.

Lemma sequence_fails_try sites handler w e :
  first_failure E sites = Some e ->
  exists t, try_except (sequence E sites) any_exception handler w = handler e (later w t).
Proof.
  intros H. destruct (sequence_fails sites e w H) as (t & Ht).
  exists t. unfold try_except. now rewrite Ht.
Qed.

Lemma sequence_returns sites : forall w,
  first_failure E sites = None ->
  sequence E sites w = Ok tt (later w (map Called sites)).
Proof.
  induction sites as [|c rest IH]; intros w H; cbn [first_failure sequence map] in *.
  - unfold ret. now rewrite later_nil.
  - destruct (calls E c) eqn:Hc; [discriminate|].
    rewrite (bind_ok _ _ _ _ _ (call_returns _ _ Hc)).
    change {| channel := channel w; trace := trace w ++ [Called c] |} with (later w [Called c]).
    rewrite (IH _ H), later_later. reflexivity.
Qed.

Lemma call_returns_later c w : calls E c = None -> call E c w = Ok tt (later w [Called c]).
Proof. apply call_returns. Qed.

Lemma try_except_congr {A} (b1 b2 : M A) catches handler w :
  b1 w = b2 w -> try_except b1 catches handler w = try_except b2 catches handler w.
Proof. intros H. unfold try_except. now rewrite H. Qed.

Lemma create_after_provisioning name options w :
  provisioned E name options ->
  exists t0, create E name options w = create_checks E options (later w t0).
Proof.
  intros (Hp & Hn & Hv & Hm & Hc & Hs).
  exists ((if proxy_uri options then [Called validate_proxy] else []) ++ [Called create_cluster]).
  unfold create.
  assert (Hclean : (if negb (create_skip_cleanup options) then call E destroy else call E telemetry)
                   = call E (cleanup_site options)).
  { unfold cleanup_site. now destruct (create_skip_cleanup options). }
  rewrite Hclean.
  apply String.eqb_neq in Hn. rewrite Hn, Hv. cbn [negb].
  assert (Hproxy : (if proxy_uri options then call E validate_proxy else ret tt) w
                   = Ok tt (later w (if proxy_uri options then [Called validate_proxy] else []))).
  { destruct (proxy_uri options).
    - now apply call_returns_later, Hp.
    - unfold ret. now rewrite later_nil. }
  rewrite (bind_ok _ _ _ _ _ Hproxy).
  set (w0 := later w (if proxy_uri options then [Called validate_proxy] else [])).
  assert (Hmgmt : match management_address options with
                  | Some requested_mgmt_ip =>
                      if management_address_in_use options
                      then raise (vFXTConfigurationException
                                    ("The requested management address "
                                     +:+ requested_mgmt_ip +:+ " is already in use"))
                      else ret tt
                  | None => ret tt
                  end w0 = Ok tt w0).
  { destruct (management_address options); [|reflexivity]. now rewrite Hm. }
  rewrite (bind_ok _ _ _ _ _ Hmgmt).
  assert (Hcreate : try_except (call E create_cluster >> ret (skip_configuration options))
                      only_KeyboardInterrupt
                      (fun e => (if negb (create_skip_cleanup options)
                                 then call E destroy else ret tt) >> raise e) w0
                    = Ok false (later w0 [Called create_cluster])).
  { unfold try_except. rewrite (bind_ok _ _ _ _ _ (call_returns_later _ _ Hc)).
    unfold ret. now rewrite Hs. }
  rewrite (bind_ok _ _ _ _ _ Hcreate). subst w0. rewrite later_later.
  unfold create_checks. do 2 (apply bind_congr; intros [] ?).
  unfold bind at 1 3. erewrite try_except_congr; [reflexivity|]. apply final_phase_sequence.
Qed.

Lemma cleanup_then_raise {A} message c x w :
  calls E c = None ->
  (emit (Logged message) >> call E c >> raise (A := A) x) w
    = Err x (later w [Logged message; Called c]).
Proof.
  intros H. unfold bind at 1. unfold emit at 1.
  rewrite (bind_ok _ _ _ _ _ (call_returns_later _ _ H)).
  unfold raise, later. cbn. now rewrite <- app_assoc.
Qed.

Lemma checks_try_returns options w :
  calls E wait_for_service_checks = None ->
  try_except (call E wait_for_service_checks) any_exception
    (fun e => emit (Logged "Failed to wait for service checks") >>
              call E (cleanup_site options) >> raise e) w
  = Ok tt (later w [Called wait_for_service_checks]).
Proof. intros H. unfold try_except. now rewrite (call_returns_later _ _ H). Qed.

Lemma join_wait_returns w :
  1 <= nodes_created E -> calls E wait_for_nodes_to_join = None ->
  (math_log (nodes_created E) >> call E wait_for_nodes_to_join) w
    = Ok tt (later w [Called wait_for_nodes_to_join]).
Proof.
  intros Hn Hc. rewrite (bind_ok _ _ _ _ _ (math_log_returns _ _ Hn)).
  now apply call_returns_later.
Qed.

Lemma join_wait_raises w e :
  1 <= nodes_created E -> calls E wait_for_nodes_to_join = Some e ->
  (math_log (nodes_created E) >> call E wait_for_nodes_to_join) w
    = Err e (later w [Called wait_for_nodes_to_join]).
Proof.
  intros Hn Hc. rewrite (bind_ok _ _ _ _ _ (math_log_returns _ _ Hn)).
  now apply call_raises.
Qed.

Lemma join_wait_domain_error w :
  nodes_created E <= 0 ->
  (math_log (nodes_created E) >> call E wait_for_nodes_to_join) w = Err math_domain_error w.
Proof. intros Hn. apply bind_err. now apply math_log_raises. Qed.

Lemma join_try_returns options w :
  1 <= nodes_created E -> calls E wait_for_nodes_to_join = None ->
  try_except (math_log (nodes_created E) >> call E wait_for_nodes_to_join) any_exception
    (fun e => emit (Logged "Failed to wait for nodes to join") >>
              call E (cleanup_site options) >> raise e) w
  = Ok tt (later w [Called wait_for_nodes_to_join]).
Proof. intros Hn H. unfold try_except. now rewrite (join_wait_returns _ Hn H). Qed.

Lemma create_checks_final options w e :
  calls E wait_for_service_checks = None ->
  1 <= nodes_created E -> calls E wait_for_nodes_to_join = None ->
  first_failure E (final_phase E) = Some e ->
  calls E (cleanup_site options) = None ->
  exists t, create_checks E options w
    = Err (vFXTCreateFailure e) (later w (t ++ [Called (cleanup_site options)])).
Proof.
  intros H1 Hn H2 Hf Hc. unfold create_checks.
  rewrite (bind_ok _ _ _ _ _ (checks_try_returns options w H1)).
  rewrite (bind_ok _ _ _ _ _ (join_try_returns options _ Hn H2)).
  destruct (sequence_fails_try (final_phase E)
              (fun e => emit (Logged "Cluster failed") >>
                        call E (cleanup_site options) >> raise (vFXTCreateFailure e))
              (later (later w [Called wait_for_service_checks]) [Called wait_for_nodes_to_join])
              e Hf) as (t & Ht).
  exists ([Called wait_for_service_checks; Called wait_for_nodes_to_join] ++ t
          ++ [Logged "Cluster failed"]).
  apply bind_err. rewrite Ht, (cleanup_then_raise _ _ _ _ Hc), !later_later.
  f_equal. f_equal. cbn. rewrite <- !app_assoc. reflexivity.
Qed.

(** A failure of the service checks, of the join wait, or of line 256
    comes out of [create] as it is. *)
Lemma create_checks_early options w e :
  calls E wait_for_service_checks = Some e \/
  (calls E wait_for_service_checks = None /\
   ((1 <= nodes_created E /\ calls E wait_for_nodes_to_join = Some e) \/
    (nodes_created E <= 0 /\ e = math_domain_error))) ->
  calls E (cleanup_site options) = None ->
  exists t, create_checks E options w = Err e (later w (t ++ [Called (cleanup_site options)])).
Proof.
  intros Hf Hc. unfold create_checks.
  destruct Hf as [H1 | [H1 Hjoin]].
  - exists [Called wait_for_service_checks; Logged "Failed to wait for service checks"].
    apply bind_err. unfold try_except. rewrite (call_raises _ _ _ H1). cbn [any_exception].
    change {| channel := channel w; trace := trace w ++ [Called wait_for_service_checks] |}
      with (later w [Called wait_for_service_checks]).
    now rewrite (cleanup_then_raise _ _ _ _ Hc), later_later.
  - rewrite (bind_ok _ _ _ _ _ (checks_try_returns options w H1)).
    destruct Hjoin as [[Hn H2] | [Hn ->]].
    + exists [Called wait_for_service_checks; Called wait_for_nodes_to_join;
              Logged "Failed to wait for nodes to join"].
      apply bind_err. unfold try_except.
      rewrite (join_wait_raises _ _ Hn H2). cbn [any_exception].
      now rewrite (cleanup_then_raise _ _ _ _ Hc), !later_later.
    + exists [Called wait_for_service_checks; Logged "Failed to wait for nodes to join"].
      apply bind_err. unfold try_except.
      rewrite (join_wait_domain_error _ Hn). cbn [any_exception].
      now rewrite (cleanup_then_raise _ _ _ _ Hc), !later_later.
Qed.

Lemma add_nodes_after_preparation count options w added w1 :
  prepared E count options w added w1 ->
  add_nodes E count options w
    = try_except (join_nodes E count) any_exception (undo E options count added) w1.
Proof.
  intros (Hr & Hn & Hs & Hl & Hx). unfold add_nodes.
  rewrite (bind_ok _ _ _ _ _ (call_returns_later _ _ Hr)).
  destruct (Z.eqb_spec (len (nodes_loaded E)) 0) as [|_]; [contradiction|].
  rewrite (bind_ok _ _ _ _ _ (call_returns_later _ _ Hs)).
  destruct (Z.gtb_spec (len (nodes_loaded E) + count) (maxNodes E)) as [|_]; [lia|].
  rewrite later_later. unfold bind at 1 2 3. unfold query at 1 2 3.
  cbn [app] in *. unfold bind. unfold later in *. cbn [channel] in *. now rewrite Hx.
Qed.

Lemma issued_app t1 t2 : issued (t1 ++ t2) = issued t1 ++ issued t2.
Proof. unfold issued. apply flat_map_app. Qed.

Lemma logged_app t1 t2 : logged (t1 ++ t2) = logged t1 ++ logged t2.
Proof. unfold logged. apply flat_map_app. Qed.

Lemma sequence_fails_issued sites : forall e w,
  first_failure E sites = Some e ->
  exists t, sequence E sites w = Err e (later w t) /\ issued t = [].
Proof.
  induction sites as [|c rest IH]; intros e w H; [discriminate|].
  cbn [first_failure sequence] in *.
  destruct (calls E c) as [e'|] eqn:Hc.
  - injection H as ->. exists [Called c].
    rewrite (bind_err _ _ _ _ _ (call_raises _ _ _ Hc)). now split.
  - rewrite (bind_ok _ _ _ _ _ (call_returns_later _ _ Hc)).
    destruct (IH e (later w [Called c]) H) as (t & Ht & Hi).
    exists (Called c :: t). rewrite Ht, later_later. now split.
Qed.

(** The body of the [try] of [add_nodes] fails with the first failure of
    its calls when [count] is positive, and with the [ValueError] of line
    748 when it is not and the calls before that line return. *)
Lemma join_nodes_fails count w e :
  (1 <= count /\ first_failure E join_phase = Some e) \/
  (count <= 0 /\ first_failure E registration_phase = None /\ e = math_domain_error) ->
  exists t, join_nodes E count w = Err e (later w t) /\ issued t = [].
Proof.
  intros [[Hc Hf] | (Hc & Hf & ->)].
  - rewrite (join_nodes_sequence _ _ Hc). now apply sequence_fails_issued.
  - exists (map Called registration_phase). split; [|reflexivity].
    unfold registration_phase in *. cbn [first_failure] in Hf.
    destruct (calls E allow_join) eqn:H1; [discriminate|].
    destruct (calls E add_cluster_nodes) eqn:H2; [discriminate|].
    destruct (calls E wait_for_service_checks) eqn:H3; [discriminate|].
    unfold join_nodes.
    rewrite (bind_ok _ _ _ _ _ (call_returns_later _ _ H1)).
    rewrite (bind_ok _ _ _ _ _ (call_returns_later _ _ H2)).
    rewrite (bind_ok _ _ _ _ _ (call_returns_later _ _ H3)).
    rewrite (bind_err _ _ _ _ _ (math_log_raises _ _ Hc)), !later_later. reflexivity.
Qed.

Lemma add_nodes_fails count options w added w1 e :
  prepared E count options w added w1 ->
  (1 <= count /\ first_failure E join_phase = Some e) \/
  (count <= 0 /\ first_failure E registration_phase = None /\ e = math_domain_error) ->
  exists t, add_nodes E count options w = undo E options count added e (later w1 t) /\
            issued t = [].
Proof.
  intros Hp Hf. rewrite (add_nodes_after_preparation _ _ _ _ _ Hp).
  destruct (join_nodes_fails count w1 e Hf) as (t & Ht & Hi).
  exists t. split; [|exact Hi]. unfold try_except. now rewrite Ht.
Qed.

Lemma for_each_returns {A} (l : list A) (body : A -> M unit) :
  (forall x, appends (body x)) -> appends (for_each l body).
Proof.
  intros Hb. induction l as [|x l IH]; intros w; cbn [for_each].
  - exists tt, w, []. now rewrite app_nil_r.
  - destruct (Hb x w) as ([] & w1 & t1 & H1 & T1).
    destruct (IH w1) as ([] & w2 & t2 & H2 & T2).
    exists tt, w2, (t1 ++ t2). rewrite (bind_ok _ _ _ _ _ H1), H2, T2, T1.
    now rewrite app_assoc.
Qed.

Lemma perform_settles op how w :
  settles (fates E op) how ->
  exists w' n, perform E op w
                = Ok (match how with Some _ => Succeeded | None => ReportedFailure end) w' /\
               trace w' = trace w ++ [Issued op n].
Proof.
  intros (activity & Ht & Hh). unfold perform. rewrite Ht.
  destruct (String.eqb activity "success"); cbn [negb].
  - subst how. eexists _, _. split; reflexivity.
  - destruct how as [n|].
    + rewrite Hh. eexists _, _. split; reflexivity.
    + destruct Hh as (n & ->). eexists _, _. split; reflexivity.
Qed.

(** The head of the [except] clause when cleanup is not suppressed: the
    log lines, the reload of the cluster information, the query of line
    771 and the teardown of the never-joined nodes. *)
Lemma destroy_unjoined_logged w :
  (unjoined_nodes E <> [] ->
   forall d, calls E (destroy_unjoined (unjoined_nodes E)) = Some d -> is_Exception d = true) ->
  exists t,
    match unjoined_nodes E with
    | [] => ret tt
    | _ => try_except (call E (destroy_unjoined (unjoined_nodes E))) is_Exception
             (fun destroy_e => emit (Logged "Failed to undo configuration"))
    end w = Ok tt (later w t) /\
    (unjoined_nodes E <> [] -> is_Some (calls E (destroy_unjoined (unjoined_nodes E))) ->
     In "Failed to undo configuration" (logged t)) /\
    issued t = [].
Proof.
  intros Hd. destruct (unjoined_nodes E) as [|i rest] eqn:Hu.
  - exists []. split_and!;
      [unfold ret; now rewrite later_nil | intros H; contradiction | reflexivity].
  - assert (Hne : unjoined_nodes E <> []) by (rewrite Hu; discriminate).
    rewrite <- Hu in *. unfold try_except.
    destruct (calls E (destroy_unjoined (unjoined_nodes E))) as [d|] eqn:Hc.
    + exists [Called (destroy_unjoined (unjoined_nodes E)); Logged "Failed to undo configuration"].
      rewrite (call_raises _ _ _ Hc), (Hd Hne d eq_refl). split_and!.
      * unfold emit, later. cbn. now rewrite <- app_assoc.
      * intros _ _. cbn. now left.
      * reflexivity.
    + exists [Called (destroy_unjoined (unjoined_nodes E))].
      rewrite (call_returns_later _ _ Hc). split_and!; [reflexivity | | reflexivity].
      intros _ [? [=]].
Qed.

Lemma undo_suppressed options count added e w :
  skip_cleanup options = true ->
  calls E telemetry = None ->
  undo E options count added e w
    = Err (vFXTCreateFailure e) (later w [Logged "add_nodes failed"; Called telemetry]).
Proof.
  intros Hs Ht. unfold undo. rewrite Hs.
  unfold bind at 1. unfold emit at 1.
  rewrite (bind_ok _ _ _ _ _ (call_returns_later _ _ Ht)).
  unfold raise, later. cbn. now rewrite <- app_assoc.
Qed.

(** The [except] clause from line 760 to line 779, with what follows it
    as [rest]. *)
Lemma undo_head options count added e w :
  skip_cleanup options = false ->
  calls E load_cluster_information = None ->
  calls E list_unconfigured_nodes = None ->
  (unjoined_nodes E <> [] ->
   forall d, calls E (destroy_unjoined (unjoined_nodes E)) = Some d -> is_Exception d = true) ->
  exists t,
    undo E options count added e w
      = ((if len (unjoined E) =? count then undo_extensions E added else ret tt) >>
         call E disallow_join_after_undo >>
         raise (vFXTCreateFailure e)) (later w t) /\
    issued t = [] /\
    (unjoined_nodes E <> [] -> is_Some (calls E (destroy_unjoined (unjoined_nodes E))) ->
     In "Failed to undo configuration" (logged t)).
Proof.
  intros Hs Hl Hq Hd. unfold undo. rewrite Hs.
  unfold bind at 1. unfold emit at 1. unfold bind at 1. unfold emit at 1.
  cbn [channel trace].
  match goal with
  | |- context [bind (call E load_cluster_information) ?k ?w0] =>
      rewrite (bind_ok _ k w0 _ _ (call_returns_later _ _ Hl)); set (w1 := later w0 _)
  end.
  rewrite (ask_query _ _ Hq). unfold bind at 1. unfold query at 1.
  destruct (destroy_unjoined_logged w1 Hd) as (td & Hdest & Hlog & Hid).
  rewrite (bind_ok _ _ _ _ _ Hdest).
  exists ([Logged "add_nodes failed";
           Logged "Undoing configuration changes for node addition";
           Called load_cluster_information] ++ td).
  split_and!.
  - f_equal. subst w1. unfold later. cbn. f_equal. rewrite <- !app_assoc. reflexivity.
  - rewrite issued_app, Hid. reflexivity.
  - intros Hne Hsome. rewrite logged_app. apply in_or_app. right. now apply Hlog.
Qed.

(** The query of line 771 fails: its exception leaves the [except]
    clause. *)
Lemma undo_query_fails options count added e d w :
  skip_cleanup options = false ->
  calls E load_cluster_information = None ->
  calls E list_unconfigured_nodes = Some d ->
  undo E options count added e w
    = Err d (later w [Logged "add_nodes failed";
                      Logged "Undoing configuration changes for node addition";
                      Called load_cluster_information]).
Proof.
  intros Hs Hl Hq. unfold undo. rewrite Hs.
  unfold bind at 1. unfold emit at 1. unfold bind at 1. unfold emit at 1.
  cbn [channel trace].
  match goal with
  | |- context [bind (call E load_cluster_information) ?k ?w0] =>
      rewrite (bind_ok _ k w0 _ _ (call_returns_later _ _ Hl))
  end.
  rewrite (bind_err _ _ _ _ _ (ask_raises _ _ _ _ Hq)).
  unfold later. cbn. rewrite <- !app_assoc. reflexivity.
Qed.

Lemma undo_skips_ranges options count added e w :
  skip_cleanup options = false ->
  calls E load_cluster_information = None ->
  calls E list_unconfigured_nodes = None ->
  (unjoined_nodes E <> [] ->
   forall d, calls E (destroy_unjoined (unjoined_nodes E)) = Some d -> is_Exception d = true) ->
  calls E disallow_join_after_undo = None ->
  len (unjoined E) <> count ->
  exists t, undo E options count added e w = Err (vFXTCreateFailure e) (later w t) /\
            issued t = [].
Proof.
  intros Hs Hl Hq Hd Hj Hc.
  destruct (undo_head options count added e w Hs Hl Hq Hd) as (t & -> & Hi & _).
  destruct (Z.eqb_spec (len (unjoined E)) count) as [|_]; [contradiction|].
  unfold bind at 1. unfold ret at 1.
  rewrite (bind_ok _ _ _ _ _ (call_returns_later _ _ Hj)).
  exists (t ++ [Called disallow_join_after_undo]). split.
  - unfold raise. now rewrite later_later.
  - rewrite issued_app, Hi. reflexivity.
Qed.

Section Settling.

Hypothesis all_settle : forall op, exists how, settles (fates E op) how.
Hypothesis answered : ranges_answered E.

Lemma undo_ranges_returns first last ranges remove failure :
  appends (undo_ranges E first last ranges remove failure).
Proof.
  apply for_each_returns. intros r w.
  destruct ((firstIP r =? first) && (lastIP r =? last)).
  - destruct (all_settle (remove (name r))) as (how & Hs).
    destruct (perform_settles _ _ w Hs) as (w' & n & Hp & Ht).
    rewrite (bind_ok _ _ _ _ _ Hp). destruct how.
    + exists tt, w', [Issued (remove (name r)) n]. now split.
    + exists tt, (later w' [Logged failure]), [Issued (remove (name r)) n; Logged failure].
      split; [reflexivity|]. cbn. rewrite Ht, <- app_assoc. reflexivity.
  - exists tt, w, []. now rewrite app_nil_r.
Qed.

Lemma undo_extensions_returns added : appends (undo_extensions E added).
Proof.
  destruct answered as (Hlist & Hget & Hcluster).
  apply for_each_returns. intros [first last mask | first last mask] w; unfold undo_one.
  - rewrite (ask_query _ _ Hcluster). unfold bind at 1. unfold query at 1.
    apply undo_ranges_returns.
  - rewrite (ask_query _ _ Hlist). unfold bind at 1. unfold query at 1.
    apply for_each_returns. intros vserver w'.
    rewrite (ask_query _ _ (Hget vserver)). unfold bind at 1. unfold query at 1.
    apply undo_ranges_returns.
Qed.

Lemma undo_rolls_back options count added e w :
  skip_cleanup options = false ->
  calls E load_cluster_information = None ->
  calls E list_unconfigured_nodes = None ->
  (forall d, calls E (destroy_unjoined (unjoined_nodes E)) = Some d -> is_Exception d = true) ->
  calls E disallow_join_after_undo = None ->
  exists w' t,
    undo E options count added e w = Err (vFXTCreateFailure e) w' /\
    trace w' = trace w ++ t /\
    (unjoined_nodes E <> [] -> is_Some (calls E (destroy_unjoined (unjoined_nodes E))) ->
     In "Failed to undo configuration" (logged t)).
Proof.
  intros Hs Hl Hq Hd Hj.
  destruct (undo_head options count added e w Hs Hl Hq (fun _ => Hd)) as (th & -> & _ & Hlog).
  assert (Hundo : exists w3 t3,
            (if len (unjoined E) =? count then undo_extensions E added else ret tt)
              (later w th) = Ok tt w3 /\ trace w3 = trace (later w th) ++ t3).
  { destruct (len (unjoined E) =? count).
    - destruct (undo_extensions_returns added (later w th)) as ([] & w3 & t3 & H3 & T3).
      now exists w3, t3.
    - exists (later w th), []. split; [reflexivity | now rewrite app_nil_r]. }
  destruct Hundo as (w3 & t3 & H3 & T3).
  rewrite (bind_ok _ _ _ _ _ H3), (bind_ok _ _ _ _ _ (call_returns_later _ _ Hj)).
  eexists _, (th ++ t3 ++ [Called disallow_join_after_undo]).
  split; [reflexivity|]. split.
  - cbn. rewrite T3. cbn. rewrite <- !app_assoc. reflexivity.
  - intros Hne Hsome. rewrite logged_app. apply in_or_app. left. now apply Hlog.
Qed.

End Settling.

End LifecycleFacts.

Section LifecycleClaims.
Import Channel Lifecycle.

(** C6, as the code has it.  An exception raised in the last phase of
    [create] (health check, closing the joins, naming policy, HA) or in the
    body of the [try] of [add_nodes] reaches the caller, once the rollback
    (the telemetry report when cleanup is suppressed) has run to its end,
    as a [vFXTCreateFailure] that wraps it; an exception raised by the
    service checks or the join wait of [create] reaches the caller
    unchanged after the rollback.  The [ValueError] that [math.log] raises
    on line 256 for a cluster without nodes, and on line 748 for a count
    that is not positive, is such an exception: unchanged from [create],
    wrapped from [add_nodes].  In [add_nodes] a failure to destroy the
    never-joined nodes is logged and does not replace the original
    failure, while a failure of the query of line 771 does replace it. *)
Theorem failures_surface_after_rollback :
  (forall E name options w e,
     provisioned E name options ->
     calls E wait_for_service_checks = None ->
     1 <= nodes_created E -> calls E wait_for_nodes_to_join = None ->
     first_failure E (final_phase E) = Some e ->
     calls E (cleanup_site options) = None ->
     exists t, create E name options w
       = Err (vFXTCreateFailure e) (later w (t ++ [Called (cleanup_site options)]))) /\
  (forall E name options w e,
     provisioned E name options ->
     calls E wait_for_service_checks = Some e ->
     calls E (cleanup_site options) = None ->
     exists t, create E name options w
       = Err e (later w (t ++ [Called (cleanup_site options)]))) /\
  (forall E name options w e,
     provisioned E name options ->
     calls E wait_for_service_checks = None ->
     1 <= nodes_created E -> calls E wait_for_nodes_to_join = Some e ->
     calls E (cleanup_site options) = None ->
     exists t, create E name options w
       = Err e (later w (t ++ [Called (cleanup_site options)]))) /\
  (forall E name options w,
     provisioned E name options ->
     calls E wait_for_service_checks = None ->
     nodes_created E <= 0 ->
     calls E (cleanup_site options) = None ->
     exists t, create E name options w
       = Err math_domain_error (later w (t ++ [Called (cleanup_site options)]))) /\
  (forall E count options w added w1 e,
     prepared E count options w added w1 ->
     (1 <= count /\ first_failure E join_phase = Some e) \/
     (count <= 0 /\ first_failure E registration_phase = None /\ e = math_domain_error) ->
     skip_cleanup options = true ->
     calls E telemetry = None ->
     exists t, add_nodes E count options w
       = Err (vFXTCreateFailure e) (later w1 (t ++ [Called telemetry]))) /\
  (forall E count options w added w1 e,
     prepared E count options w added w1 ->
     (1 <= count /\ first_failure E join_phase = Some e) \/
     (count <= 0 /\ first_failure E registration_phase = None /\ e = math_domain_error) ->
     skip_cleanup options = false ->
     calls E load_cluster_information = None ->
     calls E list_unconfigured_nodes = None ->
     (forall d, calls E (destroy_unjoined (unjoined_nodes E)) = Some d ->
                is_Exception d = true) ->
     ranges_answered E ->
     (forall op, exists how, settles (fates E op) how) ->
     calls E disallow_join_after_undo = None ->
     exists w' t,
       add_nodes E count options w = Err (vFXTCreateFailure e) w' /\
       trace w' = trace w1 ++ t /\
       (unjoined_nodes E <> [] ->
        is_Some (calls E (destroy_unjoined (unjoined_nodes E))) ->
        In "Failed to undo configuration" (logged t))) /\
  (forall E count options w added w1 e d,
     prepared E count options w added w1 ->
     (1 <= count /\ first_failure E join_phase = Some e) \/
     (count <= 0 /\ first_failure E registration_phase = None /\ e = math_domain_error) ->
     skip_cleanup options = false ->
     calls E load_cluster_information = None ->
     calls E list_unconfigured_nodes = Some d ->
     exists t, add_nodes E count options w = Err d (later w1 t)).
Proof.
  split_and!.
  - intros E name options w e Hp H1 Hn H2 Hf Hc.
    destruct (create_after_provisioning E name options w Hp) as (t0 & ->).
    destruct (create_checks_final E options (later w t0) e H1 Hn H2 Hf Hc) as (t & ->).
    exists (t0 ++ t). now rewrite later_later, app_assoc.
  - intros E name options w e Hp H1 Hc.
    destruct (create_after_provisioning E name options w Hp) as (t0 & ->).
    destruct (create_checks_early E options (later w t0) e (or_introl H1) Hc) as (t & ->).
    exists (t0 ++ t). now rewrite later_later, app_assoc.
  - intros E name options w e Hp H1 Hn H2 Hc.
    destruct (create_after_provisioning E name options w Hp) as (t0 & ->).
    destruct (create_checks_early E options (later w t0) e
                (or_intror (conj H1 (or_introl (conj Hn H2)))) Hc) as (t & ->).
    exists (t0 ++ t). now rewrite later_later, app_assoc.
  - intros E name options w Hp H1 Hn Hc.
    destruct (create_after_provisioning E name options w Hp) as (t0 & ->).
    destruct (create_checks_early E options (later w t0) math_domain_error
                (or_intror (conj H1 (or_intror (conj Hn eq_refl)))) Hc) as (t & ->).
    exists (t0 ++ t). now rewrite later_later, app_assoc.
  - intros E count options w added w1 e Hp Hf Hs Ht.
    destruct (add_nodes_fails E count options w added w1 e Hp Hf) as (t & -> & _).
    exists (t ++ [Logged "add_nodes failed"]).
    rewrite (undo_suppressed E _ _ _ _ _ Hs Ht), later_later.
    f_equal. f_equal. now rewrite <- app_assoc.
  - intros E count options w added w1 e Hp Hf Hs Hl Hq Hd Hans Hall Hj.
    destruct (add_nodes_fails E count options w added w1 e Hp Hf) as (t & -> & _).
    destruct (undo_rolls_back E Hall Hans options count added e (later w1 t) Hs Hl Hq Hd Hj)
      as (w' & t' & Hu & Ht & Hlog).
    exists w', (t ++ t'). split_and!; [exact Hu | |].
    + rewrite Ht. cbn. now rewrite <- app_assoc.
    + intros Hne Hsome. rewrite logged_app. apply in_or_app. right. now apply Hlog.
  - intros E count options w added w1 e d Hp Hf Hs Hl Hq.
    destruct (add_nodes_fails E count options w added w1 e Hp Hf) as (t & -> & _).
    rewrite (undo_query_fails E _ _ _ _ _ _ Hs Hl Hq), later_later. eauto.
Qed.

(** The health check of a new cluster fails; the cluster is torn down. *)
Lemma failures_surface_after_rollback_witness :
  exists t,
    create (example_env healthcheck_fails) "vfxt" plain_create start
    = Err (vFXTCreateFailure (vFXTStatusFailure "Healthcheck for state yellow failed"))
          (later start (t ++ [Called destroy])).
Proof.
  refine (proj1 failures_surface_after_rollback (example_env healthcheck_fails) "vfxt"
            plain_create start _ _ eq_refl _ eq_refl eq_refl eq_refl).
  - split_and!; first [ discriminate | reflexivity | intros [? [=]] ].
  - cbn. lia.
Defined.

(** C6 as stated fails.  The service checks of a new cluster fail: after
    the teardown the caller receives that failure as it is, not inside a
    [vFXTCreateFailure].  The join wait times out and the teardown fails:
    the caller receives the teardown's failure, not the timeout. *)
Lemma failures_surface_after_rollback_counterexample :
  create (example_env service_checks_fail) "vfxt" plain_create start
    = Err checks_failure
          (later start [Called create_cluster; Called wait_for_service_checks;
                        Logged "Failed to wait for service checks"; Called destroy]) /\
  create (example_env join_and_destroy_fail) "vfxt" plain_create start
    = Err destroy_failure
          (later start [Called create_cluster; Called wait_for_service_checks;
                        Called wait_for_nodes_to_join;
                        Logged "Failed to wait for nodes to join"; Called destroy]).
Proof. split; reflexivity. Qed.

End LifecycleClaims.

(** ** Undoing the address-range extensions *)

Section ChannelFacts.
Import Channel Lifecycle.

Lemma remote_eq (r1 r2 : remote) :
  clusterIPs r1 = clusterIPs r2 -> vservers r1 = vservers r2 -> mgmtIP r1 = mgmtIP r2 ->
  r1 = r2.
Proof. destruct r1, r2. cbn. now intros -> -> ->. Qed.

Lemma with_extensions_cons r x rest :
  with_extensions r (x :: rest)
    = with_extensions (apply (given_name x) (addition x) r) rest.
Proof. reflexivity. Qed.

Lemma mgmtIP_with_extensions exts : forall r, mgmtIP (with_extensions r exts) = mgmtIP r.
Proof.
  induction exts as [|x rest IH]; intros r; [reflexivity|].
  rewrite with_extensions_cons, IH. unfold addition. now destruct (target x).
Qed.

Lemma clusterIPs_with_extensions exts : forall r,
  clusterIPs (with_extensions r exts) = clusterIPs r ++ cluster_part exts.
Proof.
  induction exts as [|x rest IH]; intros r.
  - cbn. now rewrite app_nil_r.
  - rewrite with_extensions_cons, IH. unfold cluster_part, addition. cbn [List.filter].
    destruct (target x) as [v|]; cbn [apply clusterIPs].
    + now rewrite bool_decide_eq_false_2 by discriminate.
    + rewrite bool_decide_eq_true_2 by reflexivity. cbn [map].
      now rewrite <- app_assoc.
Qed.

Lemma lookup_with_extensions exts : forall r v,
  (forall x u, In x exts -> target x = Some u -> is_Some (vservers r !! u)) ->
  vservers (with_extensions r exts) !! v
    = (fun ranges => ranges ++ vserver_part v exts) <$> (vservers r !! v).
Proof.
  induction exts as [|x rest IH]; intros r v Hdom.
  - cbn. destruct (vservers r !! v); cbn; [now rewrite app_nil_r | reflexivity].
  - rewrite with_extensions_cons, IH.
    + unfold vserver_part, addition. cbn [List.filter].
      destruct (target x) as [u|] eqn:Hx; cbn [apply vservers].
      * destruct (decide (u = v)) as [->|Hne].
        -- rewrite lookup_insert_eq, bool_decide_eq_true_2 by reflexivity.
           destruct (Hdom x v (or_introl eq_refl) Hx) as [ranges Hr].
           unfold clientFacingIPs. rewrite Hr. cbn. now rewrite <- app_assoc.
        -- rewrite lookup_insert_ne by exact Hne.
           rewrite bool_decide_eq_false_2 by congruence. reflexivity.
      * rewrite bool_decide_eq_false_2 by discriminate. reflexivity.
    + intros y u Hy Hu. specialize (Hdom y u (or_intror Hy) Hu).
      unfold addition. destruct (target x) as [u'|]; cbn [apply vservers]; [|exact Hdom].
      destruct (decide (u' = u)) as [->|Hne];
        [rewrite lookup_insert_eq; eauto | now rewrite lookup_insert_ne].
Qed.

Lemma filter_id {A} (f : A -> bool) (l : list A) :
  (forall y, In y l -> f y = true) -> List.filter f l = l.
Proof.
  induction l as [|a l IH]; intros H; [reflexivity|]. cbn.
  rewrite (H a (or_introl eq_refl)). f_equal. apply IH. intros y Hy. apply H. now right.
Qed.

Lemma In_cluster_part y exts :
  In y (cluster_part exts) -> exists x, In x exts /\ target x = None /\ y = range_of x.
Proof.
  unfold cluster_part. rewrite in_map_iff. intros (x & <- & Hx).
  apply filter_In in Hx as [Hx Ht]. apply bool_decide_eq_true in Ht. now exists x.
Qed.

Lemma In_vserver_part y v exts :
  In y (vserver_part v exts) -> exists x, In x exts /\ target x = Some v /\ y = range_of x.
Proof.
  unfold vserver_part. rewrite in_map_iff. intros (x & <- & Hx).
  apply filter_In in Hx as [Hx Ht]. apply bool_decide_eq_true in Ht. now exists x.
Qed.

Lemma other_name_true n (y : range) : name y <> n -> negb (String.eqb (name y) n) = true.
Proof. intros H. apply negb_true_iff, String.eqb_neq, H. Qed.

Section Removal.

Variables (r : remote) (x : applied) (rest : list applied).
Hypothesis fresh_x : fresh_for r x.
Hypothesis fresh_rest : Forall (fresh_for r) rest.
Hypothesis distinct_rest : Forall (distinct x) rest.

Let r1 := apply (given_name x) (addition x) r.

Lemma targets_exist y u :
  In y rest -> target y = Some u -> is_Some (vservers r !! u).
Proof.
  intros Hy Hu. destruct (proj1 (List.Forall_forall _ _) fresh_rest y Hy) as [_ H].
  exact (H u Hu).
Qed.

Lemma targets_exist_r1 y u :
  In y rest -> target y = Some u -> is_Some (vservers r1 !! u).
Proof.
  intros Hy Hu. pose proof (targets_exist y u Hy Hu) as H.
  subst r1. unfold addition. destruct (target x) as [v|]; cbn [apply vservers]; [|exact H].
  destruct (decide (v = u)) as [->|Hne];
    [rewrite lookup_insert_eq; eauto | now rewrite lookup_insert_ne].
Qed.

Lemma rest_names y : In y rest -> given_name y <> given_name x.
Proof.
  intros Hy. destruct (proj1 (List.Forall_forall _ _) distinct_rest y Hy) as [H _]. congruence.
Qed.

Lemma rest_bounds y :
  In y rest -> first_address y <> first_address x \/ last_address y <> last_address x.
Proof.
  intros Hy. destruct (proj1 (List.Forall_forall _ _) distinct_rest y Hy) as [_ [H|H]];
    [left | right]; congruence.
Qed.

(** Removing the range of [x] from the channel that holds [r], [x] and
    [rest] leaves [r] and [rest]. *)
Lemma removal_restores n0 :
  apply n0 (removal x) (with_extensions r1 rest) = with_extensions r rest.
Proof.
  destruct fresh_x as [Hknown Hdom].
  apply remote_eq.
  - rewrite clusterIPs_with_extensions. unfold removal. subst r1. unfold addition.
    destruct (target x) as [v|] eqn:Hx; cbn [apply clusterIPs].
    + now rewrite clusterIPs_with_extensions.
    + rewrite clusterIPs_with_extensions. cbn [apply clusterIPs].
      rewrite <- app_assoc, !List.filter_app. cbn [List.filter name app].
      rewrite String.eqb_refl. cbn [negb app].
      rewrite !filter_id; [reflexivity | |].
      * intros y Hy. apply In_cluster_part in Hy as (z & Hz & _ & ->).
        apply other_name_true. cbn. now apply rest_names.
      * intros y Hy. apply other_name_true. apply Hknown. now left.
  - apply map_eq. intros u. unfold removal.
    rewrite (lookup_with_extensions rest r u targets_exist).
    destruct (target x) as [v|] eqn:Hx; cbn [apply vservers].
    + destruct (Hdom v eq_refl) as [ranges Hr].
      assert (Hr1 : vservers r1 !! v = Some (ranges ++ [range_of x])).
      { subst r1. unfold addition. rewrite Hx. cbn [apply vservers].
        rewrite lookup_insert_eq. unfold clientFacingIPs. now rewrite Hr. }
      destruct (decide (v = u)) as [<-|Hne].
      * rewrite lookup_insert_eq, Hr. cbn. f_equal.
        unfold clientFacingIPs.
        rewrite (lookup_with_extensions rest r1 v targets_exist_r1), Hr1. cbn.
        rewrite <- app_assoc, !List.filter_app. cbn [List.filter name range_of app].
        rewrite String.eqb_refl. cbn [negb app].
        rewrite !filter_id; [reflexivity | |].
        -- intros y Hy. apply In_vserver_part in Hy as (z & Hz & _ & ->).
           apply other_name_true. cbn. now apply rest_names.
        -- intros y Hy. apply other_name_true. apply Hknown. right. exists v.
           unfold clientFacingIPs. now rewrite Hr.
      * rewrite lookup_insert_ne by exact Hne.
        rewrite (lookup_with_extensions rest r1 u targets_exist_r1).
        subst r1. unfold addition. rewrite Hx. cbn [apply vservers].
        now rewrite lookup_insert_ne.
    + rewrite (lookup_with_extensions rest r1 u targets_exist_r1).
      subst r1. unfold addition. now rewrite Hx.
  - unfold removal. destruct (target x); cbn [apply mgmtIP];
      rewrite !mgmtIP_with_extensions; subst r1; unfold addition;
      destruct (target x); reflexivity.
Qed.

End Removal.

End ChannelFacts.

Section UndoFacts.
Import Channel Lifecycle.

Variable E : env.

Lemma for_each_app {A} (l1 l2 : list A) (body : A -> M unit) w :
  for_each (l1 ++ l2) body w = (for_each l1 body >> for_each l2 body) w.
Proof.
  revert w. induction l1 as [|a l1 IH]; intros w; cbn [app for_each].
  - reflexivity.
  - unfold bind. destruct (body a w) as [[] w1| |]; try reflexivity.
    rewrite IH. reflexivity.
Qed.

Lemma perform_succeeds op n w :
  settles (fates E op) (Some n) ->
  perform E op w
    = Ok Succeeded {| channel := apply (new_name (fates E op)) op (channel w);
                      trace := trace w ++ [Issued op n] |}.
Proof.
  intros (activity & Ht & Hh). unfold perform. rewrite Ht.
  destruct (String.eqb activity "success"); cbn [negb].
  - now injection Hh as <-.
  - now rewrite Hh.
Qed.

Lemma undo_ranges_none first last ranges remove failure w :
  (forall y, In y ranges -> firstIP y <> first \/ lastIP y <> last) ->
  undo_ranges E first last ranges remove failure w = Ok tt w.
Proof.
  unfold undo_ranges. revert w. induction ranges as [|y ranges IH]; intros w H; [reflexivity|].
  cbn [for_each].
  assert (Hy : (firstIP y =? first) && (lastIP y =? last) = false).
  { destruct (H y (or_introl eq_refl)) as [Hf|Hl];
      [apply Z.eqb_neq in Hf; now rewrite Hf
      |apply Z.eqb_neq in Hl; rewrite Hl; apply andb_false_r]. }
  rewrite Hy. unfold bind, ret. apply IH. intros z Hz. apply H. now right.
Qed.

Lemma undo_ranges_single first last pre y post remove failure n w :
  (forall z, In z (pre ++ post) -> firstIP z <> first \/ lastIP z <> last) ->
  firstIP y = first -> lastIP y = last ->
  settles (fates E (remove (name y))) (Some n) ->
  undo_ranges E first last (pre ++ y :: post) remove failure w
    = Ok tt {| channel := apply (new_name (fates E (remove (name y)))) (remove (name y))
                            (channel w);
               trace := trace w ++ [Issued (remove (name y)) n] |}.
Proof.
  intros Hnone Hf Hl Hs. unfold undo_ranges. rewrite for_each_app.
  fold (undo_ranges E first last pre remove failure).
  rewrite (bind_ok _ _ _ _ _ (undo_ranges_none first last pre remove failure w
             (fun z Hz => Hnone z (in_or_app _ _ _ (or_introl Hz))))).
  cbn [for_each]. rewrite Hf, Hl, !Z.eqb_refl. cbn [andb].
  unfold bind at 1. unfold bind at 1. rewrite (perform_succeeds _ n w Hs). unfold ret at 1.
  fold (undo_ranges E first last post remove failure).
  apply undo_ranges_none. intros z Hz. apply Hnone, in_or_app. now right.
Qed.

Lemma vserver_list_split (r : remote) v :
  is_Some (vservers r !! v) ->
  exists pre post, vserver_list r = pre ++ v :: post /\ ~ In v pre /\ ~ In v post.
Proof.
  intros [ranges Hr].
  assert (Hin : v ∈ vserver_list r).
  { unfold vserver_list. apply list_elem_of_fmap. exists (v, ranges).
    split; [reflexivity | now apply elem_of_map_to_list]. }
  destruct (list_elem_of_split _ _ Hin) as (pre & post & Hsplit).
  exists pre, post. split; [exact Hsplit|].
  assert (Hnd : NoDup (vserver_list r)) by apply NoDup_fst_map_to_list.
  rewrite Hsplit in Hnd. apply NoDup_app in Hnd as (_ & Hpre & Hpost).
  apply NoDup_cons in Hpost as [Hpost _]. split.
  - intros H. apply list_elem_of_In in H. apply (Hpre v H). now left.
  - intros H. apply Hpost. now apply list_elem_of_In.
Qed.

Lemma clientFacingIPs_with_extensions r exts u :
  (forall x v, In x exts -> target x = Some v -> is_Some (vservers r !! v)) ->
  clientFacingIPs (with_extensions r exts) u = clientFacingIPs r u ++ vserver_part u exts.
Proof.
  intros Hdom. unfold clientFacingIPs. rewrite (lookup_with_extensions exts r u Hdom).
  destruct (vservers r !! u) as [ranges|] eqn:Hu; [reflexivity|]. cbn.
  destruct (vserver_part u exts) as [|y l] eqn:Hp; [reflexivity|].
  destruct (In_vserver_part y u exts) as (x & Hx & Ht & _); [rewrite Hp; now left|].
  destruct (Hdom x u Hx Ht) as [? ?]. congruence.
Qed.

End UndoFacts.

Section UndoOne.
Import Channel Lifecycle.

Variables (E : env) (r : remote) (x : applied) (rest : list applied).
Hypothesis answered : ranges_answered E.
Hypothesis fresh_x : fresh_for r x.
Hypothesis fresh_rest : Forall (fresh_for r) rest.
Hypothesis distinct_rest : Forall (distinct x) rest.

Lemma other_cluster_ranges y :
  In y (clusterIPs r ++ cluster_part rest) ->
  firstIP y <> first_address x \/ lastIP y <> last_address x.
Proof.
  intros Hy. apply in_app_or in Hy as [Hy | Hy].
  - apply (proj1 fresh_x). now left.
  - apply In_cluster_part in Hy as (z & Hz & _ & ->). cbn.
    exact (rest_bounds x rest distinct_rest z Hz).
Qed.

Lemma other_client_ranges u y :
  In y (clientFacingIPs r u ++ vserver_part u rest) ->
  firstIP y <> first_address x \/ lastIP y <> last_address x.
Proof.
  intros Hy. apply in_app_or in Hy as [Hy | Hy].
  - apply (proj1 fresh_x). right. now exists u.
  - apply In_vserver_part in Hy as (z & Hz & _ & ->). cbn.
    exact (rest_bounds x rest distinct_rest z Hz).
Qed.

(** The scan of the vservers other than the one the extension went to
    removes nothing. *)
Lemma scan_others (vs : list string) w :
  (forall u y, In u vs -> In y (clientFacingIPs (channel w) u) ->
     firstIP y <> first_address x \/ lastIP y <> last_address x) ->
  for_each vs (fun vserver =>
    let* ranges := ask E (get_vserver vserver) (fun r => clientFacingIPs r vserver) in
    undo_ranges E (first_address x) (last_address x) ranges (removeClientIPs vserver)
      "Failed to undo vserver extension") w = Ok tt w.
Proof.
  destruct answered as (_ & Hget & _).
  induction vs as [|u vs IH]; intros H; [reflexivity|]. cbn [for_each].
  rewrite (ask_query E _ _ (Hget u)).
  unfold bind at 1. unfold bind at 1. unfold query at 1.
  rewrite undo_ranges_none.
  - apply IH. intros u' y Hu Hy. apply (H u' y); [now right | exact Hy].
  - intros y Hy. apply (H u y); [now left | exact Hy].
Qed.

Lemma undo_one_restores w n :
  channel w = with_extensions (apply (given_name x) (addition x) r) rest ->
  settles (fates E (removal x)) (Some n) ->
  undo_one E (entry x) w
    = Ok tt {| channel := with_extensions r rest;
               trace := trace w ++ [Issued (removal x) n] |}.
Proof.
  intros Hw Hs. unfold undo_one, entry, removal in *.
  destruct answered as (Hlist & Hget & Hcluster).
  destruct (target x) as [v|] eqn:Hx.
  - (* a vserver extension *)
    rewrite (ask_query E _ _ Hlist). unfold bind at 1. unfold query at 1.
    assert (Hr1 : vservers (apply (given_name x) (addition x) r) !! v
                  = Some (clientFacingIPs r v ++ [range_of x])).
    { unfold addition. rewrite Hx. cbn [apply vservers]. apply lookup_insert_eq. }
    assert (Hv : is_Some (vservers (channel w) !! v)).
    { rewrite Hw, (lookup_with_extensions rest _ v (targets_exist_r1 r x rest fresh_rest)), Hr1.
      cbn. eauto. }
    destruct (vserver_list_split _ _ Hv) as (pre & post & -> & Hpre & Hpost).
    assert (Hcf : forall u, u <> v ->
              clientFacingIPs (channel w) u = clientFacingIPs r u ++ vserver_part u rest).
    { intros u Hu.
      rewrite Hw, (clientFacingIPs_with_extensions _ rest u (targets_exist_r1 r x rest fresh_rest)).
      f_equal. unfold clientFacingIPs, addition. rewrite Hx. cbn [apply vservers].
      now rewrite lookup_insert_ne by congruence. }
    rewrite for_each_app.
    assert (Hscan : forall u y, In u pre -> In y (clientFacingIPs (channel w) u) ->
              firstIP y <> first_address x \/ lastIP y <> last_address x).
    { intros u y Hu Hy. rewrite Hcf in Hy by (intros ->; contradiction).
      now apply (other_client_ranges u). }
    rewrite (bind_ok _ _ _ _ _ (scan_others pre w Hscan)).
    cbn [for_each]. rewrite (ask_query E _ _ (Hget v)).
    unfold bind at 1. unfold bind at 1. unfold query at 1.
    assert (Hcfv : clientFacingIPs (channel w) v
                   = clientFacingIPs r v ++ range_of x :: vserver_part v rest).
    { rewrite Hw, (clientFacingIPs_with_extensions _ rest v (targets_exist_r1 r x rest fresh_rest)).
      unfold clientFacingIPs at 1. rewrite Hr1. cbn. now rewrite <- app_assoc. }
    rewrite Hcfv.
    rewrite (undo_ranges_single E _ _ _ (range_of x) _ (removeClientIPs v) _ n w);
      [ | apply (other_client_ranges v) | reflexivity | reflexivity | exact Hs ].
    cbn [name range_of]. rewrite Hw.
    replace (removeClientIPs v (given_name x)) with (removal x)
      by (unfold removal; now rewrite Hx).
    rewrite (removal_restores r x rest fresh_x fresh_rest distinct_rest).
    apply scan_others. cbn [channel]. intros u y Hu Hy.
    rewrite (clientFacingIPs_with_extensions _ rest u (targets_exist r rest fresh_rest)) in Hy.
    now apply (other_client_ranges u).
  - (* the cluster extension *)
    rewrite (ask_query E _ _ Hcluster). unfold bind at 1. unfold query at 1.
    assert (Hcl : clusterIPs (channel w)
                  = clusterIPs r ++ range_of x :: cluster_part rest).
    { rewrite Hw, clusterIPs_with_extensions. unfold addition. rewrite Hx.
      cbn [apply clusterIPs]. now rewrite <- app_assoc. }
    rewrite Hcl.
    rewrite (undo_ranges_single E _ _ _ (range_of x) _ removeClusterIPs _ n w);
      [ | apply other_cluster_ranges | reflexivity | reflexivity | exact Hs ].
    cbn [name range_of]. rewrite Hw.
    replace (removeClusterIPs (given_name x)) with (removal x)
      by (unfold removal; now rewrite Hx).
    now rewrite (removal_restores r x rest fresh_x fresh_rest distinct_rest).
Qed.

End UndoOne.

Section UndoAll.
Import Channel Lifecycle.

Variable E : env.
Hypothesis answered : ranges_answered E.

(** The loop of line 782 removes the extensions one after the other, in
    the order of their application, and leaves the channel as it was. *)
Lemma undo_extensions_restores exts : forall r w,
  well_applied r exts ->
  channel w = with_extensions r exts ->
  (forall x, In x exts -> exists n, settles (fates E (removal x)) (Some n)) ->
  exists w',
    undo_extensions E (map entry exts) w = Ok tt w' /\
    channel w' = r /\
    issued (trace w') = issued (trace w) ++ map removal exts.
Proof.
  induction exts as [|x rest IH]; intros r w [Hfresh Hdist] Hw Hs.
  - exists w. cbn. now rewrite app_nil_r.
  - inversion Hfresh as [|? ? Hx Hrest]; subst.
    inversion Hdist as [|? ? Hxd Hrestd]; subst.
    destruct (Hs x (or_introl eq_refl)) as (n & Hn).
    unfold undo_extensions. cbn [map for_each].
    rewrite (bind_ok _ _ _ _ _ (undo_one_restores E r x rest answered Hx Hrest Hxd w n Hw Hn)).
    destruct (IH r {| channel := with_extensions r rest;
                      trace := trace w ++ [Issued (removal x) n] |})
      as (w' & Hrun & Hch & Hiss).
    + now split.
    + reflexivity.
    + intros y Hy. apply Hs. now right.
    + exists w'. split; [exact Hrun|]. split; [exact Hch|].
      rewrite Hiss. cbn [trace]. rewrite issued_app. cbn. now rewrite <- app_assoc.
Qed.

Lemma undo_restores options count added e w exts r :
  skip_cleanup options = false ->
  calls E load_cluster_information = None ->
  calls E list_unconfigured_nodes = None ->
  (forall d, calls E (destroy_unjoined (unjoined_nodes E)) = Some d -> is_Exception d = true) ->
  calls E disallow_join_after_undo = None ->
  len (unjoined E) = count ->
  added = map entry exts ->
  channel w = with_extensions r exts ->
  well_applied r exts ->
  (forall x, In x exts -> exists n, settles (fates E (removal x)) (Some n)) ->
  exists w',
    undo E options count added e w = Err (vFXTCreateFailure e) w' /\
    channel w' = r /\
    issued (trace w') = issued (trace w) ++ map removal exts.
Proof.
  intros Hs Hl Hq Hd Hj Hcount -> Hw Hwell Hsettle.
  destruct (undo_head E options count (map entry exts) e w Hs Hl Hq (fun _ => Hd))
    as (th & -> & Hih & _).
  apply Z.eqb_eq in Hcount. rewrite Hcount.
  destruct (undo_extensions_restores exts r (later w th) Hwell Hw Hsettle)
    as (w3 & H3 & Hch & Hi3).
  rewrite (bind_ok _ _ _ _ _ H3), (bind_ok _ _ _ _ _ (call_returns_later E _ _ Hj)).
  eexists. split; [reflexivity|]. split; [exact Hch|].
  cbn [later trace channel]. rewrite issued_app, Hi3. cbn [later trace channel].
  rewrite !issued_app, Hih. cbn. now rewrite !app_nil_r.
Qed.

End UndoAll.

Section ExtendFacts.
Import Channel Lifecycle.

Variable E : env.

Lemma with_extensions_app r l1 l2 :
  with_extensions r (l1 ++ l2) = with_extensions (with_extensions r l1) l2.
Proof. apply fold_left_app. Qed.

Lemma perform_succeeded op w w' :
  perform E op w = Ok Succeeded w' ->
  channel w' = apply (new_name (fates E op)) op (channel w) /\
  exists n, trace w' = trace w ++ [Issued op n].
Proof.
  unfold perform. destruct (token (fates E op)) as [activity|]; [|discriminate].
  destruct (negb (String.eqb activity "success")).
  - destruct (Activity.poll 0 (replies (fates E op))); try discriminate.
    intros [= <-]. split; [reflexivity | eauto].
  - intros [= <-]. split; [reflexivity | eauto].
Qed.

(** An extension that [extend] has applied *)
Lemma extend_applied avail_ips count op failure w l body w' :
  extend E avail_ips count op failure w = Ok (l, body) w' ->
  channel w' = apply (new_name (fates E (op (fst body) (snd body))))
                 (op (fst body) (snd body)) (channel w) /\
  exists n, trace w' = trace w ++ [Issued (op (fst body) (snd body)) n].
Proof.
  unfold extend. unfold bind at 1. unfold bound.
  destruct avail_ips as [ips|]; [|discriminate]. unfold ret at 1.
  unfold bind at 1. unfold ends_of.
  destruct (slice_to ips count) as [|a addresses] eqn:Ha; [discriminate|].
  unfold ret at 1. unfold bind.
  destruct (perform E _ w) as [[] w1| |] eqn:Hp; try discriminate.
  unfold ret. intros [= <- <- <-]. cbn [fst snd] in *.
  now apply perform_succeeded.
Qed.

Lemma extend_vservers_applied node_count count mask vs :
  forall avail_ips added w added' w',
  extend_vservers E node_count count mask vs avail_ips added w = Ok added' w' ->
  exists exts,
    added' = added ++ map entry exts /\
    channel w' = with_extensions (channel w) exts /\
    issued (trace w') = issued (trace w) ++ map addition exts /\
    Forall (fun x => given_name x = new_name (fates E (addition x))) exts.
Proof.
  induction vs as [|v rest IH]; intros avail_ips added w added' w' H; cbn [extend_vservers] in H.
  - injection H as <- <-. exists []. cbn. now rewrite !app_nil_r.
  - unfold bind at 1 in H. unfold query at 1 in H.
    destruct (AddressMath.vserver_to_add node_count count (clientFacingIPs (channel w) v))
      as [to_add|]; [|now apply IH in H].
    unfold bind at 1 in H.
    destruct (extend E avail_ips to_add _ _ w) as [[l body] w1| |] eqn:Hx; try discriminate.
    apply extend_applied in Hx as [Hch (n & Ht)]. cbn [fst snd] in *.
    apply IH in H as (exts & -> & Hch' & Hiss & Hnames).
    set (x := {| target := Some v;
                 given_name := new_name (fates E (addClientIPs v (fst body) (snd body) mask));
                 first_address := fst body; last_address := snd body; netmask := mask |}).
    exists (x :: exts). split_and!.
    + cbn [map]. now rewrite <- app_assoc.
    + rewrite Hch', Hch. reflexivity.
    + rewrite Hiss, Ht, issued_app. cbn. now rewrite <- app_assoc.
    + constructor; [reflexivity | exact Hnames].
Qed.

(** What lines 680-739 leave behind: the channel holds the extensions the
    entries of [added] record, applied in that order under the names the
    cluster gave them. *)
Lemma extend_ranges_applied options node_count count needs w added w' :
  extend_ranges E options node_count count needs w = Ok added w' ->
  exists exts,
    added = map entry exts /\
    channel w' = with_extensions (channel w) exts /\
    issued (trace w') = issued (trace w) ++ map addition exts /\
    Forall (fun x => given_name x = new_name (fates E (addition x))) exts.
Proof.
  unfold extend_ranges.
  destruct (AddressMath.ip_count needs >? 0).
  2: { intros [= <- <-]. exists []. cbn. now rewrite app_nil_r. }
  unfold bind at 1.
  match goal with |- match ?m w with _ => _ end = _ -> _ =>
    destruct (m w) as [[avail mask] w0| |] eqn:Havail; try discriminate end.
  assert (Hw0 : w0 = w).
  { destruct (address_range options) as [[avail_ip m]|].
    - destruct (len avail_ip <? AddressMath.ip_count needs); [discriminate|].
      now injection Havail.
    - destruct (get_available_addresses E) as [[ips m]|]; [|discriminate].
      now injection Havail. }
  subst w0. cbn [fst snd]. unfold bind at 1.
  match goal with |- match ?m w with _ => _ end = _ -> _ =>
    destruct (m w) as [avail_ips w0| |] eqn:Hpriv; try discriminate end.
  assert (Hw0 : w0 = w).
  { destruct (negb (AddressMath.need_private needs =? 0)).
    - unfold bind, bound in Hpriv. destruct avail; [|discriminate]. now injection Hpriv.
    - now injection Hpriv. }
  subst w0. unfold bind at 1.
  match goal with |- match ?m w with _ => _ end = _ -> _ =>
    destruct (m w) as [[avail_ips' added1] w1| |] eqn:Hcl; try discriminate end.
  assert (Hc : exists exts1,
            added1 = map entry exts1 /\ channel w1 = with_extensions (channel w) exts1 /\
            issued (trace w1) = issued (trace w) ++ map addition exts1 /\
            Forall (fun x => given_name x = new_name (fates E (addition x))) exts1).
  { destruct (AddressMath.need_cluster needs >? 0).
    - unfold bind at 1 in Hcl.
      destruct (extend E avail_ips _ _ _ w) as [[l body] w2| |] eqn:Hx; try discriminate.
      injection Hcl as <- <- <-.
      apply extend_applied in Hx as [Hch (n & Ht)]. cbn [fst snd] in *.
      exists [ {| target := None;
                  given_name := new_name (fates E (addClusterIPs (fst body) (snd body) mask));
                  first_address := fst body; last_address := snd body; netmask := mask |} ].
      split_and!; [reflexivity | exact Hch | | now repeat constructor].
      rewrite Ht, issued_app. reflexivity.
    - injection Hcl as <- <- <-. exists []. cbn. rewrite app_nil_r. now split_and!. }
  destruct Hc as (exts1 & -> & Hch1 & Hiss1 & Hn1). cbn [fst snd].
  destruct (AddressMath.need_vserver needs >? 0).
  - unfold bind at 1. unfold query at 1. intros H.
    apply extend_vservers_applied in H as (exts2 & -> & Hch2 & Hiss2 & Hn2).
    exists (exts1 ++ exts2). split_and!.
    + now rewrite map_app.
    + now rewrite Hch2, Hch1, with_extensions_app.
    + now rewrite Hiss2, Hiss1, map_app, app_assoc.
    + now apply Forall_app.
  - intros [= <- <-]. exists exts1. now split_and!.
Qed.

End ExtendFacts.

Section RollbackFacts.
Import Channel Lifecycle.

Variable E : env.

(** No node was registered by the call: none counts as never joined. *)
Lemma unjoined_none :
  (forall i, In i (nodes_expected E) <-> In i (nodes_joined E)) -> unjoined E = [].
Proof.
  intros H. unfold unjoined.
  assert (Heq : (list_to_set (nodes_expected E) : gset string) = list_to_set (nodes_joined E)).
  { apply set_eq. intros i. rewrite !elem_of_list_to_set, !list_elem_of_In. apply H. }
  rewrite Heq. set (J := list_to_set (nodes_joined E) : gset string).
  assert (Hempty : (J ∖ J) ∪ (J ∖ J) = (∅ : gset string)).
  { apply set_eq. intros i.
    rewrite elem_of_union, !elem_of_difference, elem_of_empty. tauto. }
  rewrite Hempty. apply elements_empty.
Qed.

(** The activity of a call has failed, and each of the [n] replies says so
    in its [state]: the loop of lines 791-798 and 806-813 is still polling
    after the last of them. *)
Lemma perform_blocked op activity status n new w :
  fates E op = {| token := Return activity;
                  replies := replicate n (Return (Activity.failed_reply status));
                  new_name := new |} ->
  activity <> "success" -> status <> "failure" ->
  perform E op w = Blocked (later w [Issued op n]).
Proof.
  intros Hf Ha Hs. unfold perform. rewrite Hf. cbn [token replies].
  apply String.eqb_neq in Ha. rewrite Ha. cbn [negb].
  rewrite (poll_in_progress (Activity.failed_reply status) n 0).
  - reflexivity.
  - unfold Activity.failed_reply. rewrite lookup_insert_eq. discriminate.
  - unfold Activity.failed_reply. rewrite lookup_insert_ne by discriminate.
    rewrite lookup_singleton_eq. congruence.
Qed.

Lemma undo_ranges_blocked first last pre y post remove failure w activity status n new :
  (forall z, In z pre -> firstIP z <> first \/ lastIP z <> last) ->
  firstIP y = first -> lastIP y = last ->
  fates E (remove (name y))
    = {| token := Return activity;
         replies := replicate n (Return (Activity.failed_reply status));
         new_name := new |} ->
  activity <> "success" -> status <> "failure" ->
  undo_ranges E first last (pre ++ y :: post) remove failure w
    = Blocked (later w [Issued (remove (name y)) n]).
Proof.
  intros Hpre Hf Hl Hfate Ha Hs. unfold undo_ranges. rewrite for_each_app.
  fold (undo_ranges E first last pre remove failure).
  rewrite (bind_ok _ _ _ _ _ (undo_ranges_none E first last pre remove failure w Hpre)).
  cbn [for_each]. rewrite Hf, Hl, !Z.eqb_refl. cbn [andb].
  apply bind_blocked, bind_blocked. eapply perform_blocked; eassumption.
Qed.

(** The rollback stops in the removal of the cluster range. *)
Lemma undo_blocked options count first last mask rest e w pre y post activity status n new :
  skip_cleanup options = false ->
  calls E load_cluster_information = None ->
  calls E list_unconfigured_nodes = None ->
  (unjoined_nodes E <> [] ->
   forall d, calls E (destroy_unjoined (unjoined_nodes E)) = Some d -> is_Exception d = true) ->
  len (unjoined E) = count ->
  calls E get_cluster = None ->
  clusterIPs (channel w) = pre ++ y :: post ->
  (forall z, In z pre -> firstIP z <> first \/ lastIP z <> last) ->
  firstIP y = first -> lastIP y = last ->
  fates E (removeClusterIPs (name y))
    = {| token := Return activity;
         replies := replicate n (Return (Activity.failed_reply status));
         new_name := new |} ->
  activity <> "success" -> status <> "failure" ->
  exists t,
    undo E options count (cluster_extension first last mask :: rest) e w
      = Blocked (later w (t ++ [Issued (removeClusterIPs (name y)) n])) /\
    issued t = [].
Proof.
  intros Hs Hl Hq Hd Hcount Hget Hranges Hpre Hf Hla Hfate Ha Hst.
  destruct (undo_head E options count (cluster_extension first last mask :: rest) e w
              Hs Hl Hq Hd) as (t & -> & Hi & _).
  exists t. split; [|exact Hi].
  apply Z.eqb_eq in Hcount. rewrite Hcount.
  apply bind_blocked. unfold undo_extensions. cbn [for_each]. apply bind_blocked.
  unfold undo_one. rewrite (ask_query E _ _ Hget). unfold bind at 1. unfold query at 1.
  cbn [later channel]. rewrite Hranges.
  rewrite (undo_ranges_blocked first last pre y post removeClusterIPs _ _
             activity status n new Hpre Hf Hla Hfate Ha Hst).
  now rewrite later_later.
Qed.

End RollbackFacts.

Section RollbackClaims.
Import Channel Lifecycle.

(** C1, where the code departs from it.  The rollback of the address
    ranges is tied to [len(unjoined) == count] (line 781), the number of
    nodes the cluster object holds and the reloaded cluster does not.  When
    [add_nodes(count=k)] fails before a node has been registered, no node
    of the [k] has joined and that number is zero: nothing is reversed and
    the extensions applied during the call stay in use, against the
    comment of line 780 and the docstring.  For a cluster of three nodes
    asked for three more, whose [allow_node_join()] fails, the addresses
    30 to 38 stay in use.  When the rollback does run, the loops of lines
    791-798 and 806-813 test the [status] of a reply where its [state] says
    [failure]: on an activity that has failed they neither log nor end,
    whatever the number of replies, and [add_nodes] does not return.  And
    the reversals run in the order of the applications (the cluster range
    first), not in the reverse order. *)
Theorem add_nodes_rollback_incomplete :
  (forall E count options w added w1 e,
     prepared E count options w added w1 ->
     1 <= count ->
     first_failure E join_phase = Some e ->
     skip_cleanup options = false ->
     calls E load_cluster_information = None ->
     calls E list_unconfigured_nodes = None ->
     calls E disallow_join_after_undo = None ->
     (forall i, In i (nodes_expected E) <-> In i (nodes_joined E)) ->
     exists t,
       add_nodes E count options w = Err (vFXTCreateFailure e) (later w1 t) /\
       issued t = []) /\
  (exists w',
     add_nodes (none_created allow_join_fails) 3 plain_add start
       = Err (vFXTCreateFailure join_refused) w' /\
     issued (trace w')
       = [addClusterIPs 30 35 "255.255.255.0"; addClientIPs "vserver" 36 38 "255.255.255.0"] /\
     channel w' = with_extensions example_remote example_extensions /\
     30 ∈ in_use_addresses (channel w') "all" /\
     30 ∉ in_use_addresses (channel start) "all") /\
  (forall E first last pre y post remove failure w activity status n new,
     (forall z, In z pre -> firstIP z <> first \/ lastIP z <> last) ->
     firstIP y = first -> lastIP y = last ->
     fates E (remove (name y))
       = {| token := Return activity;
            replies := replicate n (Return (Activity.failed_reply status));
            new_name := new |} ->
     activity <> "success" -> status <> "failure" ->
     undo_ranges E first last (pre ++ y :: post) remove failure w
       = Blocked (later w [Issued (remove (name y)) n])) /\
  (forall n, exists t,
     add_nodes (failing_removal n) 3 plain_add start
       = Blocked (later extended (t ++ [Issued (removeClusterIPs "cluster-2") n])) /\
     issued t = []) /\
  (exists w',
     add_nodes (example_env join_fails) 3 plain_add start
       = Err (vFXTCreateFailure join_timeout) w' /\
     issued (trace w')
       = [addClusterIPs 30 35 "255.255.255.0"; addClientIPs "vserver" 36 38 "255.255.255.0";
          removeClusterIPs "cluster-2"; removeClientIPs "vserver" "client-2"] /\
     issued (trace w')
       <> map addition example_extensions ++ rev (map removal example_extensions)).
Proof.
  split_and!.
  - intros E count options w added w1 e Hp Hc Hf Hs Hl Hq Hj Hsame.
    destruct (add_nodes_fails E count options w added w1 e Hp (or_introl (conj Hc Hf)))
      as (t & -> & Hi).
    pose proof (unjoined_none E Hsame) as Hu.
    assert (Hun : unjoined_nodes E = []) by (unfold unjoined_nodes; now rewrite Hu).
    destruct (undo_skips_ranges E options count added e (later w1 t) Hs Hl Hq) as (t' & -> & Hi').
    + intros Hne. now rewrite Hun in Hne.
    + exact Hj.
    + rewrite Hu. unfold len. cbn. lia.
    + exists (t ++ t'). rewrite later_later. split; [reflexivity|].
      now rewrite issued_app, Hi, Hi'.
  - eexists. split; [vm_compute; reflexivity|]. split_and!.
    + reflexivity.
    + vm_compute. reflexivity.
    + apply (bool_decide_unpack _). vm_compute. exact I.
    + apply (bool_decide_unpack _). vm_compute. exact I.
  - intros E first last pre y post remove failure w activity status n new.
    apply undo_ranges_blocked.
  - intros n.
    assert (Hp : prepared (failing_removal n) 3 plain_add start
                   (map entry example_extensions) extended).
    { split_and!;
        [reflexivity | discriminate | reflexivity | vm_compute; intros [=]
        | vm_compute; reflexivity]. }
    destruct (add_nodes_fails (failing_removal n) 3 plain_add start _ extended join_timeout Hp)
      as (t & -> & Hi).
    { left. split; [lia | reflexivity]. }
    assert (Hd : unjoined_nodes (failing_removal n) <> [] ->
                 forall d, calls (failing_removal n)
                             (destroy_unjoined (unjoined_nodes (failing_removal n))) = Some d ->
                           is_Exception d = true) by (intros _ d [=]).
    assert (Hcount : len (unjoined (failing_removal n)) = 3) by (vm_compute; reflexivity).
    assert (Hpre : forall z, In z [ {| name := "cluster"; firstIP := 10; lastIP := 15 |} ] ->
                             firstIP z <> 30 \/ lastIP z <> 35)
      by (intros z [<- | []]; left; cbn; lia).
    destruct (undo_blocked (failing_removal n) plain_add 3 30 35 "255.255.255.0"
                [vserver_extension 36 38 "255.255.255.0"] join_timeout (later extended t)
                [ {| name := "cluster"; firstIP := 10; lastIP := 15 |} ]
                {| name := "cluster-2"; firstIP := 30; lastIP := 35 |} []
                "activity-2" "address range in use" n ""
                eq_refl eq_refl eq_refl Hd Hcount eq_refl eq_refl Hpre eq_refl eq_refl eq_refl
                ltac:(discriminate) ltac:(discriminate))
      as (t' & Hu & Hi').
    exists (t ++ t'). split.
    + change (map entry example_extensions)
        with [cluster_extension 30 35 "255.255.255.0";
              vserver_extension 36 38 "255.255.255.0"].
      rewrite Hu, later_later, app_assoc. reflexivity.
    + now rewrite issued_app, Hi, Hi'.
  - eexists. split; [vm_compute; reflexivity|]. split; [reflexivity|].
    cbn. discriminate.
Qed.

(** Three more nodes for a cluster of three; the cluster does not open for
    joins, so no node is created: the call fails and removes no range. *)
Lemma add_nodes_rollback_incomplete_witness :
  exists t,
    add_nodes (none_created allow_join_fails) 3 plain_add start
      = Err (vFXTCreateFailure join_refused) (later extended t) /\
    issued t = [].
Proof.
  refine (proj1 add_nodes_rollback_incomplete (none_created allow_join_fails) 3 plain_add start
            (map entry example_extensions) extended join_refused _ _ eq_refl eq_refl eq_refl
            eq_refl eq_refl _).
  - split_and!;
      [reflexivity | discriminate | reflexivity | vm_compute; intros [=]
      | vm_compute; reflexivity].
  - lia.
  - intros i. reflexivity.
Defined.

End RollbackClaims.

Section HealthBudget.
Import Health.

Lemma loop_never_fails state duration conditions polls : forall made v,
  retries v <= 0 ->
  (exists n obs, loop state duration conditions made v polls = Healthy n obs) \/
  (exists v', loop state duration conditions made v polls = Polling v' /\
              retries v' = retries v - len polls).
Proof.
  induction polls as [|p rest IH]; intros made v Hr; cbn [loop].
  - right. exists v. split; [reflexivity|]. unfold len. cbn. lia.
  - assert (Hlen : forall x, x - 1 - len rest = x - len (p :: rest))
      by (intros x; unfold len; cbn [length]; lia).
    unfold iteration. destruct (holds state (alertstats p)).
    + destruct (_ >=? _); [left; eauto|].
      destruct (Z.eqb_spec (retries v - 1) 0) as [|_]; [lia|].
      destruct (IH (S made) {| start_time := start_time v;
                               observed := now p - start_time v;
                               retries := retries v - 1 |}) as [H|(v' & H & Hv)];
        [cbn; lia | now left | right].
      exists v'. split; [exact H|]. rewrite Hv. cbn. apply Hlen.
    + destruct (Z.eqb_spec (retries v - 1) 0) as [|_]; [lia|].
      destruct (IH (S made) {| start_time := now p; observed := 0;
                               retries := retries v - 1 |}) as [H|(v' & H & Hv)];
        [cbn; lia | now left | right].
      exists v'. split; [exact H|]. rewrite Hv. cbn. apply Hlen.
Qed.

(** X1.  Called with a retry budget of zero or less, [wait_for_healthcheck]
    never gives up: once connected it either succeeds or is still polling
    after every poll supplied, the counter only moving further below zero. *)
Theorem wait_for_healthcheck_unbounded :
  forall state retries duration t0 polls conditions,
    retries <= 0 ->
    (exists n obs,
       wait_for_healthcheck state retries duration (Return tt) t0 polls conditions
         = Healthy n obs) \/
    (exists v,
       wait_for_healthcheck state retries duration (Return tt) t0 polls conditions
         = Polling v /\ Health.retries v = retries - len polls).
Proof.
  intros state retries duration t0 polls conditions Hr. unfold wait_for_healthcheck.
  apply (loop_never_fails state duration conditions polls 0
           {| start_time := t0; observed := 0; retries := retries |}). exact Hr.
Qed.

(** A budget of zero and three polls that report red. *)
Lemma wait_for_healthcheck_unbounded_witness :
  (exists n obs,
     wait_for_healthcheck "green" 0 5 (Return tt) 0
       [reports "red" 1; reports "red" 2; reports "red" 3] (Return []) = Healthy n obs) \/
  (exists v,
     wait_for_healthcheck "green" 0 5 (Return tt) 0
       [reports "red" 1; reports "red" 2; reports "red" 3] (Return []) = Polling v /\
     Health.retries v = 0 - len [reports "red" 1; reports "red" 2; reports "red" 3]).
Proof. apply wait_for_healthcheck_unbounded. lia. Defined.

End HealthBudget.

Section JoinWaitLoop.
Import JoinWait.

Variables (expected : Z) (nodes : list string).

Lemma iteration_upgrading v p :
  short expected p -> upgrading nodes p = true ->
  iteration expected nodes v p = Next {| start_time := now p; retries := retries v |}.
Proof.
  unfold short, upgrading, iteration, after_count. intros Hs Hu.
  destruct (unconfigured_nodes p) as [us|e']; [|discriminate].
  destruct (node_list p) as [l|e].
  - destruct (Z.eqb_spec expected (len l)); [congruence|]. now rewrite Hu.
  - destruct Hs as [-> Hne].
    destruct (Z.eqb_spec expected 1); [congruence|]. now rewrite Hu.
Qed.

Lemma last_cons {A} (l : list A) : forall a d, List.last (a :: l) d = List.last l a.
Proof.
  induction l as [|b l IH]; intros a d; [reflexivity|].
  change (List.last (a :: b :: l) d) with (List.last (b :: l) d). now rewrite !IH.
Qed.

Lemma loop_upgrading polls : forall made t r,
  Forall (fun p => short expected p /\ upgrading nodes p = true) polls ->
  loop expected nodes made {| start_time := t; retries := r |} polls
    = Waiting {| start_time := List.last (map now polls) t; retries := r |}.
Proof.
  induction polls as [|p rest IH]; intros made t r H; [reflexivity|].
  inversion H as [|? ? [Hs Hu] Hrest]; subst. cbn [loop].
  rewrite (iteration_upgrading _ _ Hs Hu). cbn [retries]. rewrite (IH _ _ _ Hrest).
  do 2 f_equal. cbn [map]. now rewrite last_cons.
Qed.

(** What a poll that sees no image upgrade does: it ends the loop, or
    uses up one retry, which a counter at zero does not allow. *)
Lemma iteration_steady v p :
  upgrading nodes p = false ->
  iteration expected nodes v p = Break \/
  (exists e, iteration expected nodes v p = Failed e) \/
  (exists v', iteration expected nodes v p = Next v' /\
              retries v' = retries v - 1 /\ retries v <> 0).
Proof.
  intros Hu.
  assert (Hc : forall found,
            (exists e, check expected found v p = Failed e) \/
            (exists v', check expected found v p = Next v' /\
                        retries v' = retries v - 1 /\ retries v <> 0)).
  { intros found. unfold check.
    destruct (int_times_1_5 (retries v)) as [limit|e]; [|left; eauto].
    destruct (Z.eqb_spec (retries v) 0) as [|Hne]; cbn [orb]; [left; eauto|].
    destruct (_ >? _); [left; eauto|].
    destruct (_ =? 0); [destruct (log_connection p)|]; [right | left | right]; eauto. }
  assert (Ha : forall found,
            after_count expected found nodes v p = Break \/
            (exists e, after_count expected found nodes v p = Failed e) \/
            (exists v', after_count expected found nodes v p = Next v' /\
                        retries v' = retries v - 1 /\ retries v <> 0)).
  { intros found. unfold after_count. destruct (expected =? found); [now left|]. right.
    unfold upgrading in Hu. destruct (unconfigured_nodes p) as [us|e].
    - rewrite Hu. apply Hc.
    - destruct (is_Exception e); [apply Hc | left; eauto]. }
  unfold iteration. destruct (node_list p) as [l|e]; [apply Ha|].
  destruct (is_Exception e); [apply Ha | right; left; eauto].
Qed.

Lemma loop_bounded polls : forall made v,
  0 <= retries v < len polls ->
  Forall (fun p => upgrading nodes p = false) polls ->
  exists n, (n <= made + Z.to_nat (retries v) + 1)%nat /\
    (loop expected nodes made v polls = Joined n \/
     exists e, loop expected nodes made v polls = Raised n e).
Proof.
  induction polls as [|p rest IH]; intros made v Hr H.
  - unfold len in Hr. cbn in Hr. lia.
  - inversion H as [|? ? Hu Hrest]; subst. cbn [loop].
    destruct (iteration_steady v p Hu) as [-> | [(e & ->) | (v' & -> & Hv & Hne)]].
    + exists (S made). split; [lia | now left].
    + exists (S made). split; [lia | right; eauto].
    + destruct (IH (S made) v') as (n & Hn & Hres); [|exact Hrest|].
      * unfold len in *. cbn [length] in Hr. lia.
      * exists n. split; [|exact Hres]. rewrite Hv in Hn. lia.
Qed.

Lemma loop_joined polls : forall made v n,
  loop expected nodes made v polls = Joined n ->
  exists k p, n = (made + S k)%nat /\ polls !! k = Some p /\ found p = expected /\
    forall j q, (j < k)%nat -> polls !! j = Some q -> found q <> expected.
Proof.
  induction polls as [|p rest IH]; intros made v n H; [discriminate|].
  cbn [loop] in H. destruct (iteration expected nodes v p) as [|e|v'] eqn:Hi.
  - injection H as <-. exists 0%nat, p. split_and!; [lia | reflexivity | | intros; lia].
    unfold iteration, after_count, found in *.
    destruct (node_list p) as [l|e].
    + destruct (Z.eqb_spec expected (len l)); [congruence|].
      destruct (unconfigured_nodes p) as [us|e]; [destruct (image_upgrade _ _)|
        destruct (is_Exception e)]; try discriminate;
        unfold check in Hi; destruct (int_times_1_5 _); try discriminate;
        destruct (_ || _); try discriminate;
        destruct (_ =? 0); try discriminate; destruct (log_connection p); discriminate.
    + destruct (is_Exception e); [|discriminate].
      destruct (Z.eqb_spec expected 1); [congruence|].
      destruct (unconfigured_nodes p) as [us|e']; [destruct (image_upgrade _ _)|
        destruct (is_Exception e')]; try discriminate;
        unfold check in Hi; destruct (int_times_1_5 _); try discriminate;
        destruct (_ || _); try discriminate;
        destruct (_ =? 0); try discriminate; destruct (log_connection p); discriminate.
  - discriminate.
  - destruct (IH _ _ _ H) as (k & q & -> & Hq & Hf & Hbefore).
    exists (S k), q. split_and!; [lia | exact Hq | exact Hf |].
    intros [|j] q' Hj Hq'.
    + cbn in Hq'. injection Hq' as <-.
      unfold iteration, after_count, found in *.
      destruct (node_list p) as [l|e].
      * destruct (Z.eqb_spec expected (len l)); [discriminate | congruence].
      * destruct (is_Exception e); [|discriminate].
        destruct (Z.eqb_spec expected 1); [discriminate | congruence].
    + apply (Hbefore j q'); [lia | exact Hq'].
Qed.

End JoinWaitLoop.

Section JoinWaitProperties.
Import JoinWait.

(** X2.  While the node count is short and a joining node of the cluster
    reports an image upgrade, [wait_for_nodes_to_join] neither times out
    nor uses up a retry, however many such polls there are and however
    late they come: the timer restarts at each of them. *)
Theorem image_upgrade_suspends_join_timeout :
  forall nodes r first t0 polls,
    len first < len nodes ->
    Forall (fun p => short (len nodes) p /\ upgrading nodes p = true) polls ->
    wait_for_nodes_to_join nodes r (Return first) t0 polls
      = Waiting {| start_time := List.last (map now polls) t0; retries := r |}.
Proof.
  intros nodes r first t0 polls Hlt H. unfold wait_for_nodes_to_join.
  destruct (Z.gtb_spec (len nodes) (len first)); [|lia].
  now apply loop_upgrading.
Qed.

(** Budget 1, and upgrades seen 5000 and 90000 seconds into the wait. *)
Lemma image_upgrade_suspends_join_timeout_witness :
  wait_for_nodes_to_join two_nodes 1 (Return ["node1"]) 0
    [upgrade_poll 5000; upgrade_poll 90000]
    = Waiting {| start_time := List.last (map now [upgrade_poll 5000; upgrade_poll 90000]) 0;
                 retries := 1 |}.
Proof.
  apply image_upgrade_suspends_join_timeout.
  - vm_compute. reflexivity.
  - repeat constructor; vm_compute; congruence.
Defined.

(** X3.  With a retry budget [r >= 0] and no image upgrade in sight,
    [wait_for_nodes_to_join] ends within [r + 1] polls: it returns or
    raises, and is never still waiting after that many. *)
Theorem wait_for_nodes_to_join_gives_up :
  forall nodes r first_list t0 polls,
    0 <= r -> r < len polls ->
    Forall (fun p => upgrading nodes p = false) polls ->
    exists n, (n <= Z.to_nat r + 1)%nat /\
      (wait_for_nodes_to_join nodes r first_list t0 polls = Joined n \/
       exists e, wait_for_nodes_to_join nodes r first_list t0 polls = Raised n e).
Proof.
  intros nodes r first_list t0 polls Hr Hlen H. unfold wait_for_nodes_to_join.
  destruct first_list as [l|e]; [|exists 0%nat; split; [lia | right; eauto]].
  destruct (_ >? _); [|exists 0%nat; split; [lia | now left]].
  apply (loop_bounded (len nodes) nodes polls 0 {| start_time := t0; retries := r |});
    [cbn; lia | exact H].
Qed.

(** Budget 1 and two polls that find one node of two. *)
Lemma wait_for_nodes_to_join_gives_up_witness :
  exists n, (n <= Z.to_nat 1 + 1)%nat /\
    (wait_for_nodes_to_join two_nodes 1 (Return ["node1"]) 0 [short_poll 1; short_poll 2]
       = Joined n \/
     exists e,
       wait_for_nodes_to_join two_nodes 1 (Return ["node1"]) 0 [short_poll 1; short_poll 2]
         = Raised n e).
Proof.
  apply wait_for_nodes_to_join_gives_up.
  - lia.
  - vm_compute. reflexivity.
  - repeat constructor.
Defined.

(** X4.  In the loop a failing [node.list()] counts as one node found: for
    a cluster of one node whose first listing came back empty, a poll whose
    listing raises ends the wait as if the node had joined. *)
Theorem join_wait_counts_failed_listing_as_one :
  forall nodes r t0 p rest e,
    len nodes = 1 -> node_list p = Raise e -> is_Exception e = true ->
    wait_for_nodes_to_join nodes r (Return []) t0 (p :: rest) = Joined 1.
Proof.
  intros nodes r t0 p rest e Hn Hp He. unfold wait_for_nodes_to_join.
  rewrite Hn. cbn [loop]. unfold iteration. rewrite Hp, He. reflexivity.
Qed.

(** One node, nothing listed at first, and the connection fails at the first poll. *)
Lemma join_wait_counts_failed_listing_as_one_witness :
  wait_for_nodes_to_join ["10.0.0.1"] 600 (Return []) 0
    ({| node_list := Raise (vFXTConnectionFailure "Failed to make remote API connection");
        unconfigured_nodes := Return []; now := 1; log_connection := Return tt |} :: [])
    = Joined 1.
Proof.
  apply (join_wait_counts_failed_listing_as_one _ _ _ _ _
           (vFXTConnectionFailure "Failed to make remote API connection")); reflexivity.
Defined.

(** X5.  [wait_for_nodes_to_join] returns only on an exact count: without
    a poll when the first listing already has at least as many nodes as
    the cluster object, and otherwise at the first poll whose count equals
    the number of nodes of the object; a poll that finds more nodes than
    that does not end the wait. *)
Theorem wait_for_nodes_to_join_exact :
  forall nodes r first_list t0 polls n,
    wait_for_nodes_to_join nodes r first_list t0 polls = Joined n ->
    match n with
    | O => exists l, first_list = Return l /\ len nodes <= len l
    | S k =>
        exists p, polls !! k = Some p /\ found p = len nodes /\
          forall j q, (j < k)%nat -> polls !! j = Some q -> found q <> len nodes
    end.
Proof.
  intros nodes r first_list t0 polls n H. unfold wait_for_nodes_to_join in H.
  destruct first_list as [l|e]; [|discriminate].
  destruct (Z.gtb_spec (len nodes) (len l)).
  - apply loop_joined in H as (k & p & -> & Hp & Hf & Hb). cbn [Nat.add]. eauto.
  - injection H as <-. exists l. split; [reflexivity | lia].
Qed.

(** The second poll finds both nodes. *)
Lemma wait_for_nodes_to_join_exact_witness :
  exists p, [short_poll 1; joined_poll 2] !! 1%nat = Some p /\ found p = len two_nodes /\
    forall j q, (j < 1)%nat -> [short_poll 1; joined_poll 2] !! j = Some q ->
                found q <> len two_nodes.
Proof.
  apply (wait_for_nodes_to_join_exact two_nodes 600 (Return ["node1"]) 0
           [short_poll 1; joined_poll 2] 2).
  reflexivity.
Defined.

End JoinWaitProperties.

Section FanoutSchedules.
Import Fanout.

Variables (method : string) (run : string -> option exn).

Lemma failures_Exception nodes d e :
  In (d, e) (failures method run nodes) -> is_Exception e = true.
Proof. rewrite failures_In. now intros (si & _ & _ & H & _). Qed.

End FanoutSchedules.

Section FanoutProperties.
Import Fanout.

(** X6.  [parallel_call] reports only failures that are [Exception]s: a
    worker that dies of anything else (a [KeyboardInterrupt]) leaves no
    entry in the queue.  So once every thread is joined, a call in which no
    worker failed with an [Exception] returns normally, whatever else
    ended the workers, and every entry of a [vFXTServiceFailure] carries an
    [Exception] raised for a node of the list. *)
Theorem parallel_call_reports_exceptions_only :
  forall nodes method run schedule,
    is_Some (parallel_call nodes method run schedule) ->
    ((forall si e, In si nodes -> run si = Some e -> is_Exception e = false) ->
     parallel_call nodes method run schedule = Some (Return tt)) /\
    (forall failed d e,
       parallel_call nodes method run schedule = Some (Raise (vFXTServiceFailure failed)) ->
       In (d, e) failed ->
       is_Exception e = true /\ exists si, In si nodes /\ run si = Some e).
Proof.
  intros nodes method run schedule [res H]. unfold parallel_call in *.
  destruct (accounted_execute method run nodes schedule _ (accounted_initial method run nodes))
    as [Hp Hq].
  destruct (joined _) eqn:Hj; [|discriminate].
  apply joined_lists in Hj as [Hu Hr]. rewrite Hu, Hr in Hp. cbn in Hp.
  assert (Hin : forall d e,
            In (d, e) (failq (execute method run schedule (initial nodes))) ->
            is_Exception e = true /\ exists si, In si nodes /\ run si = Some e).
  { intros d e Hde. rewrite Hq in Hde. apply failures_In in Hde as (si & Hsi & Hrun & He & _).
    split; [exact He|]. exists si. split; [|exact Hrun].
    apply (Permutation_in _ Hp). exact Hsi. }
  split.
  - intros Hnone. destruct (failq _) as [|[d e] fs]; [reflexivity|].
    destruct (Hin d e (or_introl eq_refl)) as [He (si & Hsi & Hrun)].
    rewrite (Hnone si e Hsi Hrun) in He. discriminate.
  - intros failed d e Hf Hde. apply (Hin d e).
    destruct (failq _) as [|f fs]; [discriminate|]. injection Hf as <-. exact Hde.
Qed.

(** The worker of the second node is interrupted. *)
Lemma parallel_call_reports_exceptions_only_witness :
  parallel_call ["node1"; "node2"] "stop"
    (fun si => if String.eqb si "node2" then Some KeyboardInterrupt else None)
    [StartNext; StartNext; Finish 1; Finish 0] = Some (Return tt).
Proof.
  apply (proj1 (parallel_call_reports_exceptions_only ["node1"; "node2"] "stop"
                  (fun si => if String.eqb si "node2" then Some KeyboardInterrupt else None)
                  [StartNext; StartNext; Finish 1; Finish 0] (ex_intro _ (Return tt) eq_refl))).
  intros si e [<- | [<- | []]]; cbn; intros [=]. now subst.
Defined.

End FanoutProperties.

Section RollbackProperties.
Import Channel Lifecycle.

Lemma example_known y :
  known example_remote y ->
  y = {| name := "cluster"; firstIP := 10; lastIP := 15 |} \/
  y = {| name := "client"; firstIP := 20; lastIP := 22 |}.
Proof.
  intros [[<- | []] | (v & Hv)]; [now left|]. right.
  unfold clientFacingIPs, example_remote in Hv. cbn [vservers] in Hv.
  destruct (decide (v = "vserver")) as [->|Hne].
  - rewrite lookup_singleton_eq in Hv. now destruct Hv as [<- | []].
  - rewrite lookup_singleton_ne in Hv by congruence. destruct Hv.
Qed.

Lemma example_well_applied : well_applied example_remote example_extensions.
Proof.
  assert (Hk : forall x, In x example_extensions -> forall y, known example_remote y ->
            name y <> given_name x /\
            (firstIP y <> first_address x \/ lastIP y <> last_address x)).
  { intros x [<- | [<- | []]] y Hy; destruct (example_known y Hy) as [-> | ->]; cbn;
      (split; [discriminate | left; lia]). }
  split.
  - apply List.Forall_forall. intros x Hx. split; [now apply Hk|].
    destruct Hx as [<- | [<- | []]]; cbn; intros v [= <-].
    unfold example_remote. cbn. rewrite lookup_singleton_eq. eauto.
  - unfold example_extensions. constructor; [|constructor; [constructor | constructor]].
    constructor; [|constructor]. split; cbn; [discriminate | left; lia].
Qed.

(** X7.  When [add_nodes], asked for [k >= 1] nodes, fails in its
    node-addition phase with [k] never-joined nodes, cleanup is not
    suppressed, the calls and queries of the rollback return and every
    removal succeeds, then the address-range extensions applied during
    the call, with names and bounds that are new to the cluster, are
    removed in the order of their application and the cluster reports the
    ranges of before the call: the in-use address set is the pre-call
    set.  The extensions are those the entries of [added] record, applied
    in that order. *)
Theorem add_nodes_rollback_restores :
  (forall E count options w added w1 e exts,
     prepared E count options w added w1 ->
     1 <= count ->
     first_failure E join_phase = Some e ->
     skip_cleanup options = false ->
     calls E load_cluster_information = None ->
     calls E list_unconfigured_nodes = None ->
     (forall d, calls E (destroy_unjoined (unjoined_nodes E)) = Some d ->
                is_Exception d = true) ->
     ranges_answered E ->
     calls E disallow_join_after_undo = None ->
     len (unjoined E) = count ->
     added = map entry exts ->
     channel w1 = with_extensions (channel w) exts ->
     well_applied (channel w) exts ->
     (forall x, In x exts -> exists n, settles (fates E (removal x)) (Some n)) ->
     exists w',
       add_nodes E count options w = Err (vFXTCreateFailure e) w' /\
       channel w' = channel w /\
       in_use_addresses (channel w') "all" = in_use_addresses (channel w) "all" /\
       issued (trace w') = issued (trace w1) ++ map removal exts) /\
  (forall E count options w added w1,
     prepared E count options w added w1 ->
     exists exts,
       added = map entry exts /\
       channel w1 = with_extensions (channel w) exts /\
       issued (trace w1) = issued (trace w) ++ map addition exts).
Proof.
  split.
  - intros E count options w added w1 e exts Hp Hk Hf Hs Hl Hq Hd Hans Hj Hc Ha Hw Hwell
      Hsettle.
    destruct (add_nodes_fails E count options w added w1 e Hp (or_introl (conj Hk Hf)))
      as (t & -> & Hi).
    destruct (undo_restores E Hans options count added e (later w1 t) exts (channel w)
                Hs Hl Hq Hd Hj Hc Ha Hw Hwell Hsettle) as (w' & Hu & Hch & Hiss).
    exists w'. split_and!; [exact Hu | exact Hch | now rewrite Hch |].
    rewrite Hiss. cbn [later trace]. now rewrite issued_app, Hi, app_nil_r.
  - intros E count options w added w1 (_ & _ & _ & _ & Hx).
    apply extend_ranges_applied in Hx as (exts & Ha & Hch & Hiss & _).
    exists exts. split_and!; [exact Ha | exact Hch |].
    rewrite Hiss. cbn [later trace]. rewrite issued_app. cbn. now rewrite app_nil_r.
Qed.

(** Three nodes are asked for and none joins: both extensions are
    reversed and the channel is as before the call. *)
Lemma add_nodes_rollback_restores_witness :
  exists w',
    add_nodes (example_env join_fails) 3 plain_add start
      = Err (vFXTCreateFailure join_timeout) w' /\
    channel w' = channel start /\
    in_use_addresses (channel w') "all" = in_use_addresses (channel start) "all" /\
    issued (trace w') = issued (trace extended) ++ map removal example_extensions.
Proof.
  refine (proj1 add_nodes_rollback_restores (example_env join_fails) 3 plain_add start
            (map entry example_extensions) extended join_timeout example_extensions
            _ _ eq_refl eq_refl eq_refl eq_refl _ _ eq_refl _ eq_refl eq_refl
            example_well_applied _).
  - split_and!;
      [reflexivity | discriminate | reflexivity | vm_compute; intros [=]
      | vm_compute; reflexivity].
  - lia.
  - intros d [=].
  - split_and!; [reflexivity | intros v; reflexivity | reflexivity].
  - vm_compute. reflexivity.
  - intros x [<- | [<- | []]].
    + exists 1%nat, "activity-2". split; [reflexivity|]. vm_compute. reflexivity.
    + exists 0%nat, "success". split; reflexivity.
Defined.

End RollbackProperties.

Section BucketActivity.
Import Activity.

Lemma attach_bucket_loop_bounded corefiler polls : forall retries made,
  0 <= retries < len polls ->
  exists n, (n <= made + Z.to_nat retries + 1)%nat /\
    (attach_bucket_loop corefiler retries made polls = Completed n \/
     exists e, attach_bucket_loop corefiler retries made polls = Raised n e).
Proof.
  induction polls as [|p rest IH]; intros retries made Hr.
  - unfold len in Hr. cbn in Hr. lia.
  - cbn [attach_bucket_loop].
    assert (Hnow : forall o, (o = Completed (S made) \/ exists e, o = Raised (S made) e) ->
              exists n, (n <= made + Z.to_nat retries + 1)%nat /\
                        (o = Completed n \/ exists e, o = Raised n e)).
    { intros o Ho. exists (S made). split; [lia | exact Ho]. }
    assert (Hrec : retries <> 0 ->
              exists n, (n <= made + Z.to_nat retries + 1)%nat /\
                (attach_bucket_loop corefiler (retries - 1) (S made) rest = Completed n \/
                 exists e, attach_bucket_loop corefiler (retries - 1) (S made) rest
                           = Raised n e)).
    { intros Hne. destruct (IH (retries - 1) (S made)) as (n & Hn & Hres).
      - unfold len in *. cbn [length] in Hr. lia.
      - exists n. split; [lia | exact Hres]. }
    destruct (match reply p with
              | Return r => Return r
              | Raise e => if is_Exception e then Return ∅ else Raise e
              end) as [response|e]; [|apply Hnow; right; eauto].
    assert (Hgo : exists n, (n <= made + Z.to_nat retries + 1)%nat /\
              ((if retries =? 0 then
                 match response !! "status" with
                 | Some status =>
                     Raised (S made) (vFXTConfigurationException ("Giving up: " +:+ status))
                 | None => Raised (S made) (Fault "KeyError: 'status'")
                 end
               else
                 if ((retries - 1) mod 10 =? 0) && bool_decide (is_Some (response !! "status"))
                 then match log_connection p with
                      | Raise e => Raised (S made) e
                      | Return _ => attach_bucket_loop corefiler (retries - 1) (S made) rest
                      end
                 else attach_bucket_loop corefiler (retries - 1) (S made) rest) = Completed n \/
               exists e,
                (if retries =? 0 then
                 match response !! "status" with
                 | Some status =>
                     Raised (S made) (vFXTConfigurationException ("Giving up: " +:+ status))
                 | None => Raised (S made) (Fault "KeyError: 'status'")
                 end
               else
                 if ((retries - 1) mod 10 =? 0) && bool_decide (is_Some (response !! "status"))
                 then match log_connection p with
                      | Raise e => Raised (S made) e
                      | Return _ => attach_bucket_loop corefiler (retries - 1) (S made) rest
                      end
                 else attach_bucket_loop corefiler (retries - 1) (S made) rest) = Raised n e)).
    { destruct (Z.eqb_spec retries 0) as [|Hne].
      - destruct (response !! "status"); apply Hnow; right; eauto.
      - destruct (_ && _); [destruct (log_connection p)|];
          [apply Hrec, Hne | apply Hnow; right; eauto | apply Hrec, Hne]. }
    destruct (response !! "state") as [state|]; [|exact Hgo].
    destruct (String.eqb state "success"); [apply Hnow; now left|].
    destruct (String.eqb state "failure"); [apply Hnow; right; eauto | exact Hgo].
Qed.

Lemma attach_bucket_loop_channel_down corefiler polls : forall retries made,
  0 <= retries -> len polls = retries + 1 ->
  Forall (fun p => exists e, reply p = Raise e /\ is_Exception e = true) polls ->
  attach_bucket_loop corefiler retries made polls
    = Raised (made + Z.to_nat retries + 1) (Fault "KeyError: 'status'").
Proof.
  induction polls as [|p rest IH]; intros retries made Hr Hlen H.
  - unfold len in Hlen. cbn in Hlen. lia.
  - inversion H as [|? ? (e & Hp & He) Hrest]; subst. cbn [attach_bucket_loop].
    rewrite Hp, He. rewrite lookup_empty.
    destruct (Z.eqb_spec retries 0) as [->|Hne].
    + f_equal. lia.
    + rewrite bool_decide_eq_false_2 by (intros [? ?]; discriminate).
      rewrite andb_false_r. rewrite IH; [f_equal; lia | lia | | exact Hrest].
      unfold len in *. cbn [length] in Hlen. lia.
Qed.

End BucketActivity.

Section BucketActivityProperties.
Import Activity.

(** X8.  The activity loop of [attach_bucket] is bounded by the backend's
    [WAIT_FOR_SUCCESS]: for a budget [W >= 0] it returns or raises within
    [W + 1] polls. *)
Theorem attach_bucket_activity_bounded :
  forall corefiler activity W polls,
    0 <= W -> W < len polls ->
    exists n, (n <= Z.to_nat W + 1)%nat /\
      (attach_bucket_activity corefiler activity W polls = Completed n \/
       exists e, attach_bucket_activity corefiler activity W polls = Raised n e).
Proof.
  intros corefiler activity W polls HW Hlen. unfold attach_bucket_activity.
  destruct (negb _); [|exists 0%nat; split; [lia | now left]].
  apply (attach_bucket_loop_bounded corefiler polls W 0). lia.
Qed.

(** Budget 1 and two empty replies. *)
Lemma attach_bucket_activity_bounded_witness :
  exists n, (n <= Z.to_nat 1 + 1)%nat /\
    (attach_bucket_activity "cloudfiler" "activity-7" 1
       [ {| reply := Return ∅; log_connection := Return tt |};
         {| reply := Return ∅; log_connection := Return tt |} ] = Completed n \/
     exists e,
       attach_bucket_activity "cloudfiler" "activity-7" 1
         [ {| reply := Return ∅; log_connection := Return tt |};
           {| reply := Return ∅; log_connection := Return tt |} ] = Raised n e).
Proof. apply attach_bucket_activity_bounded; [lia | vm_compute; reflexivity]. Defined.

(** X9.  When every [getActivity] call of the loop of [attach_bucket]
    fails, the loop gives up after [WAIT_FOR_SUCCESS + 1] polls with the
    [KeyError] of the lookup of ['status'] in the empty reply, not with a
    [vFXTConfigurationException]. *)
Theorem attach_bucket_gives_up_with_KeyError :
  forall corefiler activity W polls,
    activity <> "success" -> 0 <= W -> len polls = W + 1 ->
    Forall (fun p => exists e, reply p = Raise e /\ is_Exception e = true) polls ->
    attach_bucket_activity corefiler activity W polls
      = Raised (Z.to_nat W + 1) (Fault "KeyError: 'status'").
Proof.
  intros corefiler activity W polls Ha HW Hlen H. unfold attach_bucket_activity.
  apply String.eqb_neq in Ha. rewrite Ha. cbn [negb].
  now rewrite (attach_bucket_loop_channel_down corefiler polls W 0 HW Hlen H).
Qed.

(** Budget 1 and no route to the cluster. *)
Lemma attach_bucket_gives_up_with_KeyError_witness :
  attach_bucket_activity "cloudfiler" "activity-7" 1
    [ {| reply := Raise (vFXTConnectionFailure "no route"); log_connection := Return tt |};
      {| reply := Raise (vFXTConnectionFailure "no route"); log_connection := Return tt |} ]
    = Raised (Z.to_nat 1 + 1) (Fault "KeyError: 'status'").
Proof.
  apply attach_bucket_gives_up_with_KeyError.
  - discriminate.
  - lia.
  - reflexivity.
  - repeat constructor; eexists; split; reflexivity.
Defined.

End BucketActivityProperties.

Section AddressFacts.
Import Channel.

Lemma elem_of_expand first last z :
  z ∈ (list_to_set (expand_address_range first last) : gset Z) <-> first <= z <= last.
Proof.
  unfold expand_address_range. rewrite elem_of_list_to_set, elem_of_seqZ. lia.
Qed.

Lemma fold_update (ranges : list range) : forall (acc : gset Z) z,
  z ∈ fold_left (fun addresses x =>
                   addresses ∪ list_to_set (expand_address_range (firstIP x) (lastIP x)))
        ranges acc
  <-> z ∈ acc \/ exists x, In x ranges /\ firstIP x <= z <= lastIP x.
Proof.
  induction ranges as [|y ranges IH]; intros acc z; cbn [fold_left].
  - split; [now left | intros [H | (x & [] & _)]; exact H].
  - rewrite IH, elem_of_union, elem_of_expand. split.
    + intros [[H | H] | (x & Hx & Hz)]; [now left | right | right].
      * exists y. split; [now left | exact H].
      * exists x. split; [now right | exact Hz].
    + intros [H | (x & [<- | Hx] & Hz)]; [left; now left | left; now right | right].
      exists x. now split.
Qed.

Lemma fold_vservers (r : remote) (vs : list string) : forall (acc : gset Z) z,
  z ∈ fold_left (fun addresses v =>
                   fold_left (fun addresses x =>
                                addresses ∪ list_to_set
                                  (expand_address_range (firstIP x) (lastIP x)))
                     (clientFacingIPs r v) addresses)
        vs acc
  <-> z ∈ acc \/ exists v x, In v vs /\ In x (clientFacingIPs r v) /\
                             firstIP x <= z <= lastIP x.
Proof.
  induction vs as [|u vs IH]; intros acc z; cbn [fold_left].
  - split; [now left | intros [H | (v & x & [] & _)]; exact H].
  - rewrite IH, fold_update. split.
    + intros [[H | (x & Hx & Hz)] | (v & x & Hv & Hx & Hz)]; [now left | right | right].
      * exists u, x. split; [now left | now split].
      * exists v, x. split; [now right | now split].
    + intros [H | (v & x & [<- | Hv] & Hx & Hz)]; [left; now left | left; right | right].
      * exists x. now split.
      * exists v, x. split; [exact Hv | now split].
Qed.

Lemma clientFacingIPs_listed (r : remote) v x :
  In x (clientFacingIPs r v) -> In v (vserver_list r).
Proof.
  unfold clientFacingIPs, vserver_list. intros Hx.
  destruct (vservers r !! v) as [ranges|] eqn:Hv; [|destruct Hx].
  apply in_map_iff. exists (v, ranges). split; [reflexivity|].
  apply list_elem_of_In, elem_of_map_to_list. exact Hv.
Qed.

End AddressFacts.

Section AddressProperties.
Import Channel.

Ltac decide_categories :=
  unfold in_use_addresses;
  repeat match goal with
         | |- context [bool_decide (?c ∈ ?l)] =>
             let b := eval vm_compute in (bool_decide (c ∈ l)) in
             change (bool_decide (c ∈ l)) with b
         end;
  cbv iota.

(** X10.  [in_use_addresses]: an address is in use by the cluster when
    one of the cluster ranges covers it, by a vserver when a client-facing
    range of some vserver covers it; ['mgmt'] is the management address
    alone; ['all'] is the union of the three; any other category gives no
    address at all. *)
Theorem in_use_addresses_categories :
  forall r : remote,
    (forall z, z ∈ in_use_addresses r "cluster" <->
               exists x, In x (clusterIPs r) /\ firstIP x <= z <= lastIP x) /\
    (forall z, z ∈ in_use_addresses r "vserver" <->
               exists v x, In x (clientFacingIPs r v) /\ firstIP x <= z <= lastIP x) /\
    (in_use_addresses r "mgmt" = {[ mgmtIP r ]}) /\
    (in_use_addresses r "all"
       = in_use_addresses r "mgmt" ∪ in_use_addresses r "vserver"
         ∪ in_use_addresses r "cluster") /\
    (forall category,
       category ∉ ["all"; "mgmt"; "vserver"; "cluster"] -> in_use_addresses r category = ∅).
Proof.
  intros r.
  assert (Hc : forall z, z ∈ in_use_addresses r "cluster" <->
                 exists x, In x (clusterIPs r) /\ firstIP x <= z <= lastIP x).
  { intros z. decide_categories. rewrite fold_update, elem_of_empty. tauto. }
  assert (Hv : forall z, z ∈ in_use_addresses r "vserver" <->
                 exists v x, In x (clientFacingIPs r v) /\ firstIP x <= z <= lastIP x).
  { intros z. decide_categories. rewrite fold_vservers, elem_of_empty. split.
    - intros [[] | (v & x & _ & Hx & Hz)]. eauto.
    - intros (v & x & Hx & Hz). right. exists v, x.
      split; [now apply (clientFacingIPs_listed r v x) | now split]. }
  assert (Hm : in_use_addresses r "mgmt" = {[ mgmtIP r ]}).
  { decide_categories. apply union_empty_l_L. }
  split_and!; [exact Hc | exact Hv | exact Hm | |].
  - apply set_eq. intros z. rewrite !elem_of_union, Hc, Hv, Hm.
    decide_categories. rewrite fold_update, fold_vservers, union_empty_l_L. split.
    + intros [[H | (v & x & _ & Hx & Hz)] | H]; [now left; left | left; right | now right].
      eauto.
    + intros [[H | (v & x & Hx & Hz)] | H]; [now left; left | left; right | now right].
      exists v, x. split; [now apply (clientFacingIPs_listed r v x) | now split].
  - intros category Hcat. unfold in_use_addresses.
    rewrite !bool_decide_eq_false_2; [reflexivity | | |];
      intros Hin; apply Hcat; rewrite !elem_of_cons, elem_of_nil in Hin;
      rewrite !elem_of_cons; tauto.
Qed.

End AddressProperties.

Section CreateFacts.
Import Channel Lifecycle LifecycleTerms.

Variable E : env.

Lemma proxy_checked options w :
  (proxy_uri options = true -> calls E validate_proxy = None) ->
  (if proxy_uri options then call E validate_proxy else ret tt) w
    = Ok tt (later w (before_create options)).
Proof.
  intros Hp. unfold before_create. destruct (proxy_uri options).
  - now apply call_returns_later, Hp.
  - unfold ret. now rewrite later_nil.
Qed.

Lemma create_accepted name options w :
  accepted E name options ->
  create E name options w =
    (let* returned :=
       try_except
         (call E create_cluster >> ret (skip_configuration options))
         only_KeyboardInterrupt
         (fun e =>
            (if negb (create_skip_cleanup options) then call E destroy else ret tt) >>
            raise e) in
     if returned then ret NoneReturned else create_checks E options)
      (later w (before_create options)).
Proof.
  intros (Hp & Hn & Hv & Hm). unfold create.
  assert (Hclean : (if negb (create_skip_cleanup options) then call E destroy else call E telemetry)
                   = call E (cleanup_site options)).
  { unfold cleanup_site. now destruct (create_skip_cleanup options). }
  rewrite Hclean.
  apply String.eqb_neq in Hn. rewrite Hn, Hv. cbn [negb].
  rewrite (bind_ok _ _ _ _ _ (proxy_checked options w Hp)).
  set (w0 := later w (before_create options)).
  assert (Hmgmt : match management_address options with
                  | Some requested_mgmt_ip =>
                      if management_address_in_use options
                      then raise (vFXTConfigurationException
                                    ("The requested management address "
                                     +:+ requested_mgmt_ip +:+ " is already in use"))
                      else ret tt
                  | None => ret tt
                  end w0 = Ok tt w0).
  { destruct (management_address options); [|reflexivity]. now rewrite Hm. }
  rewrite (bind_ok _ _ _ _ _ Hmgmt).
  apply bind_congr. intros [|] w'; [reflexivity|].
  unfold create_checks. do 2 (apply bind_congr; intros [] ?).
  unfold bind at 1 3. erewrite try_except_congr; [reflexivity|]. apply final_phase_sequence.
Qed.

Lemma create_checks_returns options w :
  1 <= nodes_created E ->
  first_failure E (configuration E) = None ->
  create_checks E options w = Ok ClusterObject (later w (map Called (configuration E))).
Proof.
  unfold configuration. cbn [app first_failure]. intros Hn Hf.
  destruct (calls E wait_for_service_checks) eqn:H1; [discriminate|].
  destruct (calls E wait_for_nodes_to_join) eqn:H2; [discriminate|].
  unfold create_checks.
  rewrite (bind_ok _ _ _ _ _ (checks_try_returns E options w H1)).
  rewrite (bind_ok _ _ _ _ _ (join_try_returns E options _ Hn H2)).
  unfold bind at 1. unfold try_except at 1. rewrite (sequence_returns _ _ _ Hf).
  unfold ret. rewrite !later_later. reflexivity.
Qed.

Lemma create_checks_masked options w e d :
  first_failure E (configuration E) = Some e ->
  calls E (cleanup_site options) = Some d ->
  exists t, create_checks E options w = Err d (later w t) /\
            last t = Some (Called (cleanup_site options)).
Proof.
  unfold configuration. cbn [app first_failure]. intros Hf Hd.
  assert (Hhandler : forall message (x : exn) w0,
            (emit (Logged message) >> call E (cleanup_site options) >> raise (A := unit) x) w0
            = Err d (later w0 [Logged message; Called (cleanup_site options)])).
  { intros message x w0. unfold bind at 1. unfold emit at 1.
    rewrite (bind_err _ _ _ _ _ (call_raises _ _ _ _ Hd)).
    unfold later. cbn. now rewrite <- app_assoc. }
  unfold create_checks.
  destruct (calls E wait_for_service_checks) as [e1|] eqn:H1.
  - exists [Called wait_for_service_checks; Logged "Failed to wait for service checks";
            Called (cleanup_site options)].
    split; [|reflexivity]. apply bind_err. unfold try_except.
    rewrite (call_raises _ _ _ _ H1). cbn [any_exception].
    change {| channel := channel w; trace := trace w ++ [Called wait_for_service_checks] |}
      with (later w [Called wait_for_service_checks]).
    now rewrite Hhandler, later_later.
  - rewrite (bind_ok _ _ _ _ _ (checks_try_returns E options w H1)).
    destruct (Z.le_gt_cases (nodes_created E) 0) as [Hn | Hn].
    { exists [Called wait_for_service_checks;
              Logged "Failed to wait for nodes to join"; Called (cleanup_site options)].
      split; [|reflexivity]. apply bind_err. unfold try_except.
      rewrite (join_wait_domain_error E _ Hn). cbn [any_exception].
      now rewrite Hhandler, !later_later. }
    assert (Hn1 : 1 <= nodes_created E) by lia.
    destruct (calls E wait_for_nodes_to_join) as [e2|] eqn:H2.
    + exists [Called wait_for_service_checks; Called wait_for_nodes_to_join;
              Logged "Failed to wait for nodes to join"; Called (cleanup_site options)].
      split; [|reflexivity]. apply bind_err. unfold try_except.
      rewrite (join_wait_raises E _ _ Hn1 H2). cbn [any_exception].
      now rewrite Hhandler, !later_later.
    + rewrite (bind_ok _ _ _ _ _ (join_try_returns E options _ Hn1 H2)).
      destruct (sequence_fails _ (final_phase E) e
                  (later (later w [Called wait_for_service_checks])
                     [Called wait_for_nodes_to_join]) Hf) as (t & Ht).
      exists ([Called wait_for_service_checks; Called wait_for_nodes_to_join] ++ t
              ++ [Logged "Cluster failed"; Called (cleanup_site options)]).
      split.
      * apply bind_err. unfold try_except. rewrite Ht. cbn [any_exception].
        assert (Hh : forall (x : exn) w0,
                  (emit (Logged "Cluster failed") >> call E (cleanup_site options) >>
                   raise (A := unit) x) w0
                  = Err d (later w0 [Logged "Cluster failed"; Called (cleanup_site options)]))
          by (intros; apply Hhandler).
        rewrite Hh, !later_later. do 2 f_equal.
      * rewrite !last_app. reflexivity.
Qed.

End CreateFacts.

Section LifecycleProperties.
Import Channel Lifecycle LifecycleTerms.

(** X11.  [create] turns down an empty or invalid cluster name, and a
    requested management address that is in use, with a
    [vFXTConfigurationException] before anything is provisioned: nothing
    but the validation of the proxy has been called. *)
Theorem create_rejects_before_provisioning :
  forall E name options w,
    (proxy_uri options = true -> calls E validate_proxy = None) ->
    name = "" \/ NameCheck.valid_cluster_name name = false \/
    (is_Some (management_address options) /\ management_address_in_use options = true) ->
    exists msg,
      create E name options w
        = Err (vFXTConfigurationException msg) (later w (before_create options)).
Proof.
  intros E name options w Hp Hbad. unfold create.
  rewrite (bind_ok _ _ _ _ _ (proxy_checked E options w Hp)).
  destruct (String.eqb_spec name "") as [|Hn]; [eexists; reflexivity|].
  destruct (NameCheck.valid_cluster_name name) eqn:Hv; cbn [negb]; [|eexists; reflexivity].
  destruct Hbad as [? | [? | [[a Ha] Hu]]]; [contradiction | discriminate |].
  rewrite Ha, Hu. eexists. reflexivity.
Qed.

(** A name with an uppercase letter and an underscore. *)
Lemma create_rejects_before_provisioning_witness :
  exists msg,
    create (example_env (fun _ => None)) "Cluster_1" plain_create start
      = Err (vFXTConfigurationException msg) (later start (before_create plain_create)).
Proof.
  apply create_rejects_before_provisioning.
  - discriminate.
  - right. left. reflexivity.
Defined.

(** X12.  A failure of [service.create_cluster] reaches the caller as it
    is.  When it is an [Exception], [create] tears nothing down and
    reports nothing, whatever [skip_cleanup] says; when it is a
    [KeyboardInterrupt] and cleanup is not suppressed, the cluster is
    destroyed first. *)
Theorem create_cluster_failure_propagates :
  forall E name options w e,
    accepted E name options ->
    calls E create_cluster = Some e ->
    (is_Exception e = true ->
     create E name options w
       = Err e (later w (before_create options ++ [Called create_cluster]))) /\
    (is_Exception e = false -> create_skip_cleanup options = true ->
     create E name options w
       = Err e (later w (before_create options ++ [Called create_cluster]))) /\
    (is_Exception e = false -> create_skip_cleanup options = false ->
     calls E destroy = None ->
     create E name options w
       = Err e (later w (before_create options ++ [Called create_cluster; Called destroy]))).
Proof.
  intros E name options w e Ha Hc. rewrite (create_accepted E name options w Ha).
  set (w0 := later w (before_create options)).
  assert (Hbody : (call E create_cluster >> ret (skip_configuration options)) w0
                  = Err e (later w0 [Called create_cluster])).
  { apply bind_err. now apply call_raises. }
  split_and!.
  - intros He. apply bind_err. unfold try_except, only_KeyboardInterrupt.
    rewrite Hbody, He. cbn [negb]. subst w0. now rewrite later_later.
  - intros He Hs. apply bind_err. unfold try_except, only_KeyboardInterrupt.
    rewrite Hbody, He, Hs. cbn [negb]. unfold bind, ret, raise. subst w0.
    now rewrite later_later.
  - intros He Hs Hd. apply bind_err. unfold try_except, only_KeyboardInterrupt.
    rewrite Hbody, He, Hs. cbn [negb].
    rewrite (bind_ok _ _ _ _ _ (call_returns_later E _ _ Hd)).
    unfold raise. subst w0. rewrite !later_later. reflexivity.
Qed.

(** The provisioning is interrupted from the keyboard. *)
Lemma create_cluster_failure_propagates_witness :
  create (example_env interrupted) "vfxt" plain_create start
    = Err KeyboardInterrupt
        (later start (before_create plain_create ++ [Called create_cluster; Called destroy])).
Proof.
  apply (create_cluster_failure_propagates (example_env interrupted) "vfxt" plain_create
           start KeyboardInterrupt).
  - split_and!; [discriminate | discriminate | reflexivity | intros [? [=]]].
  - reflexivity.
  - reflexivity.
  - reflexivity.
  - reflexivity.
Defined.

(** X13.  When nothing fails and [service.create_cluster] has left the
    cluster object with at least one node, [create] returns the cluster
    object after the service checks, the join wait, the health check, the
    closing of the joins and the naming policy, in that order, and enables
    HA last and only for a cluster of more than one node; with
    [skip_configuration] it returns [None] right after
    [service.create_cluster]. *)
Theorem create_returns_after_configuration :
  forall E name options w,
    accepted E name options ->
    calls E create_cluster = None ->
    (skip_configuration options = true ->
     create E name options w
       = Ok NoneReturned (later w (before_create options ++ [Called create_cluster]))) /\
    (skip_configuration options = false ->
     1 <= nodes_created E ->
     first_failure E (configuration E) = None ->
     create E name options w
       = Ok ClusterObject
            (later w (before_create options
                      ++ map Called ([create_cluster; wait_for_service_checks;
                                      wait_for_nodes_to_join; wait_for_healthcheck;
                                      disallow_join; set_node_naming_policy]
                                     ++ (if nodes_created E >? 1 then [enable_ha] else []))))).
Proof.
  intros E name options w Ha Hc. rewrite (create_accepted E name options w Ha).
  set (w0 := later w (before_create options)).
  assert (Hbody : try_except (call E create_cluster >> ret (skip_configuration options))
                    only_KeyboardInterrupt
                    (fun e => (if negb (create_skip_cleanup options)
                               then call E destroy else ret tt) >> raise e) w0
                  = Ok (skip_configuration options) (later w0 [Called create_cluster])).
  { unfold try_except. now rewrite (bind_ok _ _ _ _ _ (call_returns_later E _ _ Hc)). }
  rewrite (bind_ok _ _ _ _ _ Hbody). subst w0. rewrite later_later. split.
  - intros ->. reflexivity.
  - intros -> Hn Hf. rewrite (create_checks_returns E options _ Hn Hf), later_later.
    unfold configuration, final_phase. do 2 f_equal.
    rewrite <- app_assoc. reflexivity.
Qed.

(** A cluster of three nodes, nothing fails. *)
Lemma create_returns_after_configuration_witness :
  create (example_env (fun _ => None)) "vfxt" plain_create start
    = Ok ClusterObject
         (later start (before_create plain_create
                       ++ map Called ([create_cluster; wait_for_service_checks;
                                       wait_for_nodes_to_join; wait_for_healthcheck;
                                       disallow_join; set_node_naming_policy]
                                      ++ (if nodes_created (example_env (fun _ => None)) >? 1
                                          then [enable_ha] else [])))).
Proof.
  apply (create_returns_after_configuration (example_env (fun _ => None)) "vfxt" plain_create
           start).
  - split_and!; [discriminate | discriminate | reflexivity | intros [? [=]]].
  - reflexivity.
  - reflexivity.
  - cbn. lia.
  - reflexivity.
Defined.

(** X14.  When the rollback of [create] fails itself (the teardown, or
    the telemetry report when cleanup is suppressed), the caller gets the
    failure of the rollback, and the failure that started it is lost. *)
Theorem create_rollback_failure_masks :
  forall E name options w e d,
    provisioned E name options ->
    first_failure E (configuration E) = Some e ->
    calls E (cleanup_site options) = Some d ->
    exists t, create E name options w = Err d (later w t) /\
              last t = Some (Called (cleanup_site options)).
Proof.
  intros E name options w e d Hp Hf Hd.
  destruct (create_after_provisioning E name options w Hp) as (t0 & ->).
  destruct (create_checks_masked E options (later w t0) e d Hf Hd) as (t & -> & Hl).
  exists (t0 ++ t). rewrite later_later. split; [reflexivity|].
  destruct t as [|x t]; [discriminate|]. now rewrite last_app, Hl.
Qed.

(** The join wait times out and the teardown fails. *)
Lemma create_rollback_failure_masks_witness :
  exists t,
    create (example_env join_and_destroy_fail) "vfxt" plain_create start
      = Err destroy_failure (later start t) /\
    last t = Some (Called (cleanup_site plain_create)).
Proof.
  apply (create_rollback_failure_masks (example_env join_and_destroy_fail) "vfxt" plain_create
           start join_timeout destroy_failure).
  - split_and!; [discriminate | discriminate | reflexivity | intros [? [=]] | reflexivity
                 | reflexivity].
  - reflexivity.
  - reflexivity.
Defined.

(** X15.  [add_nodes] refuses to work on a cluster without nodes, and to
    grow a cluster beyond the licensed number of nodes, before it touches
    an address range or opens the cluster for joins. *)
Theorem add_nodes_rejects_before_extending :
  forall E count options w,
    calls E reload = None ->
    len (nodes_loaded E) = 0 \/
    (calls E add_cluster_nodes_setup = None /\ len (nodes_loaded E) + count > maxNodes E) ->
    exists msg t,
      add_nodes E count options w = Err (vFXTConfigurationException msg) (later w t) /\
      issued t = [] /\ ~ In (Called allow_join) t.
Proof.
  intros E count options w Hr Hbad. unfold add_nodes.
  rewrite (bind_ok _ _ _ _ _ (call_returns_later E _ _ Hr)).
  destruct (Z.eqb_spec (len (nodes_loaded E)) 0) as [Hz|Hnz].
  - eexists _, [Called reload]. split_and!; [reflexivity | reflexivity |].
    intros [[=] | []].
  - destruct Hbad as [? | [Hs Hl]]; [contradiction|].
    rewrite (bind_ok _ _ _ _ _ (call_returns_later E _ _ Hs)).
    destruct (Z.gtb_spec (len (nodes_loaded E) + count) (maxNodes E)); [|lia].
    eexists _, [Called reload; Called add_cluster_nodes_setup].
    rewrite later_later. split_and!; [reflexivity | reflexivity |].
    intros [[=] | [[=] | []]].
Qed.

(** Ten more nodes for a cluster of three licensed for twelve. *)
Lemma add_nodes_rejects_before_extending_witness :
  exists msg t,
    add_nodes (example_env (fun _ => None)) 10 plain_add start
      = Err (vFXTConfigurationException msg) (later start t) /\
    issued t = [] /\ ~ In (Called allow_join) t.
Proof.
  apply add_nodes_rejects_before_extending.
  - reflexivity.
  - right. split; [reflexivity | vm_compute; reflexivity].
Defined.

(** X16.  With a custom address range ([address_range_start],
    [address_range_end], [address_range_netmask]) that holds enough
    addresses, [add_nodes] fails as soon as it needs private or cluster
    addresses: the range is bound to [avail_ip], the code then reads
    [avail_ips], and the call ends in an [UnboundLocalError] with no range
    extended and no node added. *)
Theorem add_nodes_custom_range_unbound :
  forall E count options w avail_ip mask,
    calls E reload = None -> len (nodes_loaded E) <> 0 ->
    calls E add_cluster_nodes_setup = None ->
    len (nodes_loaded E) + count <= maxNodes E ->
    address_range options = Some (avail_ip, mask) ->
    0 < AddressMath.ip_count (needs_at E count w) <= len avail_ip ->
    AddressMath.need_private (needs_at E count w) <> 0 \/
    AddressMath.need_cluster (needs_at E count w) > 0 ->
    add_nodes E count options w
      = Err (Fault "UnboundLocalError: local variable 'avail_ips' referenced before assignment")
            (later w [Called reload; Called add_cluster_nodes_setup]).
Proof.
  intros E count options w avail_ip mask Hr Hn Hs Hl Ha Hc Hneed. unfold add_nodes.
  rewrite (bind_ok _ _ _ _ _ (call_returns_later E _ _ Hr)).
  destruct (Z.eqb_spec (len (nodes_loaded E)) 0) as [|_]; [contradiction|].
  rewrite (bind_ok _ _ _ _ _ (call_returns_later E _ _ Hs)).
  destruct (Z.gtb_spec (len (nodes_loaded E) + count) (maxNodes E)) as [|_]; [lia|].
  rewrite later_later. unfold bind at 1 2 3. unfold query at 1 2 3.
  cbn [app]. apply bind_err.
  change (AddressMath.address_needs _ _ _ _ _ _ _) with (needs_at E count w).
  unfold extend_ranges. rewrite Ha.
  destruct (Z.gtb_spec (AddressMath.ip_count (needs_at E count w)) 0); [|lia].
  destruct (Z.ltb_spec (len avail_ip) (AddressMath.ip_count (needs_at E count w))); [lia|].
  unfold bind at 1. unfold ret at 1. cbn [fst snd].
  destruct (Z.eqb_spec (AddressMath.need_private (needs_at E count w)) 0) as [Hp|Hp];
    cbn [negb].
  - destruct Hneed as [? | Hcl]; [contradiction|].
    unfold bind at 1. unfold ret at 1.
    destruct (Z.gtb_spec (AddressMath.need_cluster (needs_at E count w)) 0); [|lia].
    reflexivity.
  - reflexivity.
Qed.

(** Three more nodes with the custom range 30..38. *)
Lemma add_nodes_custom_range_unbound_witness :
  add_nodes (example_env (fun _ => None)) 3 custom_range start
    = Err (Fault "UnboundLocalError: local variable 'avail_ips' referenced before assignment")
          (later start [Called reload; Called add_cluster_nodes_setup]).
Proof.
  apply (add_nodes_custom_range_unbound (example_env (fun _ => None)) 3 custom_range start
           (seqZ 30 9) "255.255.255.0").
  - reflexivity.
  - discriminate.
  - reflexivity.
  - vm_compute. discriminate.
  - reflexivity.
  - vm_compute. split; [reflexivity | discriminate].
  - right. vm_compute. reflexivity.
Defined.

(** X17.  When [add_nodes], asked for at least one node, fails in its
    node-addition phase and cleanup is suppressed, or some but not all of
    the new nodes have joined and the rollback runs to its end, the
    address ranges extended during the call stay as they are: no range is
    removed, and the caller gets the [vFXTCreateFailure]. *)
Theorem add_nodes_keeps_ranges_unless_none_joined :
  forall E count options w added w1 e,
    prepared E count options w added w1 ->
    1 <= count ->
    first_failure E join_phase = Some e ->
    (skip_cleanup options = true /\ calls E telemetry = None) \/
    (skip_cleanup options = false /\ calls E load_cluster_information = None /\
     calls E list_unconfigured_nodes = None /\
     (forall d, calls E (destroy_unjoined (unjoined_nodes E)) = Some d ->
                is_Exception d = true) /\
     calls E disallow_join_after_undo = None /\ len (unjoined E) <> count) ->
    exists t,
      add_nodes E count options w = Err (vFXTCreateFailure e) (later w1 t) /\
      issued t = [].
Proof.
  intros E count options w added w1 e Hp Hcount Hf Hhow.
  destruct (add_nodes_fails E count options w added w1 e Hp (or_introl (conj Hcount Hf)))
    as (t1 & -> & Hi1).
  destruct Hhow as [[Hs Ht] | (Hs & Hl & Hq & Hd & Hj & Hc)].
  - rewrite (undo_suppressed E options count added e _ Hs Ht), later_later.
    eexists. split; [reflexivity|]. rewrite issued_app, Hi1. reflexivity.
  - destruct (undo_skips_ranges E options count added e (later w1 t1) Hs Hl Hq
                (fun _ => Hd) Hj Hc) as (t2 & -> & Hi2).
    exists (t1 ++ t2). rewrite later_later. split; [reflexivity|].
    now rewrite issued_app, Hi1, Hi2.
Qed.

(** Two of the three new nodes have joined when the wait times out. *)
Lemma add_nodes_keeps_ranges_unless_none_joined_witness :
  exists t,
    add_nodes (two_joined join_fails) 3 plain_add start
      = Err (vFXTCreateFailure join_timeout) (later extended t) /\
    issued t = [].
Proof.
  apply (add_nodes_keeps_ranges_unless_none_joined (two_joined join_fails) 3 plain_add start
           (map entry example_extensions) extended join_timeout).
  - split_and!;
      [reflexivity | discriminate | reflexivity | vm_compute; intros [=]
      | vm_compute; reflexivity].
  - lia.
  - reflexivity.
  - right. split_and!;
      [reflexivity | reflexivity | reflexivity | intros d [=] | reflexivity |].
    vm_compute. intros [=].
Defined.

End LifecycleProperties.

Section ConnectionFacts.
Import Config Connection.

Variables (format : exn -> string) (self : cluster) (mgmt_ip : string).

Lemma try_addresses_skips r retries addrs :
  unreachable self mgmt_ip r -> retries <> 0 ->
  try_addresses format self mgmt_ip r retries addrs = None.
Proof.
  intros Hu Hr. apply Z.eqb_neq in Hr.
  induction addrs as [|addr rest IH]; [reflexivity|]. cbn [try_addresses].
  destruct (Hu addr) as (e & -> & ->). now rewrite Hr.
Qed.

Lemma try_addresses_unreachable r retries addr rest :
  unreachable self mgmt_ip r ->
  try_addresses format self mgmt_ip r retries (addr :: rest) =
    if retries =? 0 then
      match attempt self mgmt_ip r addr with
      | Raise e => Some (Raise (vFXTConnectionFailure
                                  ("Failed to make remote API connection: " +:+ format e)))
      | Return _ => None
      end
    else None.
Proof.
  intros Hu. destruct (Z.eqb_spec retries 0) as [->|Hr].
  - cbn [try_addresses]. destruct (Hu addr) as (e & -> & ->). reflexivity.
  - now apply try_addresses_skips.
Qed.

Lemma connect_unreachable addr rest rounds : forall retries made,
  Forall (unreachable self mgmt_ip) rounds ->
  (0 <= retries < len rounds ->
   exists msg, connect format self mgmt_ip (addr :: rest) retries made rounds
               = Raised (made + Z.to_nat retries + 1) (vFXTConnectionFailure msg)) /\
  (retries < 0 \/ len rounds <= retries ->
   connect format self mgmt_ip (addr :: rest) retries made rounds
     = Connecting (retries - len rounds)).
Proof.
  induction rounds as [|r rounds IH]; intros retries made Hall.
  - split; [unfold len; cbn; lia|]. intros _. cbn. f_equal. unfold len. cbn. lia.
  - inversion Hall as [|? ? Hu Hrest]; subst. cbn [connect].
    rewrite (try_addresses_unreachable r retries addr rest Hu).
    assert (Hlen : len (r :: rounds) = len rounds + 1) by (unfold len; cbn [length]; lia).
    destruct (Z.eqb_spec retries 0) as [->|Hne].
    + destruct (Hu addr) as (e & -> & _). split; [|unfold len; cbn [length]; lia].
      intros _. eexists. f_equal. lia.
    + destruct (IH (retries - 1) (S made) Hrest) as [IH1 IH2]. split.
      * intros Hr. destruct IH1 as (msg & ->); [lia|]. exists msg. f_equal. lia.
      * intros Hr. rewrite IH2 by lia. f_equal. lia.
Qed.

Lemma connect_bounded addrs rounds : forall retries made,
  0 <= retries < len rounds -> addrs <> [] ->
  (forall r, In r rounds -> try_addresses format self mgmt_ip r 0 addrs <> None) ->
  exists n, (n <= made + Z.to_nat retries + 1)%nat /\
    ((exists addr, connect format self mgmt_ip addrs retries made rounds = Connected n addr) \/
     (exists e, connect format self mgmt_ip addrs retries made rounds = Raised n e)).
Proof.
  induction rounds as [|r rounds IH]; intros retries made Hr Hne Hlast.
  - unfold len in Hr. cbn in Hr. lia.
  - cbn [connect].
    destruct (try_addresses format self mgmt_ip r retries addrs) as [[addr|e]|] eqn:Ht.
    + exists (S made). split; [lia | left; eauto].
    + exists (S made). split; [lia | right; eauto].
    + destruct (Z.eqb_spec retries 0) as [->|Hnz].
      * exfalso. apply (Hlast r); [now left | exact Ht].
      * destruct (IH (retries - 1) (S made)) as (n & Hn & Hres).
        -- unfold len in *. cbn [length] in Hr. lia.
        -- exact Hne.
        -- intros r' Hr'. apply Hlast. now right.
        -- exists n. split; [lia | exact Hres].
Qed.

Lemma try_addresses_last r addr rest :
  try_addresses format self mgmt_ip r 0 (addr :: rest) <> None.
Proof.
  cbn [try_addresses]. destruct (attempt self mgmt_ip r addr) as [[]|e]; [discriminate|].
  destruct (is_Exception e); discriminate.
Qed.

End ConnectionFacts.

Section ConnectionProperties.
Import Config Connection.

(** The cluster object can connect: it has a management address and a
    password, given or of its own. *)
Lemma xmlrpc_connects format self m retries password rounds :
  Config.mgmt_ip self = Some m -> m <> "" ->
  truthy (if truthy password then password else admin_password self) = true ->
  xmlrpc format self retries password rounds
    = connect format self m
        (match nodes self with first :: _ => [m] ++ [first] | [] => [m] end)
        retries 0 rounds.
Proof.
  intros Hm Hne Hp. unfold xmlrpc. rewrite Hm. cbn [truthy].
  apply String.eqb_neq in Hne. rewrite Hne. cbn [negb]. now rewrite Hp.
Qed.

(** X18.  [xmlrpc(retries=r)] with [r >= 0] ends within [r + 1] rounds
    over its addresses; when every attempt fails it raises
    [vFXTConnectionFailure] in round [r + 1]; with a negative [r] it
    never gives up on its own. *)
Theorem xmlrpc_gives_up :
  forall format self m retries password rounds,
    Config.mgmt_ip self = Some m -> m <> "" ->
    truthy (if truthy password then password else admin_password self) = true ->
    (0 <= retries < len rounds ->
     exists n, (n <= Z.to_nat retries + 1)%nat /\
       ((exists addr, xmlrpc format self retries password rounds = Connected n addr) \/
        (exists e, xmlrpc format self retries password rounds = Raised n e))) /\
    (Forall (unreachable self m) rounds ->
     (0 <= retries < len rounds ->
      exists msg, xmlrpc format self retries password rounds
                  = Raised (Z.to_nat retries + 1) (vFXTConnectionFailure msg)) /\
     (retries < 0 \/ len rounds <= retries ->
      xmlrpc format self retries password rounds = Connecting (retries - len rounds))).
Proof.
  intros format self m retries password rounds Hm Hne Hp.
  rewrite (xmlrpc_connects format self m retries password rounds Hm Hne Hp).
  split.
  - intros Hr.
    apply (connect_bounded format self m _ rounds retries 0 Hr).
    + destruct (nodes self); discriminate.
    + intros r _. destruct (nodes self); apply try_addresses_last.
  - intros Hall.
    destruct (nodes self) as [|first others];
      apply (connect_unreachable format self m _ _ rounds retries 0 Hall).
Qed.

(** One retry and two rounds in which nothing answers. *)
Lemma xmlrpc_gives_up_witness :
  exists msg,
    xmlrpc (fun _ => "timed out") example_cluster 1 None [down; down]
      = Raised (Z.to_nat 1 + 1) (vFXTConnectionFailure msg).
Proof.
  refine (proj1 (proj2 (xmlrpc_gives_up (fun _ => "timed out") example_cluster "10.0.0.10" 1
                          None [down; down] eq_refl _ eq_refl) _) _).
  - discriminate.
  - repeat constructor; intros addr; eexists; split; reflexivity.
  - unfold len. cbn. lia.
Defined.

(** X19.  The [password] argument of [xmlrpc] only decides whether the
    call goes ahead: the login sends the attribute [admin_password].  On a
    cluster object without [admin_password] no connection is ever made,
    whatever password is passed, and a call with [r >= 0] retries ends in
    an exception within [r + 1] rounds. *)
Theorem xmlrpc_ignores_password_argument :
  forall format self retries password rounds,
    admin_password self = None ->
    (forall n addr, xmlrpc format self retries password rounds <> Connected n addr) /\
    (0 <= retries < len rounds ->
     exists n e, xmlrpc format self retries password rounds = Raised n e /\
                 (n <= Z.to_nat retries + 1)%nat).
Proof.
  intros format self retries password rounds Hnone.
  assert (Hattempt : forall m r addr, attempt self m r addr <> Return tt).
  { intros m r addr. unfold attempt. rewrite Hnone.
    destruct (getXmlrpcClient r addr); discriminate. }
  assert (Htry : forall m r k addrs addr,
            try_addresses format self m r k addrs <> Some (Return addr)).
  { intros m r k addrs addr. induction addrs as [|a rest IH]; [discriminate|].
    cbn [try_addresses]. destruct (attempt self m r a) as [[]|e] eqn:Ha.
    - now apply Hattempt in Ha.
    - destruct (is_Exception e); [destruct (k =? 0)|]; [discriminate | exact IH | discriminate]. }
  assert (Hconnect : forall m addrs rounds' k made n addr,
            connect format self m addrs k made rounds' <> Connected n addr).
  { intros m addrs rounds'. induction rounds' as [|r rest IH]; intros k made n addr;
      [discriminate|]. cbn [connect].
    destruct (try_addresses format self m r k addrs) as [[a|e]|] eqn:Ht;
      [now apply Htry in Ht | discriminate | apply IH]. }
  assert (Hnever : forall n addr, xmlrpc format self retries password rounds <> Connected n addr).
  { intros n addr. unfold xmlrpc.
    destruct (Config.mgmt_ip self) as [m|]; [|discriminate].
    destruct (negb (truthy (Some m))); [discriminate|].
    destruct (negb (truthy _)); [discriminate | apply Hconnect]. }
  split; [exact Hnever|]. intros Hr.
  unfold xmlrpc in *.
  destruct (Config.mgmt_ip self) as [m|]; [|exists 0%nat; eexists; split; [reflexivity | lia]].
  destruct (negb (truthy (Some m))); [exists 0%nat; eexists; split; [reflexivity | lia]|].
  destruct (negb (truthy _)); [exists 0%nat; eexists; split; [reflexivity | lia]|].
  destruct (connect_bounded format self m
              (match nodes self with first :: _ => [m] ++ [first] | [] => [m] end)
              rounds retries 0 Hr) as (n & Hn & [(addr & Hc) | (e & Hc)]).
  - destruct (nodes self); discriminate.
  - intros r _. destruct (nodes self); apply try_addresses_last.
  - now apply Hnever in Hc.
  - exists n, e. split; [exact Hc | exact Hn].
Qed.

(** The password is passed to the call, the cluster object has none. *)
Lemma xmlrpc_ignores_password_argument_witness :
  exists n e,
    xmlrpc (fun _ => "no encode") no_password 0 (Some "secret") [all_answer] = Raised n e /\
    (n <= Z.to_nat 0 + 1)%nat.
Proof.
  apply (proj2 (xmlrpc_ignores_password_argument (fun _ => "no encode") no_password 0
                  (Some "secret") [all_answer] eq_refl)).
  unfold len. cbn. lia.
Defined.

(** X20.  [xmlrpc] tries the management address first and the address of
    the first node after it.  As long as retries are left, a round in
    which the management address fails and the node answers connects to
    the node; in the last round ([retries] at zero) a failure of the
    management address raises at once and the node is not tried. *)
Theorem xmlrpc_falls_back_to_first_node :
  forall format self m first others retries password r rest e,
    Config.mgmt_ip self = Some m -> m <> "" ->
    truthy (if truthy password then password else admin_password self) = true ->
    nodes self = first :: others ->
    attempt self m r m = Raise e -> is_Exception e = true ->
    (retries <> 0 -> attempt self m r first = Return tt ->
     xmlrpc format self retries password (r :: rest) = Connected 1 first) /\
    xmlrpc format self 0 password (r :: rest)
      = Raised 1 (vFXTConnectionFailure
                    ("Failed to make remote API connection: " +:+ format e)).
Proof.
  intros format self m first others retries password r rest e Hm Hne Hp Hn Ha He.
  rewrite !(xmlrpc_connects format self m _ password _ Hm Hne Hp), Hn.
  cbn [app connect try_addresses]. rewrite Ha, He. split; [|reflexivity].
  intros Hr Hf. apply Z.eqb_neq in Hr. now rewrite Hr, Hf.
Qed.

(** The management address times out and the first node answers. *)
Lemma xmlrpc_falls_back_to_first_node_witness :
  xmlrpc (fun _ => "timed out") example_cluster 1 None [node_answers]
    = Connected 1 "10.0.0.5" /\
  xmlrpc (fun _ => "timed out") example_cluster 0 None [node_answers]
    = Raised 1 (vFXTConnectionFailure "Failed to make remote API connection: timed out").
Proof.
  destruct (xmlrpc_falls_back_to_first_node (fun _ => "timed out") example_cluster
              "10.0.0.10" "10.0.0.5" [] 1 None node_answers [] (Fault "timed out")
              eq_refl ltac:(discriminate) eq_refl eq_refl eq_refl eq_refl) as [H1 H2].
  split; [apply H1; [discriminate | reflexivity] | exact H2].
Defined.

End ConnectionProperties.

Section LicenseProperties.
Import License.

Lemma verify_license_unlicensed polls : forall wait made,
  0 <= wait <= len polls ->
  Forall unlicensed (take (Z.to_nat wait) polls) ->
  verify_license wait made polls
    = Raised (made + Z.to_nat wait)
        (vFXTConfigurationException "Unable to verify cluster licensing").
Proof.
  induction polls as [|p rest IH]; intros wait made Hw Hall.
  - unfold len in Hw. cbn in Hw. assert (wait = 0) as -> by lia. cbn. f_equal. lia.
  - cbn [verify_license]. destruct (Z.gtb_spec wait 0) as [Hpos|Hz].
    + replace (Z.to_nat wait) with (S (Z.to_nat (wait - 1))) in Hall by lia.
      cbn [take] in Hall. inversion Hall as [|? ? Hp Hrest]; subst.
      assert (Hrec : verify_license (wait - 1) (S made) rest
                     = Raised (made + Z.to_nat wait)
                         (vFXTConfigurationException "Unable to verify cluster licensing")).
      { rewrite IH; [f_equal; lia | | exact Hrest].
        unfold len in *. cbn [length] in Hw. lia. }
      destruct p as [features|e]; cbn [unlicensed] in Hp.
      * now rewrite bool_decide_eq_false_2.
      * now rewrite Hp.
    + assert (wait = 0) as -> by lia. f_equal. lia.
Qed.

Lemma verify_license_found polls : forall wait made k features,
  (k < Z.to_nat wait)%nat -> Forall unlicensed (take k polls) ->
  polls !! k = Some (Return features) -> "FlashCloud" ∈ features ->
  verify_license wait made polls = Verified (made + S k).
Proof.
  induction polls as [|p rest IH]; intros wait made k features Hk Hall Hp Hin;
    [discriminate|].
  cbn [verify_license]. destruct (Z.gtb_spec wait 0) as [Hpos|Hz]; [|lia].
  destruct k as [|k].
  - cbn in Hp. injection Hp as ->. rewrite bool_decide_eq_true_2 by exact Hin.
    f_equal. lia.
  - cbn [take] in Hall. inversion Hall as [|? ? Hq Hrest]; subst. cbn in Hp.
    assert (Hrec : verify_license (wait - 1) (S made) rest = Verified (made + S (S k))).
    { rewrite (IH (wait - 1) (S made) k features); [f_equal; lia | lia | exact Hrest
                                                   | exact Hp | exact Hin]. }
    destruct p as [fs|e]; cbn [unlicensed] in Hq.
    + now rewrite bool_decide_eq_false_2.
    + now rewrite Hq.
Qed.

(** X21.  [verify_license(wait)] looks for the FlashCloud feature at most
    [wait] times: it returns at the first poll that lists the feature,
    failed queries counting as polls without it, and raises
    [vFXTConfigurationException] after [wait] polls without it; with
    [wait <= 0] it raises without asking the cluster at all. *)
Theorem verify_license_polls :
  forall wait polls,
    (wait <= 0 ->
     verify_license wait 0 polls
       = Raised 0 (vFXTConfigurationException "Unable to verify cluster licensing")) /\
    (forall k features,
       (k < Z.to_nat wait)%nat -> Forall unlicensed (take k polls) ->
       polls !! k = Some (Return features) -> "FlashCloud" ∈ features ->
       verify_license wait 0 polls = Verified (S k)) /\
    (0 <= wait <= len polls -> Forall unlicensed (take (Z.to_nat wait) polls) ->
     verify_license wait 0 polls
       = Raised (Z.to_nat wait)
           (vFXTConfigurationException "Unable to verify cluster licensing")).
Proof.
  intros wait polls. split_and!.
  - intros Hw. destruct polls; cbn [verify_license];
      destruct (Z.gtb_spec wait 0); (lia || reflexivity).
  - intros k features Hk Hall Hp Hin.
    now rewrite (verify_license_found polls wait 0 k features Hk Hall Hp Hin).
  - intros Hw Hall. now rewrite (verify_license_unlicensed polls wait 0 Hw Hall).
Qed.

(** The first query fails, the second lists the feature. *)
Lemma verify_license_polls_witness :
  verify_license 120 0 [Raise (Fault "connection refused"); Return ["FlashCloud"]]
    = Verified 2.
Proof.
  apply (proj1 (proj2 (verify_license_polls 120
                         [Raise (Fault "connection refused"); Return ["FlashCloud"]]))
           1%nat ["FlashCloud"]).
  - vm_compute. lia.
  - repeat constructor.
  - reflexivity.
  - apply list_elem_of_In. now left.
Defined.

End LicenseProperties.

Section RetryFacts.
Import Retry.

Variables (refused : string -> exn) (giving_up : exn -> exn).

Lemma until_success_done attempts : forall retries made k,
  0 <= retries -> (k <= Z.to_nat retries)%nat ->
  Forall retried (take k attempts) -> attempts !! k = Some (Return "success") ->
  until_success refused giving_up retries made attempts = Done (made + S k).
Proof.
  induction attempts as [|a rest IH]; intros retries made k Hr Hk Hall Ha; [discriminate|].
  cbn [until_success]. destruct k as [|k].
  - cbn in Ha. injection Ha as ->. cbn. f_equal. lia.
  - cbn [take] in Hall. inversion Hall as [|? ? Hq Hrest]; subst. cbn in Ha.
    destruct (Z.eqb_spec retries 0) as [|Hne]; [lia|].
    assert (Hrec : until_success refused giving_up (retries - 1) (S made) rest
                   = Done (made + S (S k))).
    { rewrite (IH (retries - 1) (S made) k); [f_equal; lia | lia | lia | exact Hrest | exact Ha]. }
    destruct a as [response|e]; cbn [retried] in Hq.
    + apply String.eqb_neq in Hq. rewrite Hq. exact Hrec.
    + rewrite Hq. exact Hrec.
Qed.

Lemma until_success_gives_up attempts : forall retries made a,
  0 <= retries ->
  Forall retried (take (Z.to_nat retries) attempts) ->
  attempts !! Z.to_nat retries = Some a -> retried a ->
  until_success refused giving_up retries made attempts
    = Raised (made + Z.to_nat retries + 1) (giving_up (caught_at refused a)).
Proof.
  induction attempts as [|b rest IH]; intros retries made a Hr Hall Ha Hret; [discriminate|].
  cbn [until_success]. destruct (Z.eqb_spec retries 0) as [->|Hne].
  - cbn in Ha. injection Ha as ->.
    destruct a as [response|e]; cbn [retried caught_at] in *.
    + apply String.eqb_neq in Hret. rewrite Hret. cbn. f_equal. lia.
    + rewrite Hret. f_equal. lia.
  - replace (Z.to_nat retries) with (S (Z.to_nat (retries - 1))) in Hall, Ha by lia.
    cbn [take] in Hall. inversion Hall as [|? ? Hq Hrest]; subst. cbn in Ha.
    assert (Hrec : until_success refused giving_up (retries - 1) (S made) rest
                   = Raised (made + Z.to_nat retries + 1) (giving_up (caught_at refused a))).
    { rewrite (IH (retries - 1) (S made) a); [f_equal; lia | lia | exact Hrest | exact Ha
                                             | exact Hret]. }
    destruct b as [response|e]; cbn [retried] in Hq.
    + apply String.eqb_neq in Hq. rewrite Hq. exact Hrec.
    + rewrite Hq. exact Hrec.
Qed.

Lemma until_success_raised attempts : forall retries made n e,
  until_success refused giving_up retries made attempts = Raised n e ->
  (exists cause, e = giving_up cause /\ 0 <= retries /\ n = (made + Z.to_nat retries + 1)%nat) \/
  is_Exception e = false.
Proof.
  induction attempts as [|a rest IH]; intros retries made n e H; [discriminate|].
  cbn [until_success] in H.
  assert (Hcaught : forall x,
            (if retries =? 0 then Raised (S made) (giving_up x)
             else until_success refused giving_up (retries - 1) (S made) rest) = Raised n e ->
            (exists cause, e = giving_up cause /\ 0 <= retries /\
                           n = (made + Z.to_nat retries + 1)%nat) \/
            is_Exception e = false).
  { intros x Hx. destruct (Z.eqb_spec retries 0) as [->|Hne].
    - injection Hx as <- <-. left. exists x. split_and!; [reflexivity | lia | lia].
    - destruct (IH _ _ _ _ Hx) as [(cause & -> & Hr & ->) | He]; [left | now right].
      exists cause. split_and!; [reflexivity | lia | lia]. }
  destruct a as [response|x].
  - destruct (negb _); [now apply (Hcaught (refused response)) | discriminate].
  - destruct (is_Exception x) eqn:Hx; [now apply (Hcaught x)|].
    injection H as <- <-. now right.
Qed.

Lemma until_success_bounded attempts : forall retries made,
  0 <= retries < len attempts ->
  exists n, (n <= made + Z.to_nat retries + 1)%nat /\
    (until_success refused giving_up retries made attempts = Done n \/
     exists e, until_success refused giving_up retries made attempts = Raised n e).
Proof.
  induction attempts as [|a rest IH]; intros retries made Hr.
  - unfold len in Hr. cbn in Hr. lia.
  - cbn [until_success].
    assert (Hcaught : forall x,
              exists n, (n <= made + Z.to_nat retries + 1)%nat /\
                ((if retries =? 0 then Raised (S made) (giving_up x)
                  else until_success refused giving_up (retries - 1) (S made) rest) = Done n \/
                 exists e,
                   (if retries =? 0 then Raised (S made) (giving_up x)
                    else until_success refused giving_up (retries - 1) (S made) rest)
                   = Raised n e)).
    { intros x. destruct (Z.eqb_spec retries 0) as [|Hne].
      - exists (S made). split; [lia | right; eauto].
      - destruct (IH (retries - 1) (S made)) as (n & Hn & Hres).
        + unfold len in *. cbn [length] in Hr. lia.
        + exists n. split; [lia | exact Hres]. }
    destruct a as [response|x].
    + destruct (negb _); [apply Hcaught|]. exists (S made). split; [lia | now left].
    + destruct (is_Exception x); [apply Hcaught|]. exists (S made). split; [lia | right; eauto].
Qed.

End RetryFacts.

Section RetryProperties.
Import Retry.

(** X22.  [allow_node_join] repeats [cluster.modify] until it answers
    ['success'], at most [XMLRPC_RETRIES + 1] times; when the last of
    these attempts fails too, its failure leaves the function as it is:
    the exception of the call, or the [vFXTConfigurationException] that
    carries the answer. *)
Theorem allow_node_join_retries :
  forall XMLRPC_RETRIES attempts,
    0 <= XMLRPC_RETRIES ->
    (forall k,
       (k <= Z.to_nat XMLRPC_RETRIES)%nat -> Forall retried (take k attempts) ->
       attempts !! k = Some (Return "success") ->
       allow_node_join XMLRPC_RETRIES attempts = Done (S k)) /\
    (forall e,
       Forall retried (take (Z.to_nat XMLRPC_RETRIES) attempts) ->
       attempts !! Z.to_nat XMLRPC_RETRIES = Some (Raise e) -> is_Exception e = true ->
       allow_node_join XMLRPC_RETRIES attempts = Raised (Z.to_nat XMLRPC_RETRIES + 1) e) /\
    (forall response,
       Forall retried (take (Z.to_nat XMLRPC_RETRIES) attempts) ->
       attempts !! Z.to_nat XMLRPC_RETRIES = Some (Return response) ->
       response <> "success" ->
       allow_node_join XMLRPC_RETRIES attempts
         = Raised (Z.to_nat XMLRPC_RETRIES + 1)
             (vFXTConfigurationException
                ("Failed to update allow node join configuration: " +:+ response))) /\
    (XMLRPC_RETRIES < len attempts ->
     exists n, (n <= Z.to_nat XMLRPC_RETRIES + 1)%nat /\
       (allow_node_join XMLRPC_RETRIES attempts = Done n \/
        exists e, allow_node_join XMLRPC_RETRIES attempts = Raised n e)).
Proof.
  intros R attempts HR. unfold allow_node_join. split_and!.
  - intros k Hk Hall Ha. now rewrite (until_success_done _ _ attempts R 0 k HR Hk Hall Ha).
  - intros e Hall Ha He.
    now rewrite (until_success_gives_up _ _ attempts R 0 (Raise e) HR Hall Ha He).
  - intros response Hall Ha Hne.
    now rewrite (until_success_gives_up _ _ attempts R 0 (Return response) HR Hall Ha Hne).
  - intros Hlen. apply (until_success_bounded _ _ attempts R 0). lia.
Qed.

(** One retry; the connection is reset, then the cluster answers busy. *)
Lemma allow_node_join_retries_witness :
  allow_node_join 1 [Raise (Fault "connection reset"); Return "busy"]
    = Raised (Z.to_nat 1 + 1)
        (vFXTConfigurationException "Failed to update allow node join configuration: busy").
Proof.
  refine (proj1 (proj2 (proj2 (allow_node_join_retries 1
                                 [Raise (Fault "connection reset"); Return "busy"] _)))
            "busy" _ eq_refl _).
  - lia.
  - repeat constructor.
  - discriminate.
Defined.

(** X23.  [enable_ha] makes no call when the cluster reports HA as
    enabled, and goes ahead when the status cannot be read.  An
    [Exception] that leaves it is the [vFXTConfigurationException]
    ["Failed to enable HA: ..."] raised after [retries + 1] failed calls
    of [cluster.enableHA]; with a negative [retries] it never gives up. *)
Theorem enable_ha_failures :
  forall format retries ha attempts,
    (ha = Return "enabled" -> enable_ha format retries ha attempts = Done 0) /\
    (forall n e,
       enable_ha format retries ha attempts = Raised n e -> is_Exception e = true ->
       0 <= retries /\ n = (Z.to_nat retries + 1)%nat /\
       exists cause, e = vFXTConfigurationException ("Failed to enable HA: " +:+ format cause)) /\
    (0 <= retries < len attempts ->
     exists n, (n <= Z.to_nat retries + 1)%nat /\
       (enable_ha format retries ha attempts = Done n \/
        exists e, enable_ha format retries ha attempts = Raised n e)).
Proof.
  intros format retries ha attempts. split_and!.
  - intros ->. reflexivity.
  - intros n e H He. unfold enable_ha in H.
    assert (Hloop : until_success vFXTConfigurationException
                      (fun ha_e => vFXTConfigurationException
                                     ("Failed to enable HA: " +:+ format ha_e))
                      retries 0 attempts = Raised n e ->
                    0 <= retries /\ n = (Z.to_nat retries + 1)%nat /\
                    exists cause,
                      e = vFXTConfigurationException ("Failed to enable HA: " +:+ format cause)).
    { intros Hl. apply until_success_raised in Hl as [(cause & -> & Hr & ->) | Hx];
        [|congruence]. split_and!; [exact Hr | reflexivity | now exists cause]. }
    destruct ha as [status|x].
    + destruct (String.eqb status "enabled"); [discriminate | now apply Hloop].
    + destruct (is_Exception x) eqn:Hx; [now apply Hloop|].
      injection H as <- <-. congruence.
  - intros Hr. unfold enable_ha.
    destruct (until_success_bounded vFXTConfigurationException
                (fun ha_e => vFXTConfigurationException
                               ("Failed to enable HA: " +:+ format ha_e))
                attempts retries 0 Hr) as (n & Hn & Hres).
    destruct ha as [status|x].
    + destruct (String.eqb status "enabled");
        [exists 0%nat; split; [lia | now left] | now exists n].
    + destruct (is_Exception x); [now exists n|].
      exists 0%nat. split; [lia | right; eauto].
Qed.

(** One retry and a cluster that answers not ready twice. *)
Lemma enable_ha_failures_witness :
  0 <= 1 /\ 2%nat = (Z.to_nat 1 + 1)%nat /\
  exists cause,
    vFXTConfigurationException "Failed to enable HA: not ready"
      = vFXTConfigurationException
          ("Failed to enable HA: " +:+ (fun _ : exn => "not ready") cause).
Proof.
  apply (proj1 (proj2 (enable_ha_failures (fun _ => "not ready") 1
                         (Raise (Fault "connection reset"))
                         [Return "not ready"; Return "not ready"])) 2%nat).
  - reflexivity.
  - reflexivity.
Defined.

(** X24.  The junction path [add_vserver_junction] sends always starts
    with a slash: a path that does is sent as given, any other gets one
    slash in front, and a missing path becomes the name of the corefiler
    behind a slash.  An [Exception] that leaves the function is the
    [vFXTConfigurationException] ["Failed to add junction to ..."], raised
    after [retries + 1] failed calls. *)
Theorem add_vserver_junction_path :
  forall format vserver corefiler path retries attempts,
    String.prefix "/" (fst (add_vserver_junction format vserver corefiler path retries attempts))
      = true /\
    (forall p, path = Some p -> String.prefix "/" p = true ->
       fst (add_vserver_junction format vserver corefiler path retries attempts) = p) /\
    (forall p, path = Some p -> p <> "" -> String.prefix "/" p = false ->
       fst (add_vserver_junction format vserver corefiler path retries attempts) = "/" +:+ p) /\
    (path = None \/ path = Some "" ->
     fst (add_vserver_junction format vserver corefiler path retries attempts)
       = "/" +:+ corefiler) /\
    (forall n e,
       snd (add_vserver_junction format vserver corefiler path retries attempts) = Raised n e ->
       is_Exception e = true ->
       n = (Z.to_nat retries + 1)%nat /\
       exists cause,
         e = vFXTConfigurationException
               ("Failed to add junction to " +:+ vserver +:+ ": " +:+ format cause)).
Proof.
  intros format vserver corefiler path retries attempts.
  unfold add_vserver_junction. cbn [fst snd]. split_and!.
  - unfold junction_path.
    match goal with
    | |- context [negb (String.prefix "/" ?x)] =>
        generalize x; intros p; destruct (String.prefix "/" p) eqn:Hp; cbn [negb];
          [exact Hp | apply prefix_append]
    end.
  - intros p -> Hp. unfold junction_path.
    destruct p as [|c p]; [discriminate|]. cbn [String.eqb negb]. now rewrite Hp.
  - intros p -> Hne Hp. unfold junction_path.
    apply String.eqb_neq in Hne. rewrite Hne. cbn [negb]. now rewrite Hp.
  - intros [-> | ->]; unfold junction_path; cbn [String.eqb negb];
      now rewrite prefix_append.
  - intros n e H He.
    apply until_success_raised in H as [(cause & -> & Hr & ->) | Hx]; [|congruence].
    split; [reflexivity | now exists cause].
Qed.

(** A path without a leading slash. *)
Lemma add_vserver_junction_path_witness :
  fst (add_vserver_junction (fun _ => "busy") "vserver" "cloudfiler" (Some "data") 1
         [Return "busy"; Return "busy"]) = "/" +:+ "data".
Proof.
  apply (proj1 (proj2 (proj2 (add_vserver_junction_path (fun _ => "busy") "vserver"
                                "cloudfiler" (Some "data") 1
                                [Return "busy"; Return "busy"]))) "data").
  - reflexivity.
  - discriminate.
  - reflexivity.
Defined.

End RetryProperties.

Section RebalanceProperties.
Import Rebalance.

Lemma rebalance_settles attempts : forall retries made k a,
  (k < Z.to_nat retries)%nat -> Forall retried (take k attempts) ->
  attempts !! k = Some a -> settled a = true ->
  rebalance retries made attempts = Done (made + S k).
Proof.
  induction attempts as [|b rest IH]; intros retries made k a Hk Hall Ha Hs; [discriminate|].
  cbn [rebalance]. destruct (Z.gtb_spec retries 0) as [Hpos|]; [|lia].
  destruct k as [|k].
  - cbn in Ha. injection Ha as ->.
    replace (made + 1)%nat with (S made) by lia.
    destruct a as [status|code text|e]; cbn [settled] in Hs.
    + now rewrite Hs.
    + destruct (code =? 103); [reflexivity|]. cbn [orb] in Hs. now rewrite Hs.
    + discriminate.
  - cbn [take] in Hall. inversion Hall as [|? ? Hq Hrest]; subst. cbn in Ha.
    assert (Hrec : rebalance (retries - 1) (S made) rest = Done (made + S (S k))).
    { rewrite (IH (retries - 1) (S made) k a); [f_equal; lia | lia | exact Hrest | exact Ha
                                               | exact Hs]. }
    destruct b as [status|code text|e]; cbn [retried] in Hq.
    + apply String.eqb_neq in Hq. now rewrite Hq.
    + destruct Hq as [Hc Ht]. apply Z.eqb_neq in Hc. now rewrite Hc, Ht.
    + now rewrite Hq.
Qed.

Lemma rebalance_exhausts attempts : forall retries made,
  0 <= retries <= len attempts ->
  Forall retried (take (Z.to_nat retries) attempts) ->
  rebalance retries made attempts
    = Raised (made + Z.to_nat retries)
        (vFXTStatusFailure "Waiting for cluster rebalance failed").
Proof.
  induction attempts as [|b rest IH]; intros retries made Hr Hall.
  - unfold len in Hr. cbn in Hr. assert (retries = 0) as -> by lia. cbn. f_equal. lia.
  - cbn [rebalance]. destruct (Z.gtb_spec retries 0) as [Hpos|Hz].
    + replace (Z.to_nat retries) with (S (Z.to_nat (retries - 1))) in Hall by lia.
      cbn [take] in Hall. inversion Hall as [|? ? Hq Hrest]; subst.
      assert (Hrec : rebalance (retries - 1) (S made) rest
                     = Raised (made + Z.to_nat retries)
                         (vFXTStatusFailure "Waiting for cluster rebalance failed")).
      { rewrite IH; [f_equal; lia | | exact Hrest].
        unfold len in *. cbn [length] in Hr. lia. }
      destruct b as [status|code text|e]; cbn [retried] in Hq.
      * apply String.eqb_neq in Hq. now rewrite Hq.
      * destruct Hq as [Hc Ht]. apply Z.eqb_neq in Hc. now rewrite Hc, Ht.
      * now rewrite Hq.
    + assert (retries = 0) as -> by lia. f_equal. lia.
Qed.

(** X25.  [rebalance_directory_managers(retries)] calls
    [maint.rebalanceDirManagers] at most [retries] times.  It returns at
    the first call that answers ['success'] or raises the XML-RPC fault
    103 or a fault saying that a rebalance is already scheduled; any other
    answer or [Exception] is retried; after [retries] such calls it raises
    [vFXTStatusFailure], and with [retries <= 0] it raises it without a
    call. *)
Theorem rebalance_directory_managers_attempts :
  forall retries attempts,
    (retries <= 0 ->
     rebalance_directory_managers retries (Return tt) (Return "success") attempts
       = Raised 0 (vFXTStatusFailure "Waiting for cluster rebalance failed")) /\
    (forall k a,
       (k < Z.to_nat retries)%nat -> Forall retried (take k attempts) ->
       attempts !! k = Some a -> settled a = true ->
       rebalance_directory_managers retries (Return tt) (Return "success") attempts
         = Done (S k)) /\
    (0 <= retries <= len attempts -> Forall retried (take (Z.to_nat retries) attempts) ->
     rebalance_directory_managers retries (Return tt) (Return "success") attempts
       = Raised (Z.to_nat retries) (vFXTStatusFailure "Waiting for cluster rebalance failed")).
Proof.
  intros retries attempts. unfold rebalance_directory_managers. cbn [String.eqb negb].
  change (negb ("success" =? "success")%string) with false. cbv iota. split_and!.
  - intros Hr. destruct attempts; cbn [rebalance];
      destruct (Z.gtb_spec retries 0); (lia || reflexivity).
  - intros k a Hk Hall Ha Hs.
    now rewrite (rebalance_settles attempts retries 0 k a Hk Hall Ha Hs).
  - intros Hr Hall. now rewrite (rebalance_exhausts attempts retries 0 Hr Hall).
Qed.

(** A busy answer, then the fault of a rebalance that is already scheduled. *)
Lemma rebalance_directory_managers_attempts_witness :
  rebalance_directory_managers 2 (Return tt) (Return "success")
    [Status "busy"; XmlrpcFault 100 ("A directory manager rebalance operation is already "
                                     +:+ "scheduled for this cluster")]
    = Done 2.
Proof.
  apply (proj1 (proj2 (rebalance_directory_managers_attempts 2
                         [Status "busy";
                          XmlrpcFault 100 ("A directory manager rebalance operation is already "
                                           +:+ "scheduled for this cluster")]))
           1%nat
           (XmlrpcFault 100 ("A directory manager rebalance operation is already "
                             +:+ "scheduled for this cluster"))).
  - vm_compute. lia.
  - repeat constructor. discriminate.
  - reflexivity.
  - reflexivity.
Defined.

End RebalanceProperties.

Section BucketProperties.
Import Config Bucket.

Lemma substring_length_le (n : nat) : forall s, (String.length (substring 0 n s) <= n)%nat.
Proof.
  induction n as [|n IH]; intros [|c s]; cbn; try lia. specialize (IH s). lia.
Qed.

Lemma substring_append (n : nat) : forall a b,
  (n <= String.length a)%nat -> substring 0 n (a +:+ b) = substring 0 n a.
Proof.
  induction n as [|n IH]; intros a b Hn.
  - assert (H0 : forall s, substring 0 0 s = EmptyString) by (intros []; reflexivity).
    now rewrite !H0.
  - destruct a as [|c a]; [cbn in Hn; lia|]. rewrite append_cons. cbn [substring].
    f_equal. apply IH. cbn in Hn. lia.
Qed.

(** X26.  [make_test_bucket] takes a bucket name that is given as it is,
    whatever its length; a name it generates has at most 63 characters,
    and for a cluster whose name has 63 characters or more it is the first
    63 characters of the cluster name: the random part is cut off.  The
    corefiler is named after the bucket unless a name is given. *)
Theorem make_test_bucket_names :
  forall self uuid4 given,
    (forall b, given = Some b -> b <> "" -> bucketname self uuid4 given = b) /\
    (truthy given = false ->
     (String.length (bucketname self uuid4 given) <= 63)%nat /\
     ((63 <= String.length (fmt (name self)))%nat ->
      bucketname self uuid4 given = substring 0 63 (fmt (name self)))) /\
    corefiler None (bucketname self uuid4 given) = bucketname self uuid4 given.
Proof.
  intros self uuid4 given. split_and!.
  - intros b -> Hb. unfold bucketname. cbn [truthy fmt default].
    apply String.eqb_neq in Hb. now rewrite Hb.
  - intros Hg. unfold bucketname. rewrite Hg. split.
    + apply substring_length_le.
    + intros Hlen. now apply substring_append.
  - reflexivity.
Qed.

(** A cluster name of 70 characters. *)
Lemma make_test_bucket_names_witness :
  (String.length (bucketname long_named "6fa459ea-ee8a-3ca4-894e-db77e160355e" None)
   <= 63)%nat /\
  bucketname long_named "6fa459ea-ee8a-3ca4-894e-db77e160355e" None
    = substring 0 63 (fmt (name long_named)).
Proof.
  destruct (proj1 (proj2 (make_test_bucket_names long_named
                            "6fa459ea-ee8a-3ca4-894e-db77e160355e" None)) eq_refl)
    as [H1 H2].
  split; [exact H1 | apply H2; vm_compute; lia].
Defined.

End BucketProperties.

Section TeardownProperties.
Import Teardown.

Lemma delete_buckets_all delete_bucket buckets :
  (forall b e, delete_bucket b = Some e -> is_Exception e = true) ->
  delete_buckets delete_bucket buckets = (map DeleteBucket buckets, None).
Proof.
  intros He. induction buckets as [|b rest IH]; [reflexivity|]. cbn [delete_buckets map].
  rewrite IH. destruct (delete_bucket b) as [e|] eqn:Hb; [|reflexivity].
  now rewrite (He b e Hb).
Qed.

Lemma bucket_names_KeyError S3TYPE_NAME ds d bucket :
  In d ds -> d !! "bucket" = Some bucket -> d !! "s3Type" = None ->
  bucket_names S3TYPE_NAME ds = Raise (Fault "KeyError: 's3Type'").
Proof.
  intros Hin Hb Hs. induction ds as [|x rest IH]; [destruct Hin|]. cbn [bucket_names].
  destruct Hin as [-> | Hin].
  - now rewrite Hb, Hs.
  - rewrite (IH Hin). destruct (x !! "bucket"); [|reflexivity].
    destruct (x !! "s3Type") as [t|]; [|reflexivity]. now destruct (String.eqb t S3TYPE_NAME).
Qed.

(** X27.  [destroy] destroys the nodes first.  When that fails, the
    failure leaves the function at once: no bucket is deleted and the
    backend's [post_destroy_cluster] is not called.  When it succeeds,
    every bucket found is sent to [delete_bucket], failures of the
    deletions are ignored, and [post_destroy_cluster] is called last.
    Buckets are looked up only with [remove_buckets]; a failed lookup, as
    for a corefiler entry with a bucket and no ['s3Type'], leaves none to
    delete. *)
Theorem destroy_nodes_then_buckets :
  forall remove_buckets S3TYPE_NAME corefilers destroyed delete_bucket post_destroy_cluster,
    lookup_settles remove_buckets S3TYPE_NAME corefilers ->
    (forall e, destroyed = Raise e ->
       destroy remove_buckets S3TYPE_NAME corefilers destroyed delete_bucket
         post_destroy_cluster = ([DestroyNodes], Raise e)) /\
    (destroyed = Return tt ->
     (forall b e, delete_bucket b = Some e -> is_Exception e = true) ->
     destroy remove_buckets S3TYPE_NAME corefilers destroyed delete_bucket
       post_destroy_cluster
       = (DestroyNodes
            :: map DeleteBucket (to_delete remove_buckets S3TYPE_NAME corefilers)
            ++ [PostDestroy],
          post_destroy_cluster)) /\
    (remove_buckets = false -> to_delete remove_buckets S3TYPE_NAME corefilers = []) /\
    (forall calls cs d bucket,
       corefilers = Return calls -> gathered calls = Return cs -> In d (concat cs) ->
       d !! "bucket" = Some bucket -> d !! "s3Type" = None ->
       to_delete remove_buckets S3TYPE_NAME corefilers = []).
Proof.
  intros remove_buckets S3 corefilers destroyed delete_bucket post Hl.
  assert (Hlook : (if remove_buckets then
                     match lookup S3 corefilers with
                     | Return found => Return found
                     | Raise e => if is_Exception e then Return [] else Raise e
                     end
                   else Return []) = Return (to_delete remove_buckets S3 corefilers)).
  { unfold to_delete, lookup_settles in *. destruct remove_buckets; [|reflexivity].
    destruct (lookup S3 corefilers) as [found|e]; [reflexivity|].
    now rewrite (Hl eq_refl e eq_refl). }
  split_and!.
  - intros e ->. unfold destroy. now rewrite Hlook.
  - intros -> Hd. unfold destroy. rewrite Hlook.
    destruct (remove_buckets && negb (bool_decide (to_delete remove_buckets S3 corefilers = [])))
      eqn:Hb.
    + now rewrite (delete_buckets_all delete_bucket _ Hd).
    + assert (Hnil : to_delete remove_buckets S3 corefilers = []).
      { unfold to_delete in *. destruct remove_buckets; [|reflexivity]. cbn [andb] in Hb.
        apply negb_false_iff, bool_decide_eq_true in Hb. exact Hb. }
      now rewrite Hnil.
  - intros ->. reflexivity.
  - intros calls cs d bucket -> Hg Hin Hb Hs. unfold to_delete, lookup.
    rewrite Hg, (bucket_names_KeyError S3 (concat cs) d bucket Hin Hb Hs).
    now destruct remove_buckets.
Qed.

(** One bucket of the service, whose deletion fails. *)
Lemma destroy_nodes_then_buckets_witness :
  destroy true "amazon" example_corefilers (Return tt)
    (fun _ => Some (Fault "BucketNotEmpty")) (Return tt)
    = (DestroyNodes :: map DeleteBucket (to_delete true "amazon" example_corefilers)
         ++ [PostDestroy],
       Return tt).
Proof.
  refine (proj1 (proj2 (destroy_nodes_then_buckets true "amazon" example_corefilers (Return tt)
                          (fun _ => Some (Fault "BucketNotEmpty")) (Return tt) _))
            eq_refl _).
  - intros _ e. vm_compute. intros [=].
  - intros b e [= <-]. reflexivity.
Defined.

End TeardownProperties.

Section VserverProperties.
Import Config Vserver.

Lemma wait_for_activity_undecided name replies : forall retries made,
  0 <= retries < len replies ->
  Forall undecided (take (Z.to_nat retries + 1) replies) ->
  wait_for_activity name retries made replies
    = Activity.Raised (made + Z.to_nat retries + 1)
        (vFXTConfigurationException ("Timed out waiting for vserver " +:+ name)).
Proof.
  induction replies as [|reply rest IH]; intros retries made Hr Hall.
  - unfold len in Hr. cbn in Hr. lia.
  - replace (Z.to_nat retries + 1)%nat with (S (Z.to_nat retries)) in Hall by lia.
    cbn [take] in Hall. inversion Hall as [|? ? (r & -> & Hs & Hf) Hrest]; subst.
    cbn [wait_for_activity]. rewrite !bool_decide_eq_false_2 by assumption.
    destruct (Z.eqb_spec retries 0) as [->|Hne]; [f_equal; lia|].
    rewrite IH; [f_equal; lia | |].
    + unfold len in *. cbn [length] in Hr. lia.
    + now replace (Z.to_nat (retries - 1) + 1)%nat with (Z.to_nat retries) by lia.
Qed.

Lemma wait_for_activity_bounded name replies : forall retries made,
  0 <= retries < len replies ->
  exists n, (n <= made + Z.to_nat retries + 1)%nat /\
    (wait_for_activity name retries made replies = Activity.Completed n \/
     exists e, wait_for_activity name retries made replies = Activity.Raised n e).
Proof.
  induction replies as [|reply rest IH]; intros retries made Hr.
  - unfold len in Hr. cbn in Hr. lia.
  - cbn [wait_for_activity]. destruct reply as [r|e].
    + destruct (bool_decide _); [exists (S made); split; [lia | now left]|].
      destruct (bool_decide _); [exists (S made); split; [lia | right; eauto]|].
      destruct (Z.eqb_spec retries 0) as [|Hne]; [exists (S made); split; [lia | right; eauto]|].
      destruct (IH (retries - 1) (S made)) as (n & Hn & Hres).
      * unfold len in *. cbn [length] in Hr. lia.
      * exists n. split; [lia | exact Hres].
    + exists (S made). split; [lia | right; eauto].
Qed.

(** X28.  [add_vserver] waits for the activity of [vserver.create] for at
    most [retries + 1] polls.  The loop looks for a failure in the
    [status] of a reply, not in its [state]: an activity that has failed,
    with the failure text in [status], is polled until the retries run out
    and reported as ["Timed out waiting for vserver ..."].  The range sent
    is the one given only when netmask, start and end are all given;
    otherwise all three come from the backend. *)
Theorem add_vserver_waits :
  forall name size netmask start_address end_address retries node_count available expand
         activity replies,
    activity <> "success" ->
    (0 <= retries < len replies ->
     exists n, (n <= Z.to_nat retries + 1)%nat /\
       (create name retries (Return activity) replies = Activity.Completed n \/
        exists e, create name retries (Return activity) replies = Activity.Raised n e)) /\
    (0 <= retries < len replies ->
     Forall undecided (take (Z.to_nat retries + 1) replies) ->
     create name retries (Return activity) replies
       = Activity.Raised (Z.to_nat retries + 1)
           (vFXTConfigurationException ("Timed out waiting for vserver " +:+ name))) /\
    (forall status,
       status <> "failure" -> undecided (Return (Activity.failed_reply status))) /\
    (forallb truthy [netmask; start_address; end_address] = false ->
     forall first rest mask,
       available (if negb (size =? 0) then size else node_count) = Return (first :: rest, mask) ->
       fst (add_vserver name size netmask start_address end_address retries node_count
              available expand (Return activity) replies)
         = Some (first, List.last (first :: rest) first, mask)).
Proof.
  intros name size netmask start_address end_address retries node_count available expand
    activity replies Ha.
  assert (Hc : create name retries (Return activity) replies
               = wait_for_activity name retries 0 replies).
  { unfold create. apply String.eqb_neq in Ha. now rewrite Ha. }
  rewrite Hc. split_and!.
  - intros Hr. apply (wait_for_activity_bounded name replies retries 0 Hr).
  - intros Hr Hall. now rewrite (wait_for_activity_undecided name replies retries 0 Hr Hall).
  - intros status Hs. exists (Activity.failed_reply status). split_and!; [reflexivity | |].
    + unfold Activity.failed_reply. rewrite lookup_insert_eq. discriminate.
    + unfold Activity.failed_reply. rewrite lookup_insert_ne by discriminate.
      rewrite lookup_singleton_eq. congruence.
  - intros Hmissing first rest mask Hav. unfold add_vserver, vserver_range.
    rewrite Hmissing. cbn [negb]. now rewrite Hav.
Qed.

(** One retry and an activity that has failed. *)
Lemma add_vserver_waits_witness :
  create "vserver" 1 (Return "activity-9")
    [Return (Activity.failed_reply "address range in use");
     Return (Activity.failed_reply "address range in use")]
    = Activity.Raised (Z.to_nat 1 + 1)
        (vFXTConfigurationException ("Timed out waiting for vserver " +:+ "vserver")).
Proof.
  refine (proj1 (proj2 (add_vserver_waits "vserver" 0 None None None 1 3
                          (fun _ => Raise (Fault "none")) (fun _ _ => Return [])
                          "activity-9"
                          [Return (Activity.failed_reply "address range in use");
                           Return (Activity.failed_reply "address range in use")] _)) _ _).
  - discriminate.
  - unfold len. cbn. lia.
  - repeat constructor; (eexists; split_and!; [reflexivity | vm_compute; congruence
                                              | vm_compute; congruence]).
Defined.

End VserverProperties.

Section PowerProperties.
Import Config Power.

Lemma powerdown_count calls : forall rpc_retries,
  1 <= rpc_retries ->
  (length (fst (powerdown rpc_retries calls)) <= Z.to_nat rpc_retries)%nat.
Proof.
  induction calls as [|c rest IH]; intros k Hk; cbn [powerdown]; [cbn; lia|].
  destruct c as [response|e]; [|cbn; lia].
  destruct (String.eqb response "success"); [cbn; lia|].
  destruct (Z.eqb_spec (k - 1) 0) as [|Hne]; [cbn; lia|].
  specialize (IH (k - 1) ltac:(lia)).
  destruct (powerdown (k - 1) rest) as [t o]. cbn [fst length] in *. lia.
Qed.

Lemma powerdown_events calls : forall rpc_retries,
  Forall (fun ev => ev = Powerdown) (fst (powerdown rpc_retries calls)).
Proof.
  induction calls as [|c rest IH]; intros k; cbn [powerdown]; [constructor|].
  destruct c as [response|e]; [|repeat constructor].
  destruct (String.eqb response "success"); [repeat constructor|].
  destruct (k - 1 =? 0); [repeat constructor|].
  specialize (IH (k - 1)). destruct (powerdown (k - 1) rest) as [t o].
  constructor; [reflexivity | exact IH].
Qed.

Lemma powerdown_success calls : forall rpc_retries t,
  powerdown rpc_retries calls = (t, Finished (Return tt)) -> In (Return "success") calls.
Proof.
  induction calls as [|c rest IH]; intros k t H; cbn [powerdown] in H; [discriminate|].
  destruct c as [response|e]; [|discriminate].
  destruct (String.eqb_spec response "success") as [->|_]; [now left|].
  destruct (k - 1 =? 0); [discriminate|].
  destruct (powerdown (k - 1) rest) as [t' o] eqn:Hp. injection H as <- ->.
  right. now apply (IH (k - 1) t').
Qed.

Lemma go_offline_events polls : forall retries,
  Forall (fun ev => ev = Refresh) (fst (go_offline retries polls)).
Proof.
  induction polls as [|p rest IH]; intros k; cbn [go_offline]; [constructor|].
  destruct (refreshed p); [|repeat constructor].
  destruct (k - 1 =? 0); [repeat constructor|].
  destruct (is_on (nodes_then p)); [|repeat constructor].
  specialize (IH (k - 1)). destruct (go_offline (k - 1) rest) as [t o].
  constructor; [reflexivity | exact IH].
Qed.

Lemma go_offline_seen polls : forall retries t,
  go_offline retries polls = (t, Finished (Return tt)) ->
  exists p, In p polls /\ is_on (nodes_then p) = false.
Proof.
  induction polls as [|p rest IH]; intros k t H; cbn [go_offline] in H; [discriminate|].
  destruct (refreshed p); [|discriminate].
  destruct (k - 1 =? 0); [discriminate|].
  destruct (is_on (nodes_then p)) eqn:Hon.
  - destruct (go_offline (k - 1) rest) as [t' o] eqn:Hg. injection H as <- ->.
    destruct (IH (k - 1) t' Hg) as (q & Hq & Hoff). exists q. split; [now right | exact Hoff].
  - exists p. split; [now left | exact Hon].
Qed.

Lemma not_stop_in (t : list event) (ev : event) :
  ev <> StopNodes -> Forall (fun x => x = ev) t -> ~ In StopNodes t.
Proof.
  intros Hne Hall Hin. rewrite List.Forall_forall in Hall. apply Hall in Hin. congruence.
Qed.

(** X29.  [stop] with [clean_stop] on a running cluster whose password is
    known powers the cluster down before it stops the instances: the
    instances are stopped only after [cluster.powerdown()] has answered
    ['success'] and the nodes have been seen off after a refresh; when a
    node cannot be stopped nothing is done at all; and the power-down is
    asked for at most [XMLRPC_RETRIES] times. *)
Theorem stop_powers_down_first :
  forall admin_password nodes retries XMLRPC_RETRIES calls polls stopped refreshed_last,
    truthy admin_password = true -> is_on nodes = true ->
    (forallb can_stop nodes = false ->
     stop admin_password nodes true retries XMLRPC_RETRIES calls polls stopped refreshed_last
       = ([], Finished (Raise (vFXTConfigurationException
                                 "Node configuration prevents them from being stopped")))) /\
    (stops_nodes (stop admin_password nodes true retries XMLRPC_RETRIES calls polls stopped
                    refreshed_last) ->
     In (Return "success") calls /\
     exists p, In p polls /\ is_on (nodes_then p) = false) /\
    (1 <= XMLRPC_RETRIES ->
     (length (List.filter (fun ev => match ev with Powerdown => true | _ => false end)
                (fst (stop admin_password nodes true retries XMLRPC_RETRIES calls polls stopped
                        refreshed_last)))
      <= Z.to_nat XMLRPC_RETRIES)%nat).
Proof.
  intros admin_password nodes retries R calls polls stopped refreshed_last Hp Hon.
  unfold stop. rewrite Hp, Hon. cbn [andb]. split_and!.
  - intros ->. reflexivity.
  - destruct (forallb can_stop nodes); cbn [negb]; [|intros []].
    pose proof (powerdown_events calls R) as Hpe.
    destruct (powerdown R calls) as [t o] eqn:Hpd. cbn [fst] in Hpe.
    assert (Hnot : ~ In StopNodes t) by (apply (not_stop_in t Powerdown); [discriminate | exact Hpe]).
    destruct o as [[[]|e]|]; [| intros H; now apply Hnot in H | intros H; now apply Hnot in H].
    pose proof (go_offline_events polls retries) as Hge.
    destruct (go_offline retries polls) as [t' o'] eqn:Hgo. cbn [fst] in Hge.
    assert (Hnot' : ~ In StopNodes (t ++ t')).
    { intros Hin. apply in_app_or in Hin as [Hin | Hin]; [now apply Hnot in Hin|].
      revert Hin. apply (not_stop_in t' Refresh); [discriminate | exact Hge]. }
    destruct o' as [[[]|e]|]; [| intros H; now apply Hnot' in H | intros H; now apply Hnot' in H].
    intros _. split; [now apply (powerdown_success calls R t)|].
    now apply (go_offline_seen polls retries t').
  - intros HR. destruct (forallb can_stop nodes); cbn [negb]; [|cbn; lia].
    pose proof (powerdown_count calls R HR) as Hcount.
    pose proof (powerdown_events calls R) as Hpe.
    destruct (powerdown R calls) as [t o] eqn:Hpd. cbn [fst] in *.
    assert (Hfilter : forall l, Forall (fun ev => ev = Refresh) l ->
              List.filter (fun ev => match ev with Powerdown => true | _ => false end) l = []).
    { intros l Hl. induction Hl as [|x l -> _ IH]; [reflexivity | exact IH]. }
    assert (Hle : forall l, (length (List.filter
                     (fun ev => match ev with Powerdown => true | _ => false end) l)
                   <= length l)%nat).
    { intros l. induction l as [|x l IH]; cbn; [lia|]. destruct x; cbn; lia. }
    assert (Hmain : forall t' extra,
              Forall (fun ev => ev = Refresh) t' ->
              List.filter (fun ev => match ev with Powerdown => true | _ => false end) extra = [] ->
              (length (List.filter
                         (fun ev => match ev with Powerdown => true | _ => false end)
                         ((t ++ t') ++ extra)) <= Z.to_nat R)%nat).
    { intros t' extra Ht' He. rewrite !List.filter_app, (Hfilter t' Ht'), He, !app_nil_r.
      specialize (Hle t). lia. }
    destruct o as [[[]|e]|]; [| specialize (Hle t); cbn [fst]; lia
                              | specialize (Hle t); cbn [fst]; lia].
    pose proof (go_offline_events polls retries) as Hge.
    destruct (go_offline retries polls) as [t' o'] eqn:Hgo. cbn [fst] in Hge.
    destruct o' as [[[]|e]|].
    + destruct stopped; cbn [fst]; apply Hmain; (exact Hge || reflexivity).
    + cbn [fst]. rewrite <- (app_nil_r (t ++ t')). apply Hmain; (exact Hge || reflexivity).
    + cbn [fst]. rewrite <- (app_nil_r (t ++ t')). apply Hmain; (exact Hge || reflexivity).
Qed.

(** The second node cannot be stopped. *)
Lemma stop_powers_down_first_witness :
  stop (Some "secret")
    [ {| on := true; can_stop := true |}; {| on := true; can_stop := false |} ]
    true 600 5 [Return "success"] [] (Return tt) (Return tt)
    = ([], Finished (Raise (vFXTConfigurationException
                              "Node configuration prevents them from being stopped"))).
Proof.
  apply (proj1 (stop_powers_down_first (Some "secret")
                  [ {| on := true; can_stop := true |}; {| on := true; can_stop := false |} ]
                  600 5 [Return "success"] [] (Return tt) (Return tt) eq_refl eq_refl)).
  reflexivity.
Defined.

End PowerProperties.

Section NameShape.
Import Regex NameCheck.

Variable s : list ascii.

Lemma star_class_chars set i j :
  matches s (Star (Class set)) i j ->
  forall k, (i <= k < j)%nat -> exists c, nth_error s k = Some c /\ set c = true.
Proof.
  intros H. remember (Star (Class set)) as r eqn:Hr.
  induction H as [| | | | | | | a i | a i k j Ha _ Hs IH]; try discriminate.
  - intros k Hk. lia.
  - injection Hr as ->. inversion Ha as [| | |set' i' c Hc Hset| | | | |]; subst.
    intros k Hk. destruct (Nat.eq_dec k i) as [->|Hne]; [eauto|].
    apply (IH eq_refl). lia.
Qed.

Lemma lower_hyphen_lower_digit c : lower c = true -> hyphen_lower_digit c = true.
Proof. unfold lower, hyphen_lower_digit. intros ->. now rewrite orb_true_r. Qed.

Lemma lower_lower_digit c : lower c = true -> lower_digit c = true.
Proof. unfold lower, lower_digit. now intros ->. Qed.

Lemma lower_digit_hyphen_lower_digit c :
  lower_digit c = true -> hyphen_lower_digit c = true.
Proof.
  unfold lower_digit, hyphen_lower_digit. intros H.
  apply orb_true_iff in H as [-> | ->]; [now rewrite orb_true_r | now rewrite !orb_true_r].
Qed.

Lemma pattern_shape i j :
  matches s cluster_name_pattern i j ->
  exists n,
    (1 <= n)%nat /\
    (n = length s \/ (S n = length s /\ nth_error s n = Some newline)) /\
    (exists c, nth_error s 0 = Some c /\ lower c = true) /\
    (forall k, (k < n)%nat -> exists c, nth_error s k = Some c /\ hyphen_lower_digit c = true) /\
    (exists c, nth_error s (n - 1) = Some c /\ lower_digit c = true).
Proof.
  unfold cluster_name_pattern. intros H.
  inversion H as [| | | |? ? ? k0 ? Hbol H1| | | |]; subst.
  inversion Hbol; subst.
  inversion H1 as [| | | |? ? ? k1 ? Hfirst H2| | | |]; subst.
  inversion Hfirst as [| | |? ? c0 Hc0 Hl0| | | | |]; subst.
  inversion H2 as [| | | |? ? ? k2 ? Hopt Heol| | | |]; subst.
  assert (Hend : k2 = length s \/ (S k2 = length s /\ nth_error s k2 = Some newline)).
  { inversion Heol; subst; [now left | right; now split]. }
  inversion Hopt as [| | | | |? ? ? Hbody| | |]; subst.
  - inversion Hbody as [| | | |? ? ? k3 ? Hstar Hlast| | | |]; subst.
    inversion Hlast as [| | |? ? c1 Hc1 Hl1| | | | |]; subst.
    pose proof (matches_bounds s _ _ _ Hstar) as [Hle _].
    exists (S k3). split_and!; [lia | exact Hend | eauto | | ].
    + intros k Hk. destruct (Nat.eq_dec k 0%nat) as [->|Hk0].
      * exists c0. split; [exact Hc0 | now apply lower_hyphen_lower_digit].
      * destruct (Nat.eq_dec k k3) as [->|Hk3].
        -- exists c1. split; [exact Hc1 | now apply lower_digit_hyphen_lower_digit].
        -- apply (star_class_chars _ _ _ Hstar). lia.
    + exists c1. split; [|exact Hl1]. now replace (S k3 - 1)%nat with k3 by lia.
  - exists 1%nat. split_and!; [lia | exact Hend | eauto | | ].
    + intros k Hk. assert (k = 0%nat) as -> by lia.
      exists c0. split; [exact Hc0 | now apply lower_hyphen_lower_digit].
    + exists c0. split; [exact Hc0 | now apply lower_lower_digit].
Qed.

End NameShape.

Section NameShapeProperties.
Import Regex NameCheck.

(** X30.  A name [valid_cluster_name] accepts starts with a lowercase
    letter, goes on with lowercase letters, digits and hyphens only, and
    does not end with a hyphen; one line feed may follow the name. *)
Theorem valid_cluster_name_characters :
  forall name,
    valid_cluster_name name = true ->
    exists n,
      (1 <= n <= 128)%nat /\
      (n = String.length name \/
       (S n = String.length name /\
        nth_error (list_ascii_of_string name) n = Some newline)) /\
      (exists c, nth_error (list_ascii_of_string name) 0 = Some c /\ lower c = true) /\
      (forall k, (k < n)%nat ->
         exists c, nth_error (list_ascii_of_string name) k = Some c /\
                   hyphen_lower_digit c = true) /\
      (exists c, nth_error (list_ascii_of_string name) (n - 1) = Some c /\
                 lower_digit c = true).
Proof.
  intros name H. unfold valid_cluster_name in H.
  destruct (Z.ltb_spec (Z.of_nat (String.length name)) 1); [discriminate|].
  destruct (Z.gtb_spec (Z.of_nat (String.length name)) 128); [discriminate|].
  cbn [orb] in H. destruct (search cluster_name_pattern name) eqn:Hs; [|discriminate].
  apply search_found in Hs as (i & j & _ & Hm).
  destruct (pattern_shape _ i j Hm) as (n & Hn & Hend & Hfirst & Hall & Hlast).
  rewrite length_list_ascii_of_string in Hend.
  exists n. split_and!; [lia | | exact Hend | exact Hfirst | exact Hall | exact Hlast].
  destruct Hend as [-> | [Hlen _]]; lia.
Qed.

(** The name vfxt-1. *)
Lemma valid_cluster_name_characters_witness :
  exists n,
    (1 <= n <= 128)%nat /\
    (n = String.length "vfxt-1" \/
     (S n = String.length "vfxt-1" /\
      nth_error (list_ascii_of_string "vfxt-1") n = Some newline)) /\
    (exists c, nth_error (list_ascii_of_string "vfxt-1") 0 = Some c /\ lower c = true) /\
    (forall k, (k < n)%nat ->
       exists c, nth_error (list_ascii_of_string "vfxt-1") k = Some c /\
                 hyphen_lower_digit c = true) /\
    (exists c, nth_error (list_ascii_of_string "vfxt-1") (n - 1) = Some c /\
               lower_digit c = true).
Proof. apply valid_cluster_name_characters. reflexivity. Defined.

End NameShapeProperties.
